(** * iCash: cash register, owner's dashboard and database bootstrap

  A shallow embedding of the three Python services of the repository

    - [dashboard-service/app/main.py]      (module [Dashboard]),
    - [cash-register-service/app/main.py]  (module [CashRegister]),
    - [db-init/init.py]                    (module [DbInit]),

  over a common model of the PostgreSQL store they share (module
  [Store]), followed by the properties of the specification. *)

From Stdlib Require Import ZArith Lia Ascii String Sorting.Sorted.
From stdpp Require Import base option list sorting strings gmap.

Open Scope Z_scope.

(* ===================================================================== *)
(** * The dashboard: best-selling products *)
(* ===================================================================== *)

Module Dashboard.

(** One row of [top_products_query]: [(product_name, sales_count)]. *)
Abbreviation row := (string * Z)%type.

(** The JSON object [{"name": product[0], "sales": product[1]}]. *)
Record entry : Type := Entry { name : string; sales : Z }.

Definition entry_of (product : row) : entry :=
  {| name := product.1; sales := product.2 |}.

(** [ORDER BY sales_count DESC]: the order among equal counts is left to
    the database, so the rows are any list that is descending in the
    count. *)
Definition by_sales_desc (a b : row) : Prop := b.2 <= a.2.
Definition ordered_desc (rows : list row) : Prop := Sorted by_sales_desc rows.

Definition entries_desc (es : list entry) : Prop :=
  Sorted (fun a b => sales b <= sales a) es.

(** [third_place_sales_count]: 0 unless there are at least three rows. *)
Definition third_place_sales_count (all_products : list row) : Z :=
  if (3 <=? length all_products)%nat
  then match all_products !! 2%nat with
       | Some product => product.2
       | None => 0
       end
  else 0.

(** The [for product in all_products] loop, with [break]. *)
Fixpoint top_loop (third : Z) (top_products : list entry)
         (all_products : list row) : list entry :=
  match all_products with
  | [] => top_products
  | product :: rest =>
      if (length top_products <? 3)%nat || (third <=? product.2)
      then top_loop third (top_products ++ [entry_of product]) rest
      else top_products
  end.

(** [stats['top_products']] of [get_stats], from the rows of the query. *)
Definition top_products (all_products : list row) : list entry :=
  match all_products with
  | [] => []
  | _ => top_loop (third_place_sales_count all_products) [] all_products
  end.

(** The rows the tie rule of the specification selects. *)
Definition tie_inclusive_top3 (all_products : list row) : list row :=
  match all_products !! 2%nat with
  | Some third => filter (fun p => third.2 <= p.2) all_products
  | None => all_products
  end.

End Dashboard.

(* ===================================================================== *)
(** * The store: three relations, their constraints, and a connection *)
(* ===================================================================== *)

Module Store.

(** ** Rows, as declared by the [CREATE TABLE] statements of [init.py] *)

(** [products]: [product_id SERIAL PRIMARY KEY], [product_name
    VARCHAR(255) NOT NULL UNIQUE], [unit_price NUMERIC(10, 2) NOT NULL]
    (kept in hundredths). *)
Record product : Type := Product {
  product_id : Z;
  product_name : string;
  unit_price : Z
}.

(** [purchases]: [purchase_id SERIAL PRIMARY KEY], [supermarket_id
    VARCHAR(255) NOT NULL], [timestamp TIMESTAMP NOT NULL] (microseconds),
    [user_id VARCHAR(255) NOT NULL]. *)
Record purchase : Type := Purchase {
  purchase_id : Z;
  supermarket_id : string;
  timestamp : Z;
  user_id : string
}.

(** [purchase_items]: [purchase_id INT REFERENCES purchases],
    [product_id INT REFERENCES products], [PRIMARY KEY (purchase_id,
    product_id)]. *)
Record purchase_item : Type := PurchaseItem {
  item_purchase_id : Z;
  item_product_id : Z
}.

#[global] Instance product_eq_dec : EqDecision product.
Proof. solve_decision. Defined.
#[global] Instance purchase_eq_dec : EqDecision purchase.
Proof. solve_decision. Defined.
#[global] Instance purchase_item_eq_dec : EqDecision purchase_item.
Proof. solve_decision. Defined.

(** The rows of the three relations, and the two [SERIAL] sequences
    (their last value).  Sequences are not transactional: a value
    drawn by [nextval] stays drawn when the transaction rolls back. *)
Record database : Type := Database {
  products : list product;
  purchases : list purchase;
  purchase_items : list purchase_item;
  products_product_id_seq : Z;
  purchases_purchase_id_seq : Z
}.

(** What a statement can raise. *)
Inductive exn : Type :=
| UniqueViolation
| ForeignKeyViolation
| StringDataRightTruncation
| NumericValueOutOfRange
| InvalidDatetimeFormat
| OperationalError
| InvalidRequestError.

Inductive result (A : Type) : Type :=
| Ok (a : A)
| Raise (e : exn).
Arguments Ok {A} a.
Arguments Raise {A} e.

(** A statement runs against the database; when it raises, nothing of
    it stays but the sequence values it drew. *)
Definition statement (A : Type) : Type := database -> database * result A.

Definition set_products_seq (v : Z) (d : database) : database :=
  {| products := products d; purchases := purchases d;
     purchase_items := purchase_items d;
     products_product_id_seq := v;
     purchases_purchase_id_seq := purchases_purchase_id_seq d |}.

Definition set_purchases_seq (v : Z) (d : database) : database :=
  {| products := products d; purchases := purchases d;
     purchase_items := purchase_items d;
     products_product_id_seq := products_product_id_seq d;
     purchases_purchase_id_seq := v |}.

Definition add_product (p : product) (d : database) : database :=
  {| products := products d ++ [p]; purchases := purchases d;
     purchase_items := purchase_items d;
     products_product_id_seq := products_product_id_seq d;
     purchases_purchase_id_seq := purchases_purchase_id_seq d |}.

Definition add_purchase (p : purchase) (d : database) : database :=
  {| products := products d; purchases := purchases d ++ [p];
     purchase_items := purchase_items d;
     products_product_id_seq := products_product_id_seq d;
     purchases_purchase_id_seq := purchases_purchase_id_seq d |}.

Definition add_purchase_item (i : purchase_item) (d : database) : database :=
  {| products := products d; purchases := purchases d;
     purchase_items := purchase_items d ++ [i];
     products_product_id_seq := products_product_id_seq d;
     purchases_purchase_id_seq := purchases_purchase_id_seq d |}.

(** [VARCHAR(255)] counts characters, not bytes: in the UTF-8 text of
    a string every byte but a continuation byte ([10xxxxxx]) starts
    one. *)
Definition is_continuation_byte (a : ascii) : bool :=
  let n := nat_of_ascii a in ((128 <=? n) && (n <? 192))%nat.

Fixpoint char_length (s : string) : nat :=
  match s with
  | EmptyString => 0%nat
  | String a rest =>
      if is_continuation_byte a then char_length rest
      else S (char_length rest)
  end.

Definition fits_varchar255 (s : string) : bool :=
  (char_length s <=? 255)%nat.

(** [INT]: 32 bits. *)
Definition fits_int4 (z : Z) : bool :=
  (- 2 ^ 31 <=? z) && (z <? 2 ^ 31).

(** [NUMERIC(10, 2)]: fewer than 10^8 units, that is 10^10 hundredths. *)
Definition fits_numeric_10_2 (hundredths : Z) : bool :=
  Z.abs hundredths <? 10 ^ 10.

(** [INSERT INTO products (product_name, unit_price) VALUES ...]: the
    values are converted to the columns' types first, and a value that
    does not fit is refused there; only then is the id drawn from the
    sequence and the row checked against the keys. *)
Definition insert_product (name : string) (price : Z) : statement Z :=
  fun d =>
    if negb (fits_varchar255 name) then (d, Raise StringDataRightTruncation)
    else if negb (fits_numeric_10_2 price) then (d, Raise NumericValueOutOfRange)
    else
      let pid := products_product_id_seq d + 1 in
      let d1 := set_products_seq pid d in
      if bool_decide (pid ∈ (product_id <$> products d))
        then (d1, Raise UniqueViolation)
      else if bool_decide (name ∈ (product_name <$> products d))
        then (d1, Raise UniqueViolation)
      else (add_product (Product pid name price) d1, Ok pid).

(** [INSERT INTO purchases (supermarket_id, timestamp, user_id) VALUES
    (...) RETURNING purchase_id].  The timestamp parameter is [None]
    when the text bound to it is not a timestamp.  As for products, a
    value that does not fit its column is refused before the id is
    drawn. *)
Definition insert_purchase (sid : string) (ts : option Z) (uid : string)
  : statement Z :=
  fun d =>
    if negb (fits_varchar255 sid) then (d, Raise StringDataRightTruncation)
    else match ts with
    | None => (d, Raise InvalidDatetimeFormat)
    | Some t =>
      if negb (fits_varchar255 uid) then (d, Raise StringDataRightTruncation)
      else
        let pid := purchases_purchase_id_seq d + 1 in
        let d1 := set_purchases_seq pid d in
        if bool_decide (pid ∈ (purchase_id <$> purchases d))
          then (d1, Raise UniqueViolation)
        else (add_purchase (Purchase pid sid t uid) d1, Ok pid)
    end.

(** [INSERT INTO purchase_items (purchase_id, product_id) VALUES ...]:
    the primary key is checked on insertion, the two foreign keys at
    the end of the statement.  A product id outside [INT] is refused
    for its value; no row of [products] has such an id, so the refusal
    stands where the id is not found. *)
Definition insert_purchase_item (pid prod : Z) : statement unit :=
  fun d =>
    if bool_decide (PurchaseItem pid prod ∈ purchase_items d)
      then (d, Raise UniqueViolation)
    else if negb (bool_decide (pid ∈ (purchase_id <$> purchases d)))
      then (d, Raise ForeignKeyViolation)
    else if negb (bool_decide (prod ∈ (product_id <$> products d)))
      then (d, Raise (if fits_int4 prod then ForeignKeyViolation
                      else NumericValueOutOfRange))
    else (add_purchase_item (PurchaseItem pid prod) d, Ok tt).

(** [SELECT COUNT( * ) FROM products] and [... FROM purchases]. *)
Definition count_products : statement Z :=
  fun d => (d, Ok (Z.of_nat (length (products d)))).
Definition count_purchases : statement Z :=
  fun d => (d, Ok (Z.of_nat (length (purchases d)))).

(** [SELECT product_name, product_id FROM products]. *)
Definition select_product_name_id : statement (list (string * Z)) :=
  fun d => (d, Ok ((fun p => (product_name p, product_id p)) <$> products d)).

(** [SELECT * FROM products ORDER BY product_id]. *)
Definition by_product_id (a b : product) : Prop :=
  product_id a <= product_id b.
#[global] Instance by_product_id_dec a b : Decision (by_product_id a b).
Proof. unfold by_product_id. apply _. Defined.

Definition select_products_ordered : statement (list product) :=
  fun d => (d, Ok (merge_sort by_product_id (products d))).

(** [CREATE TABLE IF NOT EXISTS ...]: no row is touched. *)
Definition create_table_if_not_exists : statement unit :=
  fun d => (d, Ok tt).

(** ** A connection *)

(** What the services print. *)
Inductive event : Type :=
| Recorded (purchase_id : Z) (customer_id : string)
| ErrorDuring (e : exn)
| Warning (name : string)
| Loaded (table : string) (n : nat)
| Info (message : string).

(** The database behind the connection, the number of statements sent
    so far, and standard output. *)
Record session : Type := Session {
  db : database;
  clock : nat;
  stdout : list event
}.

(** Code that runs on a connection: it changes the session and returns
    or raises. *)
Definition M (A : Type) : Type := session -> session * result A.

Definition ret {A} (a : A) : M A := fun s => (s, Ok a).

Definition bind {A B} (m : M A) (k : A -> M B) : M B :=
  fun s => match m s with
           | (s1, Ok a) => k a s1
           | (s1, Raise e) => (s1, Raise e)
           end.

Definition print (ev : event) : M unit :=
  fun s => ({| db := db s; clock := clock s; stdout := stdout s ++ [ev] |},
            Ok tt).

Definition tick (d : database) (s : session) : session :=
  {| db := d; clock := S (clock s); stdout := stdout s |}.

(** [conn.execute(text(...))].  [link n] tells whether the [n]-th
    statement sent reaches the server; when it does not, the driver
    raises [OperationalError] and the database is as it was. *)
Definition execute {A} (link : nat -> bool) (stmt : statement A) : M A :=
  fun s =>
    if link (clock s)
    then let '(d, r) := stmt (db s) in (tick d s, r)
    else (tick (db s) s, Raise OperationalError).

(** [conn.execute(text(...))] inside a [with conn.begin()] block whose
    transaction is over already: the library refuses the statement
    with [InvalidRequestError], and nothing is sent. *)
Definition execute_in_closed_transaction {A} (stmt : statement A) : M A :=
  fun s => (s, Raise InvalidRequestError).

(** The rows come back to those of the snapshot; the sequences stay. *)
Definition restore (snapshot d : database) : database :=
  {| products := products snapshot; purchases := purchases snapshot;
     purchase_items := purchase_items snapshot;
     products_product_id_seq := products_product_id_seq d;
     purchases_purchase_id_seq := purchases_purchase_id_seq d |}.

(** [COMMIT] of the transaction begun at [snapshot]: when it does not
    reach the server the transaction is lost. *)
Definition commit (link : nat -> bool) (snapshot : database) : M unit :=
  fun s =>
    if link (clock s)
    then (tick (db s) s, Ok tt)
    else (tick (restore snapshot (db s)) s, Raise OperationalError).

(** [ROLLBACK] of the transaction begun at [snapshot]: the server drops
    the transaction also when the link is gone. *)
Definition rollback (link : nat -> bool) (snapshot : database) : M unit :=
  fun s =>
    (tick (restore snapshot (db s)) s,
     if link (clock s) then Ok tt else Raise OperationalError).

(** [with conn.begin(): body]: commit when the body returns, roll back
    and re-raise when it raises. *)
Definition with_begin {A} (link : nat -> bool) (body : M A) : M A :=
  fun s =>
    let snapshot := db s in
    match body s with
    | (s1, Ok a) =>
        match commit link snapshot s1 with
        | (s2, Ok _) => (s2, Ok a)
        | (s2, Raise e) => (s2, Raise e)
        end
    | (s1, Raise e) => ((rollback link snapshot s1).1, Raise e)
    end.

(** [for x in xs: body(x)]. *)
Fixpoint for_each {A} (xs : list A) (body : A -> M unit) : M unit :=
  match xs with
  | [] => ret tt
  | x :: rest => bind (body x) (fun _ => for_each rest body)
  end.

(** The rows of the three relations, without the sequences. *)
Definition rows (d : database)
  : list product * list purchase * list purchase_item :=
  (products d, purchases d, purchase_items d).

(** Referential integrity of [purchase_items]. *)
Definition references_ok (d : database) : Prop :=
  forall i, i ∈ purchase_items d ->
    item_purchase_id i ∈ (purchase_id <$> purchases d).

Definition link_up : nat -> bool := fun _ => true.

End Store.

Declare Scope conn_scope.
Delimit Scope conn_scope with conn.
Notation "x <- m ;; k" := (Store.bind m (fun x => k))
(at level 100, m at next level, right associativity) : conn_scope.
Notation "m ;;; k" := (Store.bind m (fun _ => k))
(at level 100, right associativity) : conn_scope.

(* ===================================================================== *)
(** * The cash register: [submit_purchase] *)
(* ===================================================================== *)

Module CashRegister.
Import Store.
Local Open Scope conn_scope.

(** The context given to [templates.TemplateResponse("index.html", ...)]
    and the status code. *)
Record response : Type := TemplateResponse {
  page_products : list product;
  supermarkets : list string;
  error : option string;
  success_message : option string;
  status_code : Z
}.

Definition SUPERMARKETS : list string :=
  ["SMKT001"; "SMKT002"; "SMKT003"]%string.

(** [str(uuid.uuid4()) if is_new_customer or not user_id else user_id];
    [uuid4] is the identifier [uuid.uuid4()] yields in this call. *)
Definition customer_id (uuid4 : string) (user_id : string)
           (is_new_customer : bool) : string :=
  if is_new_customer || bool_decide (user_id = ""%string)
  then uuid4 else user_id.

(** [# 4. Insert each item from the purchase into the junction table]. *)
Definition insert_items (link : nat -> bool) (purchase_id : Z)
           (items : list Z) : M unit :=
  for_each items (fun item_id =>
    execute link (insert_purchase_item purchase_id item_id)).

(** The body of the [try] block: steps 3 and 4 and the success line. *)
Definition record_purchase (link : nat -> bool) (supermarket_id : string)
           (purchase_time : Z) (customer : string) (items : list Z) : M Z :=
  purchase_id <-
    execute link (insert_purchase supermarket_id (Some purchase_time) customer) ;;
  (insert_items link purchase_id items ;;;
   print (Recorded purchase_id customer) ;;;
   ret purchase_id).

Definition success_page (products_result : list product) (customer : string)
  : response :=
  {| page_products := products_result;
     supermarkets := SUPERMARKETS;
     error := None;
     success_message :=
       Some ("Purchase recorded for user " +:+ customer +:+ "!")%string;
     status_code := 200 |}.

Definition error_page (products_result : list product) : response :=
  {| page_products := products_result;
     supermarkets := SUPERMARKETS;
     error := Some "Failed to process purchase."%string;
     success_message := None;
     status_code := 500 |}.

(** [submit_purchase], on the connection of the engine.  [uuid4] and
    [now] are what [uuid.uuid4()] and [datetime.now()] yield. *)
Definition submit_purchase (link : nat -> bool) (uuid4 : string) (now : Z)
           (supermarket_id user_id : string) (is_new_customer : bool)
           (items : list Z) : M response :=
  fun s =>
    let customer := customer_id uuid4 user_id is_new_customer in
    let snapshot := db s in
    match record_purchase link supermarket_id now customer items s with
    | (s1, Ok _) =>
        (* the [with conn.begin()] block ends: commit; then re-fetch *)
        (commit link snapshot ;;;
         products_result <- execute link select_products_ordered ;;
         ret (success_page products_result customer)) s1
    | (s1, Raise e) =>
        (* [except Exception as e]: after [transaction.rollback()] the
           [with conn.begin()] block is still open, and its transaction
           is over *)
        (print (ErrorDuring e) ;;;
         rollback link snapshot ;;;
         products_result <- execute_in_closed_transaction
                              select_products_ordered ;;
         ret (error_page products_result)) s1
    end.

(** The form of a request to [POST /submit_purchase], as it is read for
    the parameters of the function: a field the form does not carry is
    [None]; [items] is a repeated field, and [form_items] its values. *)
Record purchase_form : Type := PurchaseForm {
  form_supermarket_id : option string;
  form_user_id : option string;
  form_is_new_customer : option bool;
  form_items : list Z
}.

(** What the route answers: the page the function returns, or 422 for
    a form that lacks a required field. *)
Inductive answer : Type :=
| Page (page : response)
| UnprocessableEntity.

(** [@app.post("/submit_purchase")] with the parameters of the
    function: [Form(...)] makes [supermarket_id], [user_id] and [items]
    required, and a list field without a value is a missing field;
    [is_new_customer] is [False] when absent.  A request that lacks a
    required field is answered before the function is entered; a field
    that is present with the empty text is passed on. *)
Definition post_submit_purchase (link : nat -> bool) (uuid4 : string)
           (now : Z) (f : purchase_form) : M answer :=
  match form_supermarket_id f, form_user_id f, form_items f with
  | Some supermarket_id, Some user_id, _ :: _ =>
      page <- submit_purchase link uuid4 now supermarket_id user_id
                (default false (form_is_new_customer f)) (form_items f) ;;
      ret (Page page)
  | _, _, _ => ret UnprocessableEntity
  end.

(** The context of the page of [get_cash_register_ui]: the products and
    the supermarkets, no message. *)
Definition catalogue_page (products_result : list product) : response :=
  {| page_products := products_result;
     supermarkets := SUPERMARKETS;
     error := None;
     success_message := None;
     status_code := 200 |}.

(** [get_cash_register_ui], on the connection it opens. *)
Definition get_cash_register_ui (link : nat -> bool) : M response :=
  products_result <- execute link select_products_ordered ;;
  ret (catalogue_page products_result).

End CashRegister.

(* ===================================================================== *)
(** * The bootstrap: [initialize_database] *)
(* ===================================================================== *)

Module DbInit.
Import Store.
Local Open Scope conn_scope.

(** A row of [products_df] and of [purchases_df], the frames read from
    [data/products_list.csv] and [data/purchases.csv]: the fields are
    the values the code takes from the row, and [csv_items_list] is the
    text [str(row['items_list'])] (for a cell left empty in the file
    the frame holds NaN, and that text is [nan]).  Text is held as its
    UTF-8 bytes. *)
Record product_row : Type := ProductRow {
  csv_product_name : string;
  csv_unit_price : Z
}.

Record purchase_row : Type := PurchaseRow {
  csv_supermarket_id : string;
  csv_timestamp : string;
  csv_user_id : string;
  csv_items_list : string
}.

(** [s.split(',')]. *)
Fixpoint split_comma (s : string) : list string :=
  match s with
  | EmptyString => [EmptyString]
  | String a rest =>
      if Ascii.eqb a ","%char then EmptyString :: split_comma rest
      else match split_comma rest with
           | first :: others => String a first :: others
           | [] => [String a EmptyString]
           end
  end.

(** The white space [str.strip()] removes: the characters for which
    [str.isspace()] holds.  Of one byte these are U+0009 to U+000D and
    U+001C to U+0020. *)
Definition is_space (a : ascii) : bool :=
  let n := Ascii.nat_of_ascii a in
  ((9 <=? n) && (n <=? 13) || (28 <=? n) && (n <=? 32))%nat.

(** Of two bytes: U+0085 and U+00A0, that is [C2 85] and [C2 A0]. *)
Definition is_space2 (a b : ascii) : bool :=
  let m := Ascii.nat_of_ascii a in
  let n := Ascii.nat_of_ascii b in
  ((m =? 194) && ((n =? 133) || (n =? 160)))%nat.

(** Of three bytes: U+1680 ([E1 9A 80]); U+2000 to U+200A, U+2028,
    U+2029 and U+202F ([E2 80] and one of [80] to [8A], [A8], [A9],
    [AF]); U+205F ([E2 81 9F]); U+3000 ([E3 80 80]). *)
Definition is_space3 (a b c : ascii) : bool :=
  let l := Ascii.nat_of_ascii a in
  let m := Ascii.nat_of_ascii b in
  let n := Ascii.nat_of_ascii c in
  ((l =? 225) && (m =? 154) && (n =? 128)
   || (l =? 226) && (m =? 128)
      && ((128 <=? n) && (n <=? 138) || (n =? 168) || (n =? 169) || (n =? 175))
   || (l =? 226) && (m =? 129) && (n =? 159)
   || (l =? 227) && (m =? 128) && (n =? 128))%nat.

(** [s.lstrip()]: the white space characters the text starts with are
    dropped. *)
Fixpoint lstrip (s : string) : string :=
  match s with
  | EmptyString => EmptyString
  | String a rest =>
      if is_space a then lstrip rest
      else match rest with
           | String b rest2 =>
               if is_space2 a b then lstrip rest2
               else match rest2 with
                    | String c rest3 =>
                        if is_space3 a b c then lstrip rest3 else s
                    | EmptyString => s
                    end
           | EmptyString => s
           end
  end.

(** A text of white space only. *)
Definition all_space (s : string) : bool :=
  match lstrip s with
  | EmptyString => true
  | String _ _ => false
  end.

(** [s.rstrip()]: the text is cut where what follows is white space
    only. *)
Fixpoint rstrip (s : string) : string :=
  match s with
  | EmptyString => EmptyString
  | String a rest =>
      if all_space s then EmptyString else String a (rstrip rest)
  end.

Definition strip (s : string) : string := rstrip (lstrip s).

(** [[name.strip() for name in str(row['items_list']).split(',')]]. *)
Definition product_names (row : purchase_row) : list string :=
  strip <$> split_comma (csv_items_list row).

(** [products_df.to_sql('products', conn, if_exists='append',
    index=False)]: one insert of all the rows. *)
Fixpoint insert_rows (rows : list product_row) : statement unit :=
  fun d =>
    match rows with
    | [] => (d, Ok tt)
    | r :: rest =>
        match insert_product (csv_product_name r) (csv_unit_price r) d with
        | (d1, Ok _) => insert_rows rest d1
        | (d1, Raise e) => (d1, Raise e)
        end
    end.

Definition to_sql (products_df : list product_row) : statement unit :=
  fun d =>
    match insert_rows products_df d with
    | (d1, Ok _) => (d1, Ok tt)
    | (d1, Raise e) => (restore d d1, Raise e)
    end.

(** [{name: pid for name, pid in product_map_result}]: a later row
    replaces an earlier one of the same name. *)
Definition name_to_id_map_of (product_map_result : list (string * Z))
  : gmap string Z :=
  foldl (fun m row => <[row.1 := row.2]> m) ∅ product_map_result.

(** [product_id = name_to_id_map.get(name)] followed by [if
    product_id:], which is false on [None] and on [0]. *)
Definition known_product (name_to_id_map : gmap string Z) (name : string)
  : option Z :=
  match name_to_id_map !! name with
  | Some product_id => if bool_decide (product_id = 0) then None
                       else Some product_id
  | None => None
  end.

(** The [for name in product_names] loop. *)
Definition insert_line_items (link : nat -> bool)
           (name_to_id_map : gmap string Z) (new_purchase_id : Z)
           (names : list string) : M unit :=
  for_each names (fun name =>
    match known_product name_to_id_map name with
    | Some product_id =>
        execute link (insert_purchase_item new_purchase_id product_id)
    | None => print (Warning name)
    end).

(** The body of the [for index, row in purchases_df.iterrows()] loop.
    [timestamp_in] is the conversion PostgreSQL applies to the text
    bound to the [timestamp] column. *)
Definition replay_purchase (link : nat -> bool)
           (timestamp_in : string -> option Z)
           (name_to_id_map : gmap string Z) (row : purchase_row) : M unit :=
  new_purchase_id <-
    execute link (insert_purchase (csv_supermarket_id row)
                                  (timestamp_in (csv_timestamp row))
                                  (csv_user_id row)) ;;
  insert_line_items link name_to_id_map new_purchase_id (product_names row).

(** [# Load products if the table is empty]. *)
Definition load_products (link : nat -> bool) (products_df : list product_row)
  : M unit :=
  n_products <- execute link count_products ;;
  if bool_decide (n_products = 0)
  then (print (Info "'products' table is empty. Loading data...") ;;;
        execute link (to_sql products_df) ;;;
        print (Loaded "products" (length products_df)))
  else print (Info "'products' table already has data.").

(** [# After loading, create a map of product_name -> product_id] and
    [# Load historical purchases if the table is empty]. *)
Definition load_purchases (link : nat -> bool)
           (timestamp_in : string -> option Z)
           (purchases_df : list purchase_row) : M unit :=
  product_map_result <- execute link select_product_name_id ;;
  let name_to_id_map := name_to_id_map_of product_map_result in
  (print (Info "Created product name-to-ID map") ;;;
   n_purchases <- execute link count_purchases ;;
   if bool_decide (n_purchases = 0)
   then (print (Info "'purchases' table is empty. Loading historical data...") ;;;
         for_each purchases_df
           (replay_purchase link timestamp_in name_to_id_map) ;;;
         print (Loaded "purchases" (length purchases_df)))
   else print (Info "'purchases' table already has data.")).

(** The body of [with conn.begin() as transaction:]. *)
Definition load_data (link : nat -> bool) (timestamp_in : string -> option Z)
           (products_df : list product_row) (purchases_df : list purchase_row)
  : M unit :=
  load_products link products_df ;;;
  load_purchases link timestamp_in purchases_df.

(** [# --- Create tables in the correct order ---], up to
    [conn.commit()]. *)
Definition create_tables (link : nat -> bool) : M unit :=
  execute link create_table_if_not_exists ;;;
  print (Info "'products' table created.") ;;;
  execute link create_table_if_not_exists ;;;
  print (Info "'purchases' table created.") ;;;
  execute link create_table_if_not_exists ;;;
  print (Info "'purchase_items' table created.") ;;;
  (fun s => commit link (db s) s).

(** [initialize_database(engine)], on the connection it opens. *)
Definition initialize_database (link : nat -> bool)
           (timestamp_in : string -> option Z)
           (products_df : list product_row) (purchases_df : list purchase_row)
  : M unit :=
  print (Info "Starting database initialization...") ;;;
  create_tables link ;;;
  with_begin link (load_data link timestamp_in products_df purchases_df) ;;;
  print (Info "Database initialization complete!").

(** What [wait_for_db] prints and does between two attempts. *)
Inductive startup_event : Type :=
| Connected
| NotReady (attempt max_retries retry_delay : nat)
| Slept (seconds : nat)
| GaveUp.

(** How [wait_for_db] ends: it returns the engine of the attempt that
    connected, or the process exits. *)
Inductive startup : Type :=
| Engine (attempt : nat)
| Exit (code : Z).

Definition max_retries : nat := 10.
Definition retry_delay : nat := 5.

(** The [for i in range(max_retries)] loop from attempt [i] on, with
    [todo] attempts left.  [ready i] tells whether [engine.connect()]
    succeeds at attempt [i]. *)
Fixpoint wait_loop (ready : nat -> bool) (i todo : nat)
  : list startup_event * startup :=
  match todo with
  | O => ([GaveUp], Exit 1)
  | S todo' =>
      if ready i then ([Connected], Engine i)
      else let '(evs, r) := wait_loop ready (S i) todo' in
           (NotReady (i + 1) max_retries retry_delay :: Slept retry_delay :: evs,
            r)
  end.

(** [wait_for_db()]. *)
Definition wait_for_db (ready : nat -> bool) : list startup_event * startup :=
  wait_loop ready 0 max_retries.

(** The [if __name__ == "__main__":] block: the database is initialized
    on the engine [wait_for_db] returns, if it returns. *)
Definition main (ready : nat -> bool) (link : nat -> bool)
           (timestamp_in : string -> option Z)
           (products_df : list product_row) (purchases_df : list purchase_row)
           (s : session) : list startup_event * option (session * result unit) :=
  match wait_for_db ready with
  | (evs, Engine _) =>
      (evs, Some (initialize_database link timestamp_in products_df
                                      purchases_df s))
  | (evs, Exit _) => (evs, None)
  end.

End DbInit.

(* ===================================================================== *)
(** * The dashboard: the queries of [get_stats] *)
(* ===================================================================== *)

Module Stats.
Import Store Dashboard.
Local Open Scope conn_scope.

(** [GROUP BY key] with [COUNT]: one row per distinct key, with the
    number of rows that have it. *)
Definition group_count (keys : list string) : list (string * Z) :=
  (fun k => (k, Z.of_nat (length (filter (fun x => x = k) keys))))
    <$> remove_dups keys.

Definition by_sales_desc_dec (a b : row) : Decision (by_sales_desc a b) :=
  Z_le_dec b.2 a.2.

(** [ORDER BY ... DESC] on the count.  SQL leaves the order of rows with
    equal counts to the server; one sort stands for the server's here,
    and what is proved of the queries does not say where rows with
    equal counts stand. *)
Definition order_by_count_desc (rows : list (string * Z)) : list (string * Z) :=
  @merge_sort _ by_sales_desc by_sales_desc_dec rows.

(** [SELECT COUNT(DISTINCT user_id) FROM purchases]. *)
Definition unique_shoppers_query : statement Z :=
  fun d => (d, Ok (Z.of_nat (length (remove_dups (user_id <$> purchases d))))).

(** [SELECT user_id, COUNT(purchase_id) as purchase_count FROM purchases
    GROUP BY user_id HAVING COUNT(purchase_id) >= 3 ORDER BY
    purchase_count DESC]. *)
Definition loyal_shoppers_query : statement (list (string * Z)) :=
  fun d =>
    (d, Ok (order_by_count_desc
              (filter (fun r => 3 <= r.2)
                      (group_count (user_id <$> purchases d))))).

(** [purchase_items pi JOIN products p ON pi.product_id = p.product_id],
    projected on [p.product_name]. *)
Definition sold_names (d : database) : list string :=
  pi ← purchase_items d;
  p ← products d;
  if decide (item_product_id pi = product_id p) then [product_name p] else [].

(** [SELECT p.product_name, COUNT(pi.product_id) as sales_count FROM ...
    GROUP BY p.product_name ORDER BY sales_count DESC]. *)
Definition top_products_query : statement (list row) :=
  fun d => (d, Ok (order_by_count_desc (group_count (sold_names d)))).

(** [row._asdict()] of a loyal shopper. *)
Record shopper : Type := Shopper {
  shopper_user_id : string;
  purchase_count : Z
}.

Definition shopper_of (r : string * Z) : shopper :=
  {| shopper_user_id := r.1; purchase_count := r.2 |}.

(** The [stats] dictionary. *)
Record stats : Type := MkStats {
  unique_shoppers : Z;
  loyal_shoppers : list shopper;
  stats_top_products : list entry
}.

(** [get_stats], on the connection it opens. *)
Definition get_stats (link : nat -> bool) : M stats :=
  unique <- execute link unique_shoppers_query ;;
  loyal <- execute link loyal_shoppers_query ;;
  all_products <- execute link top_products_query ;;
  ret {| unique_shoppers := unique;
         loyal_shoppers := shopper_of <$> loyal;
         stats_top_products := top_products all_products |}.

End Stats.

(* ===================================================================== *)
(** * Reasoning about code on a connection *)
(* ===================================================================== *)

Module StoreFacts.
Import Store.

Lemma bind_inv {A B} (m : M A) (k : A -> M B) s s' r :
  bind m k s = (s', r) ->
  (exists e, m s = (s', Raise e) /\ r = Raise e)
  \/ (exists s1 a, m s = (s1, Ok a) /\ k a s1 = (s', r)).
Proof.
  unfold bind. destruct (m s) as [s1 [a|e]]; intros H.
  - right. by exists s1, a.
  - left. exists e. by simplify_eq.
Qed.

Lemma bind_ok {A B} (m : M A) (k : A -> M B) s s' b :
  bind m k s = (s', Ok b) ->
  exists s1 a, m s = (s1, Ok a) /\ k a s1 = (s', Ok b).
Proof.
  intros [(e & _ & ?)|H]%bind_inv; [done|exact H].
Qed.

Lemma print_inv ev s s' r :
  print ev s = (s', r) ->
  r = Ok tt /\ db s' = db s /\ clock s' = clock s
  /\ stdout s' = stdout s ++ [ev].
Proof. unfold print. intros H. by simplify_eq. Qed.

(** What [execute] does, by the state of the link. *)
Lemma execute_inv {A} link (stmt : statement A) s s' r :
  execute link stmt s = (s', r) ->
  clock s' = S (clock s) /\ stdout s' = stdout s
  /\ ((link (clock s) = true /\ stmt (db s) = (db s', r))
      \/ (link (clock s) = false /\ db s' = db s /\ r = Raise OperationalError)).
Proof.
  unfold execute. destruct (link (clock s)).
  - destruct (stmt (db s)) as [d r0] eqn:Hs. intros H. simplify_eq.
    simpl. auto.
  - intros H. simplify_eq. simpl. auto 6.
Qed.

Lemma restore_same d : restore d d = d.
Proof. by destruct d. Qed.

Lemma rows_restore snapshot d : rows (restore snapshot d) = rows snapshot.
Proof. done. Qed.

(** ** Frames: what a piece of code leaves alone *)

Section Frame.
Variable R : database -> database -> Prop.
Hypothesis R_refl : forall d, R d d.
Hypothesis R_trans : forall a b c, R a b -> R b c -> R a c.
Hypothesis R_restore : forall snapshot d,
  R snapshot d -> R snapshot (restore snapshot d).

Definition stmt_keeps {A} (stmt : statement A) : Prop :=
  forall d, R d (stmt d).1.

Definition keeps {A} (m : M A) : Prop :=
  forall s s' r, m s = (s', r) -> R (db s) (db s').

Lemma keeps_ret {A} (a : A) : keeps (ret a).
Proof. intros s s' r H. unfold ret in H. simplify_eq. apply R_refl. Qed.

Lemma keeps_print ev : keeps (print ev).
Proof.
  intros s s' r (_ & Hd & _)%print_inv. rewrite Hd. apply R_refl.
Qed.

Lemma keeps_bind {A B} (m : M A) (k : A -> M B) :
  keeps m -> (forall a, keeps (k a)) -> keeps (bind m k).
Proof.
  intros Hm Hk s s' r [(e & H & _)|(s1 & a & H1 & H2)]%bind_inv.
  - by eapply Hm.
  - eapply R_trans; [by eapply Hm | by eapply Hk].
Qed.

Lemma keeps_execute {A} link (stmt : statement A) :
  stmt_keeps stmt -> keeps (execute link stmt).
Proof.
  intros Hs s s' r (_ & _ & [[_ H]|(_ & Hd & _)])%execute_inv.
  - specialize (Hs (db s)). by rewrite H in Hs.
  - rewrite Hd. apply R_refl.
Qed.

Lemma keeps_for_each {A} (xs : list A) (body : A -> M unit) :
  (forall x, keeps (body x)) -> keeps (for_each xs body).
Proof.
  intros Hb. induction xs as [|x xs IH]; simpl.
  - apply keeps_ret.
  - apply keeps_bind; [apply Hb | intros _; exact IH].
Qed.

Lemma keeps_commit_here link : keeps (fun s => commit link (db s) s).
Proof.
  intros s s' r. unfold commit. destruct (link (clock s)); intros H;
    simplify_eq; simpl; [|rewrite restore_same]; apply R_refl.
Qed.

Lemma with_begin_from {A} link (body : M A) s s' r :
  (forall s1 r1, body s = (s1, r1) -> R (db s) (db s1)) ->
  with_begin link body s = (s', r) -> R (db s) (db s').
Proof.
  intros Hb. unfold with_begin.
  destruct (body s) as [s1 [a|e]] eqn:Hbody.
  - unfold commit. destruct (link (clock s1)); intros H; simplify_eq; simpl.
    + by eapply Hb.
    + apply R_restore. by eapply Hb.
  - intros H. simplify_eq. simpl. apply R_restore. by eapply Hb.
Qed.

Lemma keeps_with_begin {A} link (body : M A) :
  keeps body -> keeps (with_begin link body).
Proof.
  intros Hb s s' r. apply with_begin_from. intros s1 r1. apply Hb.
Qed.
End Frame.

(** The product catalogue and its sequence are as they were. *)
Definition products_untouched (d d' : database) : Prop :=
  products d' = products d
  /\ products_product_id_seq d' = products_product_id_seq d.

(** The ledger (purchases, their items and the purchase sequence) is as
    it was. *)
Definition ledger_untouched (d d' : database) : Prop :=
  purchases d' = purchases d
  /\ purchase_items d' = purchase_items d
  /\ purchases_purchase_id_seq d' = purchases_purchase_id_seq d.

Lemma products_untouched_refl d : products_untouched d d.
Proof. done. Qed.
Lemma products_untouched_trans a b c :
  products_untouched a b -> products_untouched b c -> products_untouched a c.
Proof. unfold products_untouched. intros [? ?] [? ?]. split; congruence. Qed.
Lemma products_untouched_restore snapshot d :
  products_untouched snapshot d -> products_untouched snapshot (restore snapshot d).
Proof. unfold products_untouched. intros [_ ?]. done. Qed.

Lemma ledger_untouched_refl d : ledger_untouched d d.
Proof. done. Qed.
Lemma ledger_untouched_trans a b c :
  ledger_untouched a b -> ledger_untouched b c -> ledger_untouched a c.
Proof.
  unfold ledger_untouched. intros (? & ? & ?) (? & ? & ?).
  repeat split; congruence.
Qed.
Lemma ledger_untouched_restore snapshot d :
  ledger_untouched snapshot d -> ledger_untouched snapshot (restore snapshot d).
Proof. unfold ledger_untouched. intros (_ & _ & ?). done. Qed.

Lemma untouched_eq d d' :
  products_untouched d d' -> ledger_untouched d d' -> d' = d.
Proof.
  destruct d, d'. unfold products_untouched, ledger_untouched. simpl.
  intros [? ?] (? & ? & ?). congruence.
Qed.

(** ** The statements *)

Lemma insert_purchase_products sid ts uid :
  stmt_keeps products_untouched (insert_purchase sid ts uid).
Proof.
  intros d. unfold insert_purchase.
  repeat (case_match; try done).
Qed.

Lemma insert_purchase_item_products pid prod :
  stmt_keeps products_untouched (insert_purchase_item pid prod).
Proof.
  intros d. unfold insert_purchase_item.
  repeat (case_match; try done).
Qed.

Lemma insert_product_ledger name price :
  stmt_keeps ledger_untouched (insert_product name price).
Proof.
  intros d. unfold insert_product.
  repeat (case_match; try done).
Qed.

(** A purchase insert that returns: the id is the next of the sequence,
    it was free, and one row was added. *)
Lemma insert_purchase_ok sid ts uid d d' pid :
  insert_purchase sid ts uid d = (d', Ok pid) ->
  exists t, ts = Some t
    /\ pid = purchases_purchase_id_seq d + 1
    /\ (pid ∉ (purchase_id <$> purchases d))
    /\ d' = add_purchase (Purchase pid sid t uid) (set_purchases_seq pid d).
Proof.
  unfold insert_purchase. intros H.
  repeat (case_match; simplify_eq).
  match goal with Hd : bool_decide _ = false |- _ =>
    apply bool_decide_eq_false in Hd end.
  eauto.
Qed.

(** A purchase insert that raises leaves the rows alone. *)
Lemma insert_purchase_raise sid ts uid d d' e :
  insert_purchase sid ts uid d = (d', Raise e) -> rows d' = rows d.
Proof.
  unfold insert_purchase. intros H.
  repeat (case_match; simplify_eq); done.
Qed.

Lemma insert_purchase_item_ok pid prod d d' u :
  insert_purchase_item pid prod d = (d', Ok u) ->
  (PurchaseItem pid prod ∉ purchase_items d)
  /\ (pid ∈ (purchase_id <$> purchases d))
  /\ (prod ∈ (product_id <$> products d))
  /\ d' = add_purchase_item (PurchaseItem pid prod) d.
Proof.
  unfold insert_purchase_item. intros H.
  repeat (case_match; simplify_eq).
  repeat match goal with
  | Hd : bool_decide _ = false |- _ => apply bool_decide_eq_false in Hd
  | Hd : negb _ = false |- _ => apply negb_false_iff in Hd
  | Hd : bool_decide _ = true |- _ => apply bool_decide_eq_true in Hd
  end.
  done.
Qed.

Lemma insert_purchase_item_raise pid prod d d' e :
  insert_purchase_item pid prod d = (d', Raise e) -> d' = d.
Proof.
  unfold insert_purchase_item. intros H.
  repeat (case_match; simplify_eq); done.
Qed.

(** An item insert whose checks pass returns. *)
Lemma insert_purchase_item_passes pid prod d :
  PurchaseItem pid prod ∉ purchase_items d ->
  pid ∈ (purchase_id <$> purchases d) ->
  prod ∈ (product_id <$> products d) ->
  insert_purchase_item pid prod d
  = (add_purchase_item (PurchaseItem pid prod) d, Ok tt).
Proof.
  intros H1 H2 H3. unfold insert_purchase_item.
  rewrite (bool_decide_eq_false_2 _ H1).
  rewrite (bool_decide_eq_true_2 _ H2).
  rewrite (bool_decide_eq_true_2 _ H3). done.
Qed.

(** An item insert for a product that does not exist raises. *)
Lemma insert_purchase_item_missing pid prod d :
  prod ∉ (product_id <$> products d) ->
  exists e, insert_purchase_item pid prod d = (d, Raise e).
Proof.
  intros H. unfold insert_purchase_item.
  rewrite (bool_decide_eq_false_2 _ H).
  destruct (bool_decide (PurchaseItem pid prod ∈ purchase_items d)); [eauto|].
  destruct (bool_decide (pid ∈ (purchase_id <$> purchases d))); simpl; eauto.
Qed.

(** The database with more line items. *)
Definition append_items (d : database) (new : list purchase_item) : database :=
  {| products := products d; purchases := purchases d;
     purchase_items := purchase_items d ++ new;
     products_product_id_seq := products_product_id_seq d;
     purchases_purchase_id_seq := purchases_purchase_id_seq d |}.

Lemma append_items_nil d : append_items d [] = d.
Proof. destruct d. unfold append_items. simpl. by rewrite app_nil_r. Qed.

Lemma append_items_cons d i new :
  append_items (add_purchase_item i d) new = append_items d (i :: new).
Proof.
  unfold append_items, add_purchase_item. simpl.
  by rewrite <- app_assoc.
Qed.

Lemma filter_none {A} (P : A -> Prop) `{!forall x, Decision (P x)} (l : list A) :
  (forall x, x ∈ l -> ~ P x) -> filter P l = [].
Proof.
  induction l as [|x l IH]; intros Hall; [done|].
  rewrite filter_cons_False by (apply Hall; by left).
  apply IH. intros y Hy. apply Hall. by right.
Qed.

Lemma filter_all {A} (P : A -> Prop) `{!forall x, Decision (P x)} (l : list A) :
  (forall x, x ∈ l -> P x) -> filter P l = l.
Proof.
  induction l as [|x l IH]; intros Hall; [done|].
  rewrite filter_cons_True by (apply Hall; by left).
  f_equal. apply IH. intros y Hy. apply Hall. by right.
Qed.

End StoreFacts.

(* ===================================================================== *)
(** * Properties of the cash register *)
(* ===================================================================== *)

Module CashRegisterFacts.
Import Store StoreFacts CashRegister.

(** When the loop returns, every item was inserted, in order. *)
Lemma insert_items_ok link pid items : forall s s' u,
  insert_items link pid items s = (s', Ok u) ->
  db s' = append_items (db s) (PurchaseItem pid <$> items)
  /\ stdout s' = stdout s
  /\ clock s' = (clock s + length items)%nat.
Proof.
  unfold insert_items.
  induction items as [|i items IH]; intros s s' u H; simpl in H.
  - unfold ret in H. simplify_eq. rewrite append_items_nil. simpl.
    repeat split; lia.
  - apply bind_ok in H as (s1 & a & H1 & H2).
    apply execute_inv in H1 as (Hc & Ho & [[_ Hi]|(_ & _ & ?)]); [|done].
    apply insert_purchase_item_ok in Hi as (_ & _ & _ & Hd).
    apply IH in H2 as (Hd2 & Ho2 & Hc2).
    rewrite Hd2, Hd, append_items_cons, Ho2, Ho, Hc2, Hc. simpl.
    repeat split; lia.
Qed.

(** The rows of the database do not change while the loop runs into a
    raise: the statement that raises adds nothing, but those before it
    did. What matters is that the loop only ever adds line items. *)
Lemma insert_items_products link pid items :
  keeps products_untouched (insert_items link pid items).
Proof.
  apply keeps_for_each;
    [apply products_untouched_refl | apply products_untouched_trans |].
  intros i. apply keeps_execute; [apply products_untouched_refl|].
  apply insert_purchase_item_products.
Qed.

(** An item that is no product makes the loop raise. *)
Lemma insert_items_missing link pid items : forall s,
  (exists i, i ∈ items /\ i ∉ (product_id <$> products (db s))) ->
  exists s' e, insert_items link pid items s = (s', Raise e).
Proof.
  unfold insert_items.
  induction items as [|i items IH]; intros s (j & Hj & Hmiss).
  - by apply elem_of_nil in Hj.
  - simpl. unfold bind.
    destruct (execute link (insert_purchase_item pid i) s) as [s1 [a|e]] eqn:H1;
      [|eauto].
    apply elem_of_cons in Hj as [->|Hj].
    + apply execute_inv in H1 as (_ & _ & [[_ Hi]|(_ & _ & ?)]); [|done].
      destruct (insert_purchase_item_missing pid i (db s) Hmiss) as [e He].
      congruence.
    + apply IH. exists j. split; [done|].
      assert (Hk : products_untouched (db s) (db s1)).
      { eapply (keeps_execute products_untouched products_untouched_refl);
          [apply insert_purchase_item_products | exact H1]. }
      destruct Hk as [-> _]. done.
Qed.

(** When the items are distinct products and none of them is on the
    purchase yet, the loop returns. *)
Lemma insert_items_passes link pid items : forall s,
  (forall n, link n = true) ->
  NoDup items ->
  (forall i, i ∈ items -> i ∈ (product_id <$> products (db s))) ->
  (forall i, i ∈ items -> PurchaseItem pid i ∉ purchase_items (db s)) ->
  pid ∈ (purchase_id <$> purchases (db s)) ->
  exists s', insert_items link pid items s = (s', Ok tt).
Proof.
  unfold insert_items.
  induction items as [|i items IH]; intros s Hlink Hnd Hprod Hnew Hpid; simpl.
  - by eexists.
  - apply NoDup_cons in Hnd as [Hi Hnd].
    unfold bind, execute. rewrite Hlink.
    rewrite insert_purchase_item_passes;
      [| apply Hnew; by left | done | apply Hprod; by left].
    apply IH; simpl; try done.
    + intros j Hj. apply Hprod. by right.
    + intros j Hj [Hin|Hin%list_elem_of_singleton]%elem_of_app.
      * eapply Hnew; [by right | exact Hin].
      * simplify_eq. done.
Qed.

Lemma record_purchase_eq link sid now cid items :
  record_purchase link sid now cid items
  = bind (execute link (insert_purchase sid (Some now) cid)) (fun pid =>
      bind (insert_items link pid items) (fun _ =>
        bind (print (Recorded pid cid)) (fun _ => ret pid))).
Proof. done. Qed.

(** The [try] block returned: one purchase row with the next id of the
    sequence, one line item per submitted product id, one line printed. *)
Lemma record_purchase_ok link sid now cid items s s1 pid :
  record_purchase link sid now cid items s = (s1, Ok pid) ->
  pid = purchases_purchase_id_seq (db s) + 1
  /\ (pid ∉ (purchase_id <$> purchases (db s)))
  /\ db s1 = append_items
               (add_purchase (Purchase pid sid now cid)
                             (set_purchases_seq pid (db s)))
               (PurchaseItem pid <$> items)
  /\ stdout s1 = stdout s ++ [Recorded pid cid]
  /\ clock s1 = (S (clock s) + length items)%nat.
Proof.
  rewrite record_purchase_eq. intros H.
  apply bind_ok in H as (s2 & pid' & H1 & H).
  apply bind_ok in H as (s3 & u & H2 & H).
  apply bind_ok in H as (s4 & u' & H3 & H).
  unfold ret in H. simplify_eq.
  apply execute_inv in H1 as (Hc1 & Ho1 & [[_ Hi]|(_ & _ & ?)]); [|done].
  apply insert_purchase_ok in Hi as (t & Ht & Hpid & Hfree & Hd).
  apply insert_items_ok in H2 as (Hd2 & Ho2 & Hc2).
  apply print_inv in H3 as (_ & Hd3 & Hc3 & Ho3).
  simplify_eq.
  rewrite Hd3, Hd2, Hd, Ho3, Ho2, Ho1, Hc3, Hc2, Hc1.
  repeat split; try done.
Qed.

(** The [try] block raised: the success line was not printed, and the
    products are as they were. *)
Lemma record_purchase_raise link sid now cid items s s1 e :
  record_purchase link sid now cid items s = (s1, Raise e) ->
  stdout s1 = stdout s /\ products_untouched (db s) (db s1).
Proof.
  rewrite record_purchase_eq. intros H. split.
  - apply bind_inv in H as [(e1 & H1 & _)|(s2 & pid & H1 & H)].
    { by apply execute_inv in H1 as (_ & ? & _). }
    apply execute_inv in H1 as (_ & Ho1 & _).
    apply bind_inv in H as [(e2 & H2 & _)|(s3 & u & H2 & H)].
    { clear -H2 Ho1. rewrite <- Ho1. revert H2. generalize s2.
      unfold insert_items.
      induction items as [|i items IH]; intros s0 H; simpl in H; [done|].
      apply bind_inv in H as [(e1 & H1 & _)|(s4 & u & H1 & H)].
      - by apply execute_inv in H1 as (_ & ? & _).
      - apply execute_inv in H1 as (_ & Ho & _). rewrite <- Ho. by apply IH. }
    apply bind_inv in H as [(e3 & H3 & _)|(s4 & u' & H3 & H)].
    { by apply print_inv in H3 as (? & _). }
    done.
  - revert H. apply keeps_bind; [apply products_untouched_trans | |].
    + apply keeps_execute; [apply products_untouched_refl|].
      apply insert_purchase_products.
    + intros pid. apply keeps_bind; [apply products_untouched_trans | |].
      * apply insert_items_products.
      * intros _. apply keeps_bind; [apply products_untouched_trans | |].
        -- apply keeps_print. apply products_untouched_refl.
        -- intros _. apply keeps_ret. apply products_untouched_refl.
Qed.

(** [submit_purchase] after a [try] block that raised: the handler
    prints the error and rolls back; then the re-fetch of the products
    is refused, as the rolled back transaction is still open, unless
    the rollback itself raised. *)
Lemma submit_purchase_failed link uuid4 now sid uid new items s s1 e :
  record_purchase link sid now (customer_id uuid4 uid new) items s
    = (s1, Raise e) ->
  let out := submit_purchase link uuid4 now sid uid new items s in
  rows (db out.1) = rows (db s)
  /\ products_product_id_seq (db out.1) = products_product_id_seq (db s)
  /\ purchases_purchase_id_seq (db out.1) = purchases_purchase_id_seq (db s1)
  /\ stdout out.1 = stdout s ++ [ErrorDuring e]
  /\ out.2 = Raise (if link (clock s1) then InvalidRequestError
                    else OperationalError).
Proof.
  intros Hbody. unfold submit_purchase. rewrite Hbody.
  apply record_purchase_raise in Hbody as [Ho [_ Hseq]].
  unfold bind, print, rollback, execute_in_closed_transaction, ret. simpl.
  destruct (link (clock s1)); simpl; rewrite Ho; done.
Qed.

(** [submit_purchase] after a [try] block that returned. *)
Lemma submit_purchase_recorded link uuid4 now sid uid new items s s1 pid :
  record_purchase link sid now (customer_id uuid4 uid new) items s
    = (s1, Ok pid) ->
  let out := submit_purchase link uuid4 now sid uid new items s in
  stdout out.1 = stdout s1
  /\ (if link (clock s1)
      then db out.1 = db s1
           /\ out.2 = (if link (S (clock s1))
                       then Ok (success_page
                                  (merge_sort by_product_id (products (db s1)))
                                  (customer_id uuid4 uid new))
                       else Raise OperationalError)
      else db out.1 = restore (db s) (db s1)
           /\ out.2 = Raise OperationalError).
Proof.
  intros Hbody. unfold submit_purchase. rewrite Hbody.
  unfold bind, commit, execute, select_products_ordered, ret. simpl.
  destruct (link (clock s1)); simpl; [|done].
  destruct (link (S (clock s1))); simpl; done.
Qed.

(** The purchase sequence is as it was. *)
Definition purchases_seq_kept (d d' : database) : Prop :=
  purchases_purchase_id_seq d' = purchases_purchase_id_seq d.

Lemma insert_items_seq link pid items :
  keeps purchases_seq_kept (insert_items link pid items).
Proof.
  apply keeps_for_each; [done | unfold purchases_seq_kept; congruence |].
  intros i. apply keeps_execute; [done|].
  intros d. unfold insert_purchase_item. repeat (case_match; try done).
Qed.

(** A submission that names a product that does not exist: the [try]
    block raises, after drawing a purchase id when the first statement
    reached the server with values that fit their columns. *)
Lemma record_purchase_missing link sid now cid items s :
  (exists i, i ∈ items /\ i ∉ (product_id <$> products (db s))) ->
  exists s1 e,
    record_purchase link sid now cid items s = (s1, Raise e)
    /\ (link (clock s) = true ->
        fits_varchar255 sid = true -> fits_varchar255 cid = true ->
        purchases_purchase_id_seq (db s1) = purchases_purchase_id_seq (db s) + 1).
Proof.
  intros Hmiss. rewrite record_purchase_eq. unfold bind at 1.
  destruct (execute link (insert_purchase sid (Some now) cid) s)
    as [s2 [pid|e]] eqn:H1.
  - pose proof H1 as Hk.
    apply (keeps_execute products_untouched products_untouched_refl) in Hk;
      [|apply insert_purchase_products].
    destruct Hk as [Hp _].
    apply execute_inv in H1 as (_ & _ & [[_ Hi]|(_ & _ & ?)]); [|done].
    apply insert_purchase_ok in Hi as (t & _ & Hpid & _ & Hd).
    destruct (insert_items_missing link pid items s2) as (s3 & e & H2).
    { by rewrite Hp. }
    exists s3, e. unfold bind. rewrite H2. split; [done|].
    intros _ _ _. apply insert_items_seq in H2. unfold purchases_seq_kept in H2.
    rewrite H2, Hd. simpl. lia.
  - exists s2, e. split; [done|]. intros Hl Hsid Hcid.
    apply execute_inv in H1 as (_ & _ & [[_ Hi]|(? & _)]); [|congruence].
    unfold insert_purchase in Hi. rewrite Hsid, Hcid in Hi. simpl in Hi.
    repeat (case_match; simplify_eq);
      match goal with Hd : _ = db s2 |- _ => by rewrite <- Hd end.
Qed.

(** A valid submission on a healthy link is recorded. *)
Lemma record_purchase_passes link sid now cid items s :
  (forall n, link n = true) ->
  fits_varchar255 sid = true ->
  fits_varchar255 cid = true ->
  purchases_purchase_id_seq (db s) + 1 ∉ (purchase_id <$> purchases (db s)) ->
  references_ok (db s) ->
  NoDup items ->
  (forall i, i ∈ items -> i ∈ (product_id <$> products (db s))) ->
  exists s1,
    record_purchase link sid now cid items s
    = (s1, Ok (purchases_purchase_id_seq (db s) + 1)).
Proof.
  intros Hlink Hsid Hcid Hfree Href Hnd Hprod.
  rewrite record_purchase_eq. unfold bind at 1. unfold execute at 1.
  rewrite Hlink. unfold insert_purchase.
  rewrite Hsid, Hcid, (bool_decide_eq_false_2 _ Hfree). simpl.
  set (pid := purchases_purchase_id_seq (db s) + 1) in *.
  match goal with |- context [bind (insert_items link pid items) _ ?s2] =>
    destruct (insert_items_passes link pid items s2) as [s3 H3] end;
    simpl; try done.
  - intros i Hi Hin. apply Href in Hin. simpl in Hin. done.
  - rewrite fmap_app. apply elem_of_app. right. by left.
  - unfold bind. rewrite H3. unfold print, ret. eauto.
Qed.

Definition shop : database :=
  {| products := [Product 1 "Milk" 350; Product 2 "Bread" 500];
     purchases := [Purchase 1 "SMKT001" 1000 "alice"];
     purchase_items := [PurchaseItem 1 2];
     products_product_id_seq := 2;
     purchases_purchase_id_seq := 1 |}.

Definition at_shop : session := {| db := shop; clock := 0; stdout := [] |}.

(** ** C2 *)

(** C2. When an insert of the ledger write raises (a constraint
    violation or a lost link, at the purchase row or at any line item),
    [submit_purchase] ends with the purchases, the line items and the
    products exactly as they were: nothing of the transaction is
    committed, and the answer, if any, is the failure page. *)
Theorem failed_insert_aborts_transaction
    link uuid4 now sid uid new items s s1 e :
  record_purchase link sid now (customer_id uuid4 uid new) items s
    = (s1, Raise e) ->
  let out := submit_purchase link uuid4 now sid uid new items s in
  purchases (db out.1) = purchases (db s)
  /\ purchase_items (db out.1) = purchase_items (db s)
  /\ products (db out.1) = products (db s)
  /\ stdout out.1 = stdout s ++ [ErrorDuring e]
  /\ (forall page, out.2 = Ok page -> status_code page = 500).
Proof.
  intros Hbody out.
  destruct (submit_purchase_failed _ _ _ _ _ _ _ _ _ _ Hbody)
    as (Hrows & _ & _ & Hout & Hres).
  fold out in Hrows, Hout, Hres. unfold rows in Hrows.
  repeat split; try congruence.
Qed.

Lemma failed_insert_aborts_transaction_witness :
  let out := submit_purchase link_up "uuid" 2000 "SMKT002" "bob" false
                             [1; 2; 7] at_shop in
  purchases (db out.1) = purchases shop
  /\ purchase_items (db out.1) = purchase_items shop
  /\ products (db out.1) = products shop
  /\ stdout out.1 = [ErrorDuring ForeignKeyViolation]
  /\ (forall page, out.2 = Ok page -> status_code page = 500).
Proof.
  refine (failed_insert_aborts_transaction link_up "uuid" 2000 "SMKT002"
            "bob" false [1; 2; 7] at_shop _ ForeignKeyViolation _).
  vm_compute. reflexivity.
Defined.

(** ** The route *)

(** A form that carries its required fields is passed to the function,
    and what the function returns or raises is the answer. *)
Lemma post_submit_purchase_entered link uuid4 now sid uid new items s :
  items <> [] ->
  post_submit_purchase link uuid4 now
    (PurchaseForm (Some sid) (Some uid) new items) s
  = match submit_purchase link uuid4 now sid uid (default false new) items s
    with
    | (s', Ok page) => (s', Ok (Page page))
    | (s', Raise e) => (s', Raise e)
    end.
Proof.
  intros Hne. unfold post_submit_purchase. simpl.
  destruct items as [|i items]; [done|].
  unfold bind, ret.
  by destruct (submit_purchase link uuid4 now sid uid (default false new)
                 (i :: items) s) as [s' [page|e]].
Qed.

(** A form without a value for [items] is answered with 422, and the
    function is not entered: the session is as it was. *)
Lemma post_submit_purchase_no_items link uuid4 now sid uid new s :
  post_submit_purchase link uuid4 now (PurchaseForm sid uid new []) s
  = (s, Ok UnprocessableEntity).
Proof. unfold post_submit_purchase. simpl. by destruct sid, uid. Qed.

(** A submission the function accepts: on a healthy link, with values
    that fit their columns, a free next purchase id and distinct
    existing products, the purchase and its line items are committed
    and the answer is the success page. *)
Lemma submit_purchase_accepted link uuid4 now sid uid new items s :
  (forall n, link n = true) ->
  fits_varchar255 sid = true ->
  fits_varchar255 (customer_id uuid4 uid new) = true ->
  purchases_purchase_id_seq (db s) + 1 ∉ (purchase_id <$> purchases (db s)) ->
  references_ok (db s) ->
  NoDup items ->
  (forall i, i ∈ items -> i ∈ (product_id <$> products (db s))) ->
  let cid := customer_id uuid4 uid new in
  let pid := purchases_purchase_id_seq (db s) + 1 in
  let out := submit_purchase link uuid4 now sid uid new items s in
  out.2 = Ok (success_page (merge_sort by_product_id (products (db s))) cid)
  /\ purchases (db out.1) = purchases (db s) ++ [Purchase pid sid now cid]
  /\ purchase_items (db out.1)
     = purchase_items (db s) ++ (PurchaseItem pid <$> items).
Proof.
  intros Hlink Hsid Hcid Hfree Href Hnd Hprod cid pid out.
  destruct (record_purchase_passes link sid now cid items s)
    as [s1 Hbody]; try done.
  destruct (submit_purchase_recorded _ _ _ _ _ _ _ _ _ _ Hbody) as (_ & Hres).
  fold out in Hres. rewrite !Hlink in Hres. destruct Hres as [Hdb Hres].
  apply record_purchase_ok in Hbody as (_ & _ & Hd & _).
  rewrite Hres, Hdb, Hd. simpl. done.
Qed.

(** ** C3 *)

(** A submission refused before any write: the request is answered
    with the validation error or an exception, and the database,
    sequences included, is as it was. *)
Definition rejected_before_write (s : session)
           (out : session * result answer) : Prop :=
  (out.2 = Ok UnprocessableEntity \/ exists e, out.2 = Raise e)
  /\ db out.1 = db s.

(** C3, as stated, fails: a submission with the empty supermarket id
    is recorded and answered with the success page, and one with an
    unknown product id fails only at the foreign key, after the
    purchase insert has drawn the next purchase id. *)
Lemma submissions_not_validated :
  let no_market :=
    post_submit_purchase link_up "uuid" 2000
      (PurchaseForm (Some "") (Some "bob") (Some false) [1]) at_shop in
  let unknown :=
    post_submit_purchase link_up "uuid" 2000
      (PurchaseForm (Some "SMKT002") (Some "bob") (Some false) [7]) at_shop in
  (~ rejected_before_write at_shop no_market
   /\ no_market.2 = Ok (Page (success_page (products shop) "bob"))
   /\ purchases (db no_market.1)
      = [Purchase 1 "SMKT001" 1000 "alice"; Purchase 2 "" 2000 "bob"]
   /\ purchase_items (db no_market.1) = [PurchaseItem 1 2; PurchaseItem 2 1])
  /\ (~ rejected_before_write at_shop unknown
   /\ stdout unknown.1 = [ErrorDuring ForeignKeyViolation]
   /\ purchases_purchase_id_seq (db at_shop) = 1
   /\ purchases_purchase_id_seq (db unknown.1) = 2).
Proof.
  split.
  - split; [|by vm_compute].
    intros [[He|[e He]] _]; vm_compute in He; discriminate.
  - split; [|by vm_compute].
    intros [_ Hdb]. vm_compute in Hdb. discriminate.
Qed.

(** C3, amended. Of the three inputs only two fail, and only one of
    them before a write.  A submission without items is refused by the
    route with the validation answer (422) before the function is
    entered: nothing is sent to the database.  A submission that names
    a product id that is not in [products] fails, and no row of any
    relation is inserted; but the failure is the database's, inside the
    transaction: the purchase insert is sent first (the purchase
    sequence has moved when it reached the server with values that fit
    their columns), the error is printed and the transaction rolled
    back, and the request is not answered with a page. *)
Theorem invalid_items_leave_no_rows link uuid4 now sid uid new items s :
  items = [] \/ (exists i, i ∈ items /\ i ∉ (product_id <$> products (db s))) ->
  let cid := customer_id uuid4 uid (default false new) in
  let out := post_submit_purchase link uuid4 now
               (PurchaseForm (Some sid) (Some uid) new items) s in
  rows (db out.1) = rows (db s)
  /\ (out.2 = Ok UnprocessableEntity \/ exists e, out.2 = Raise e)
  /\ (items = [] -> out = (s, Ok UnprocessableEntity))
  /\ (items <> [] ->
      (exists e, stdout out.1 = stdout s ++ [ErrorDuring e])
      /\ (link (clock s) = true ->
          fits_varchar255 sid = true -> fits_varchar255 cid = true ->
          purchases_purchase_id_seq (db out.1)
          = purchases_purchase_id_seq (db s) + 1)).
Proof.
  intros Hbad cid out.
  destruct (decide (items = [])) as [->|Hne].
  - subst out. rewrite post_submit_purchase_no_items. simpl.
    split; [done|]. split; [by left|]. split; done.
  - destruct Hbad as [?|Hmiss]; [done|].
    destruct (record_purchase_missing link sid now cid items s Hmiss)
      as (s1 & e & Hbody & Hseq).
    destruct (submit_purchase_failed _ _ _ _ _ _ _ _ _ _ Hbody)
      as (Hrows & _ & Hpseq & Hout & Hres).
    subst out. rewrite post_submit_purchase_entered by done.
    destruct (submit_purchase link uuid4 now sid uid (default false new)
                items s) as [s' [page|e']]; simpl in *; [done|].
    split; [exact Hrows|]. split; [right; by eexists|]. split; [done|].
    intros _. split; [by exists e|].
    intros Hl Hsid Hcid. rewrite Hpseq. by apply Hseq.
Qed.

Lemma invalid_items_leave_no_rows_witness :
  let out := post_submit_purchase link_up "uuid" 2000
               (PurchaseForm (Some "SMKT002") (Some "bob") None [1; 7])
               at_shop in
  rows (db out.1) = rows shop
  /\ (exists e, stdout out.1 = [ErrorDuring e])
  /\ purchases_purchase_id_seq (db out.1) = 2.
Proof.
  assert (Hmiss : [1; 7] = []
                  \/ exists i, i ∈ [1; 7]
                     /\ i ∉ (product_id <$> products (db at_shop))).
  { right. exists 7. split; [by right; left|].
    apply (bool_decide_eq_false_1 (7 ∈ [1; 2])). reflexivity. }
  destruct (invalid_items_leave_no_rows link_up "uuid" 2000 "SMKT002" "bob"
              None [1; 7] at_shop Hmiss) as (Hrows & _ & _ & Hrest).
  destruct (Hrest ltac:(discriminate)) as [Hout Hseq].
  split; [exact Hrows|]. split; [exact Hout|].
  exact (Hseq eq_refl eq_refl eq_refl).
Defined.

(** ** The customer id *)

(** The customer id of a submission is the identifier drawn from
    [uuid.uuid4()] when [is_new_customer] is set or [user_id] is empty,
    and [user_id] itself otherwise.  It is the id written to the
    purchase row and named in the success page. *)
Theorem resolved_customer_id (uuid4 user_id : string)
    (is_new_customer : bool) :
  (is_new_customer = true \/ user_id = ""%string ->
     customer_id uuid4 user_id is_new_customer = uuid4)
  /\ (is_new_customer = false -> user_id <> ""%string ->
     customer_id uuid4 user_id is_new_customer = user_id)
  /\ (forall link now sid items s s1 pid,
      record_purchase link sid now
        (customer_id uuid4 user_id is_new_customer) items s = (s1, Ok pid) ->
      Purchase pid sid now (customer_id uuid4 user_id is_new_customer)
        ∈ purchases (db s1)
      /\ (forall page,
            (submit_purchase link uuid4 now sid user_id is_new_customer
                             items s).2 = Ok page ->
            page = success_page (merge_sort by_product_id (products (db s1)))
                     (customer_id uuid4 user_id is_new_customer))).
Proof.
  split; [|split].
  - unfold customer_id. intros [->| ->]; [done|].
    rewrite bool_decide_eq_true_2 by done. by rewrite orb_true_r.
  - unfold customer_id. intros -> Hne. by rewrite bool_decide_eq_false_2.
  - intros link now sid items s s1 pid Hbody. split.
    + apply record_purchase_ok in Hbody as (_ & _ & Hd & _).
      rewrite Hd. simpl. apply elem_of_app. right. by left.
    + intros page Hpage.
      destruct (submit_purchase_recorded _ _ _ _ _ _ _ _ _ _ Hbody)
        as (_ & Hres).
      destruct (link (clock s1)).
      * destruct Hres as [_ Hres]. rewrite Hres in Hpage.
        destruct (link (S (clock s1))); by simplify_eq.
      * destruct Hres as [_ Hres]. rewrite Hres in Hpage. done.
Qed.

Lemma resolved_customer_id_witness :
  customer_id "3f2a" "bob" true = "3f2a"%string
  /\ customer_id "3f2a" "" false = "3f2a"%string
  /\ customer_id "3f2a" "bob" false = "bob"%string.
Proof.
  split; [|split].
  - apply (proj1 (resolved_customer_id "3f2a" "bob" true)). by left.
  - apply (proj1 (resolved_customer_id "3f2a" "" false)). by right.
  - by apply (proj1 (proj2 (resolved_customer_id "3f2a" "bob" false))).
Defined.

(** ** C6 *)




(** ** C8 *)

(** C8. When the ledger write succeeds (the [try] block returns
    [purchase_id] and the commit reaches the server), the database holds
    exactly one purchase row and exactly [length items] line items with
    that id: the old rows, the new purchase row and one line item per
    submitted product id.  The products and their sequence are as they
    were. *)
Theorem recorded_purchase_rows link uuid4 now sid uid new items s s1 pid :
  references_ok (db s) ->
  record_purchase link sid now (customer_id uuid4 uid new) items s
    = (s1, Ok pid) ->
  link (clock s1) = true ->
  let out := submit_purchase link uuid4 now sid uid new items s in
  purchases (db out.1)
    = purchases (db s) ++ [Purchase pid sid now (customer_id uuid4 uid new)]
  /\ purchase_items (db out.1)
    = purchase_items (db s) ++ (PurchaseItem pid <$> items)
  /\ length (filter (fun p => purchase_id p = pid) (purchases (db out.1))) = 1%nat
  /\ length (filter (fun i => item_purchase_id i = pid)
                    (purchase_items (db out.1))) = length items
  /\ products (db out.1) = products (db s)
  /\ products_product_id_seq (db out.1) = products_product_id_seq (db s)
  /\ stdout out.1 = stdout s ++ [Recorded pid (customer_id uuid4 uid new)].
Proof.
  intros Href Hbody Hcommit out.
  destruct (submit_purchase_recorded _ _ _ _ _ _ _ _ _ _ Hbody) as (Hout & Hres).
  fold out in Hout, Hres. rewrite Hcommit in Hres. destruct Hres as [Hdb _].
  apply record_purchase_ok in Hbody as (_ & Hfree & Hd & Ho & _).
  rewrite Hout, Hdb, Hd. simpl.
  repeat split; try done.
  - rewrite filter_app, filter_none.
    + by rewrite filter_cons_True.
    + intros p Hp Heq. apply Hfree. rewrite <- Heq.
      by apply list_elem_of_fmap_2.
  - rewrite filter_app, filter_none, filter_all.
    + rewrite app_nil_l. by rewrite length_fmap.
    + by intros i (j & -> & _)%list_elem_of_fmap.
    + intros i Hi Heq. apply Hfree. rewrite <- Heq. by apply Href.
Qed.

Lemma recorded_purchase_rows_witness :
  let out := submit_purchase link_up "uuid" 2000 "SMKT003" "" false
                             [2; 1] at_shop in
  purchases (db out.1)
    = [Purchase 1 "SMKT001" 1000 "alice"; Purchase 2 "SMKT003" 2000 "uuid"]
  /\ purchase_items (db out.1)
    = [PurchaseItem 1 2; PurchaseItem 2 2; PurchaseItem 2 1]
  /\ length (filter (fun p => purchase_id p = 2) (purchases (db out.1))) = 1%nat
  /\ length (filter (fun i => item_purchase_id i = 2)
                    (purchase_items (db out.1))) = 2%nat
  /\ products (db out.1) = products shop
  /\ products_product_id_seq (db out.1) = 2
  /\ stdout out.1 = [Recorded 2 "uuid"].
Proof.
  assert (Href : references_ok (db at_shop)).
  { intros i Hi. apply list_elem_of_singleton in Hi as ->. by left. }
  assert (Hbody : exists s1,
            record_purchase link_up "SMKT003" 2000
              (customer_id "uuid" "" false) [2; 1] at_shop = (s1, Ok 2)).
  { eexists. vm_compute. reflexivity. }
  destruct Hbody as [s1 Hbody].
  exact (recorded_purchase_rows link_up "uuid" 2000 "SMKT003" "" false
           [2; 1] at_shop s1 2 Href Hbody eq_refl).
Defined.

(** ** C9 *)

(** C9, as stated, fails for the empty list of items: the route
    answers such a request with 422 and the function is not entered, so
    no purchase row is committed and no page returned. *)
Lemma empty_items_refused :
  let out := post_submit_purchase link_up "uuid" 2000
               (PurchaseForm (Some "SMKT002") (Some "bob") (Some false) [])
               at_shop in
  out.2 = Ok UnprocessableEntity
  /\ purchases (db out.1) = purchases shop
  /\ out.1 = at_shop.
Proof. by vm_compute. Qed.

(** C9, amended. An empty supermarket id does not make the ledger
    write fail: on a healthy link, with a free next purchase id, a
    customer id that fits its column and a list, not empty, of distinct
    existing products, the request commits exactly one purchase row,
    with the empty string in [supermarket_id], and its line items, and
    is answered with the success page.  An empty list of items does not
    reach the ledger write: the route answers 422 and nothing is
    written. *)
Theorem empty_supermarket_accepted link uuid4 now sid uid new items s :
  (forall n, link n = true) ->
  fits_varchar255 (customer_id uuid4 uid (default false new)) = true ->
  purchases_purchase_id_seq (db s) + 1 ∉ (purchase_id <$> purchases (db s)) ->
  references_ok (db s) ->
  items <> [] ->
  NoDup items ->
  (forall i, i ∈ items -> i ∈ (product_id <$> products (db s))) ->
  let cid := customer_id uuid4 uid (default false new) in
  let pid := purchases_purchase_id_seq (db s) + 1 in
  let page := success_page (merge_sort by_product_id (products (db s))) cid in
  let no_market := post_submit_purchase link uuid4 now
                     (PurchaseForm (Some "") (Some uid) new items) s in
  let no_items := post_submit_purchase link uuid4 now
                    (PurchaseForm (Some sid) (Some uid) new []) s in
  (no_market.2 = Ok (Page page)
   /\ purchases (db no_market.1) = purchases (db s) ++ [Purchase pid "" now cid]
   /\ length (filter (fun p => purchase_id p = pid)
                     (purchases (db no_market.1))) = 1%nat
   /\ purchase_items (db no_market.1)
      = purchase_items (db s) ++ (PurchaseItem pid <$> items))
  /\ no_items = (s, Ok UnprocessableEntity).
Proof.
  intros Hlink Hcid Hfree Href Hne Hnd Hprod cid pid page no_market no_items.
  split; [|apply post_submit_purchase_no_items].
  destruct (submit_purchase_accepted link uuid4 now "" uid (default false new)
              items s) as (Hres & Hpur & Hitems); try done.
  subst no_market. rewrite post_submit_purchase_entered by done.
  destruct (submit_purchase link uuid4 now "" uid (default false new) items s)
    as [s' [page'|e']]; simpl in *; [|done].
  split; [by simplify_eq|]. split; [done|]. split; [|done].
  subst pid. rewrite Hpur, filter_app, filter_none.
  - by rewrite filter_cons_True.
  - intros p Hp Heq. apply Hfree. rewrite <- Heq.
    by apply list_elem_of_fmap_2.
Qed.

Lemma empty_supermarket_accepted_witness :
  let no_market := post_submit_purchase link_up "uuid" 2000
                     (PurchaseForm (Some "") (Some "bob") None [1; 2])
                     at_shop in
  let no_items := post_submit_purchase link_up "uuid" 2000
                    (PurchaseForm (Some "SMKT002") (Some "bob") None [])
                    at_shop in
  (no_market.2 = Ok (Page (success_page (products shop) "bob"))
   /\ purchases (db no_market.1)
      = [Purchase 1 "SMKT001" 1000 "alice"; Purchase 2 "" 2000 "bob"]
   /\ length (filter (fun p => purchase_id p = 2)
                     (purchases (db no_market.1))) = 1%nat
   /\ purchase_items (db no_market.1)
      = [PurchaseItem 1 2; PurchaseItem 2 1; PurchaseItem 2 2])
  /\ no_items = (at_shop, Ok UnprocessableEntity).
Proof.
  apply (empty_supermarket_accepted link_up "uuid" 2000 "SMKT002" "bob"
           None [1; 2] at_shop).
  - reflexivity.
  - reflexivity.
  - apply (bool_decide_eq_false_1 (2 ∈ [1])). reflexivity.
  - intros i Hi. apply list_elem_of_singleton in Hi as ->. by left.
  - discriminate.
  - apply (bool_decide_eq_true_1 (NoDup [1; 2])). reflexivity.
  - intros i Hi. simpl.
    apply elem_of_cons in Hi as [->|Hi]; [by left|].
    apply list_elem_of_singleton in Hi as ->. by right; left.
Defined.

End CashRegisterFacts.

(* ===================================================================== *)
(** * Properties of the bootstrap *)
(* ===================================================================== *)

Module DbInitFacts.
Import Store StoreFacts CashRegisterFacts DbInit.

Ltac frame refl trans :=
  repeat lazymatch goal with
  | |- keeps _ (ret _) => apply keeps_ret; apply refl
  | |- keeps _ (print _) => apply keeps_print; apply refl
  | |- keeps _ (bind _ _) => apply keeps_bind; [apply trans | | intros ?]
  | |- keeps _ (for_each _ _) =>
      apply keeps_for_each; [apply refl | apply trans | intros ?]
  | |- keeps _ (execute _ _) => apply keeps_execute; [apply refl |]
  | |- keeps _ (fun s => commit _ (db s) s) =>
      apply keeps_commit_here; apply refl
  end.

(** ** The line items of one record *)

(** On the database, the loop over the names is the loop of the cash
    register over the ids of the names that resolve: a name that does
    not resolve sends no statement. *)
Lemma line_items_as_items link m pid names : forall s t s' r,
  db s = db t -> clock s = clock t ->
  insert_line_items link m pid names s = (s', r) ->
  exists t',
    CashRegister.insert_items link pid (omap (known_product m) names) t
    = (t', r)
    /\ db s' = db t' /\ clock s' = clock t'.
Proof.
  unfold insert_line_items, CashRegister.insert_items.
  induction names as [|n names IH]; intros s t s' r Hd Hc H; simpl in *.
  - unfold ret in *. simplify_eq. by exists t.
  - destruct (known_product m n) as [prod|] eqn:Hk; simpl.
    + apply bind_inv in H as [(e & H1 & ->)|(s1 & a & H1 & H2)].
      * apply execute_inv in H1 as (Hc1 & _ & Hcase).
        unfold bind, execute. rewrite <- Hc, <- Hd.
        destruct Hcase as [[-> Hi]|(-> & Hd1 & ?)].
        -- rewrite Hi. eexists. split; [done|]. simpl. split; [done|lia].
        -- eexists. split; [by simplify_eq|]. simpl. split; [done|lia].
      * apply execute_inv in H1 as (Hc1 & _ & [[Hl Hi]|(_ & _ & ?)]); [|done].
        unfold bind at 1. unfold execute at 1. rewrite <- Hc, <- Hd, Hl, Hi.
        eapply IH; [| |exact H2]; simpl; [done|lia].
    + apply bind_inv in H as [(e & H1 & _)|(s1 & a & H1 & H2)].
      * by apply print_inv in H1 as (? & _).
      * apply print_inv in H1 as (_ & Hd1 & Hc1 & _).
        eapply IH; [| |exact H2]; congruence.
Qed.

(** A loop over the names that returns has warned once for each name
    that does not resolve, and printed nothing else. *)
Lemma insert_line_items_stdout link m pid names : forall s s' u,
  insert_line_items link m pid names s = (s', Ok u) ->
  stdout s'
  = stdout s ++ (Warning <$> filter (fun n => known_product m n = None) names).
Proof.
  unfold insert_line_items.
  induction names as [|n names IH]; intros s s' u H; simpl in H.
  - unfold ret in H. simplify_eq. by rewrite app_nil_r.
  - apply bind_ok in H as (s1 & a & H1 & H2). apply IH in H2. rewrite H2.
    destruct (known_product m n) as [prod|] eqn:Hk.
    + apply execute_inv in H1 as (_ & -> & _).
      by rewrite filter_cons_False by congruence.
    + apply print_inv in H1 as (_ & _ & _ & ->).
      rewrite filter_cons_True by done.
      rewrite fmap_cons, <- app_assoc. done.
Qed.

Lemma omap_filter_known (m : gmap string Z) (names : list string) :
  omap (known_product m) (filter (fun n => is_Some (known_product m n)) names)
  = omap (known_product m) names.
Proof.
  induction names as [|n names IH]; [done|].
  destruct (known_product m n) as [prod|] eqn:Hk.
  - rewrite filter_cons_True by (rewrite Hk; eauto).
    simpl. rewrite Hk. f_equal. exact IH.
  - rewrite filter_cons_False by (rewrite Hk; by intros [? ?]).
    simpl. rewrite Hk. exact IH.
Qed.

(** The replay of one record that returns: one purchase row, one line
    item per name that resolves, one warning per name that does not. *)
Lemma replay_purchase_ok link timestamp_in m row s s' u :
  replay_purchase link timestamp_in m row s = (s', Ok u) ->
  let pid := purchases_purchase_id_seq (db s) + 1 in
  exists t, timestamp_in (csv_timestamp row) = Some t
    /\ db s' = append_items
                 (add_purchase
                    (Purchase pid (csv_supermarket_id row) t (csv_user_id row))
                    (set_purchases_seq pid (db s)))
                 (PurchaseItem pid <$>
                    omap (known_product m) (product_names row))
    /\ stdout s'
       = stdout s ++ (Warning <$> filter (fun n => known_product m n = None)
                                    (product_names row)).
Proof.
  intros H. cbv zeta. unfold replay_purchase in H.
  apply bind_ok in H as (s1 & pid & H1 & H2).
  apply execute_inv in H1 as (_ & Ho & [[_ Hi]|(_ & _ & ?)]); [|done].
  apply insert_purchase_ok in Hi as (t & Ht & Hpid & _ & Hd).
  rewrite <- Hpid.
  exists t. split; [done|].
  pose proof (insert_line_items_stdout _ _ _ _ _ _ _ H2) as Hout.
  rewrite Ho in Hout. split; [|exact Hout].
  destruct (line_items_as_items _ _ _ _ s1 s1 _ _ eq_refl eq_refl H2)
    as (s2 & Hb & Hda & _).
  apply insert_items_ok in Hb as (Hdb & _).
  by rewrite Hda, Hdb, Hd.
Qed.

(** The replay of a record with nothing wrong but names that do not
    resolve returns. *)
Lemma replay_purchase_passes link timestamp_in m row s t :
  (forall n, link n = true) ->
  fits_varchar255 (csv_supermarket_id row) = true ->
  fits_varchar255 (csv_user_id row) = true ->
  timestamp_in (csv_timestamp row) = Some t ->
  purchases_purchase_id_seq (db s) + 1 ∉ (purchase_id <$> purchases (db s)) ->
  references_ok (db s) ->
  NoDup (omap (known_product m) (product_names row)) ->
  (forall i, i ∈ omap (known_product m) (product_names row) ->
             i ∈ (product_id <$> products (db s))) ->
  exists s', replay_purchase link timestamp_in m row s = (s', Ok tt).
Proof.
  intros Hlink Hsid Huid Ht Hfree Href Hnd Hprod.
  unfold replay_purchase, bind. unfold execute at 1.
  rewrite Hlink. unfold insert_purchase.
  rewrite Hsid, Ht, Huid, (bool_decide_eq_false_2 _ Hfree). simpl.
  set (pid := purchases_purchase_id_seq (db s) + 1) in *.
  match goal with |- context [insert_line_items link m pid _ ?s1] =>
    set (s2 := s1) end.
  destruct (insert_items_passes link pid
              (omap (known_product m) (product_names row)) s2)
    as [s3 H3]; simpl; try done.
  - intros i Hi Hin. apply Href in Hin. simpl in Hin. done.
  - rewrite fmap_app. apply elem_of_app. right. by left.
  - destruct (insert_line_items link m pid (product_names row) s2)
      as [s4 r4] eqn:H4.
    destruct (line_items_as_items _ _ _ _ s2 s2 _ _ eq_refl eq_refl H4)
      as (s5 & Hb & _).
    rewrite H3 in Hb. simplify_eq. by exists s4.
Qed.

(** ** The transaction of the bootstrap *)

Lemma same_refl (d : database) : d = d.
Proof. done. Qed.
Lemma same_trans (a b c : database) : a = b -> b = c -> a = c.
Proof. congruence. Qed.

(** Creating the tables touches no row and no sequence. *)
Lemma create_tables_same link s s' r :
  create_tables link s = (s', r) -> db s = db s'.
Proof.
  revert s s' r. change (keeps eq (create_tables link)).
  unfold create_tables. frame same_refl same_trans. all: done.
Qed.

(** A transaction that raises leaves the rows as they were. *)
Lemma with_begin_raise {A} link (body : M A) s s' e :
  with_begin link body s = (s', Raise e) -> rows (db s') = rows (db s).
Proof.
  unfold with_begin. destruct (body s) as [s1 [a|e1]].
  - unfold commit. destruct (link (clock s1)); intros H; by simplify_eq.
  - intros H. by simplify_eq.
Qed.

(** A transaction that returns has committed what its body did. *)
Lemma with_begin_ok {A} link (body : M A) s s' a :
  with_begin link body s = (s', Ok a) ->
  exists s1, body s = (s1, Ok a) /\ db s' = db s1.
Proof.
  unfold with_begin. destruct (body s) as [s1 [a1|e1]]; [|done].
  unfold commit. destruct (link (clock s1)); intros H; simplify_eq.
  by exists s1.
Qed.

(** [initialize_database] either stops while creating the tables, or
    runs the loading transaction from a database that is as it was. *)
Lemma initialize_database_inv link timestamp_in products_df purchases_df s s' r :
  initialize_database link timestamp_in products_df purchases_df s = (s', r) ->
  (db s' = db s /\ exists e, r = Raise e)
  \/ (exists s1 s2 r2,
        db s1 = db s
        /\ with_begin link
             (load_data link timestamp_in products_df purchases_df) s1
           = (s2, r2)
        /\ db s' = db s2
        /\ (r2 = r \/ exists u, r2 = Ok u /\ r = Ok tt)).
Proof.
  unfold initialize_database. intros H.
  apply bind_inv in H as [(e & H1 & _)|(s0 & u0 & H1 & H)].
  { by apply print_inv in H1 as (? & _). }
  apply print_inv in H1 as (_ & Hd0 & _).
  apply bind_inv in H as [(e & H2 & ->)|(s1 & u1 & H2 & H)].
  { left. apply create_tables_same in H2. split; [congruence|eauto]. }
  apply create_tables_same in H2.
  right. exists s1.
  apply bind_inv in H as [(e & H3 & ->)|(s2 & u2 & H3 & H)].
  { exists s', (Raise e). repeat split; [congruence|done|by left]. }
  apply print_inv in H as (-> & Hd3 & _).
  exists s2, (Ok u2). repeat split; [congruence|done|done|].
  right. by exists u2.
Qed.

(** ** What each half of the loading leaves alone *)

Lemma insert_rows_ledger products_df :
  stmt_keeps ledger_untouched (insert_rows products_df).
Proof.
  induction products_df as [|p rest IH]; intros d; simpl; [done|].
  pose proof (insert_product_ledger (csv_product_name p) (csv_unit_price p) d)
    as H1.
  destruct (insert_product (csv_product_name p) (csv_unit_price p) d)
    as [d1 [pid|e]]; simpl in *; [|done].
  eapply ledger_untouched_trans; [exact H1 | apply IH].
Qed.

Lemma to_sql_ledger products_df :
  stmt_keeps ledger_untouched (to_sql products_df).
Proof.
  intros d. unfold to_sql.
  pose proof (insert_rows_ledger products_df d) as H1.
  destruct (insert_rows products_df d) as [d1 [u|e]]; simpl in *; [done|].
  by apply ledger_untouched_restore.
Qed.

Lemma load_products_ledger link products_df :
  keeps ledger_untouched (load_products link products_df).
Proof.
  unfold load_products.
  frame ledger_untouched_refl ledger_untouched_trans; [done|].
  case_bool_decide;
    frame ledger_untouched_refl ledger_untouched_trans.
  apply to_sql_ledger.
Qed.

Lemma replay_purchase_products link timestamp_in m row :
  keeps products_untouched (replay_purchase link timestamp_in m row).
Proof.
  unfold replay_purchase, insert_line_items.
  frame products_untouched_refl products_untouched_trans.
  - apply insert_purchase_products.
  - case_match; frame products_untouched_refl products_untouched_trans.
    apply insert_purchase_item_products.
Qed.

Lemma load_purchases_products link timestamp_in purchases_df :
  keeps products_untouched (load_purchases link timestamp_in purchases_df).
Proof.
  unfold load_purchases.
  frame products_untouched_refl products_untouched_trans; try done.
  case_bool_decide;
    frame products_untouched_refl products_untouched_trans.
  apply replay_purchase_products.
Qed.

(** With products present, the first half sends one [COUNT] and no
    insert. *)
Lemma load_products_present link products_df s s' r :
  products (db s) <> [] ->
  load_products link products_df s = (s', r) -> db s' = db s.
Proof.
  intros Hne. unfold load_products.
  intros [(e & H1 & _)|(s1 & n & H1 & H)]%bind_inv.
  - apply execute_inv in H1 as (_ & _ & [[_ Hi]|(_ & ? & _)]); [|done].
    unfold count_products in Hi. by simplify_eq.
  - apply execute_inv in H1 as (_ & _ & [[_ Hi]|(_ & _ & ?)]); [|done].
    unfold count_products in Hi. simplify_eq.
    rewrite bool_decide_eq_false_2 in H.
    + apply print_inv in H as (_ & ? & _). congruence.
    + destruct (products (db s)); [done|]. simpl. lia.
Qed.

(** With purchases present, the second half sends the two reads and no
    insert. *)
Lemma load_purchases_present link timestamp_in purchases_df s s' r :
  purchases (db s) <> [] ->
  load_purchases link timestamp_in purchases_df s = (s', r) -> db s' = db s.
Proof.
  intros Hne. unfold load_purchases.
  intros [(e & H1 & _)|(s1 & rows1 & H1 & H)]%bind_inv.
  - apply execute_inv in H1 as (_ & _ & [[_ Hi]|(_ & ? & _)]); [|done].
    unfold select_product_name_id in Hi. by simplify_eq.
  - apply execute_inv in H1 as (_ & _ & [[_ Hi]|(_ & _ & ?)]); [|done].
    unfold select_product_name_id in Hi. simplify_eq.
    apply bind_inv in H as [(e & H2 & _)|(s2 & u2 & H2 & H)].
    { by apply print_inv in H2 as (? & _). }
    apply print_inv in H2 as (_ & Hd2 & _).
    apply bind_inv in H as [(e & H3 & _)|(s3 & n & H3 & H)].
    + apply execute_inv in H3 as (_ & _ & [[_ Hi]|(_ & ? & _)]); [|congruence].
      unfold count_purchases in Hi. simplify_eq; congruence.
    + apply execute_inv in H3 as (_ & _ & [[_ Hi]|(_ & _ & ?)]); [|done].
      unfold count_purchases in Hi. simplify_eq.
      rewrite bool_decide_eq_false_2 in H.
      * apply print_inv in H as (_ & ? & _). congruence.
      * replace (db s2) with (db s) by congruence.
        destruct (purchases (db s)); [done|]. simpl. lia.
Qed.

(** ** What a replay that returns has written *)

(** The columns of a purchase row that come from the history. *)
Definition purchase_fields (p : purchase) : string * option Z * string :=
  (supermarket_id p, Some (timestamp p), user_id p).

Definition csv_fields (timestamp_in : string -> option Z) (row : purchase_row)
  : string * option Z * string :=
  (csv_supermarket_id row, timestamp_in (csv_timestamp row), csv_user_id row).

Lemma replay_all_ok link timestamp_in m purchases_df : forall s s' u,
  for_each purchases_df (replay_purchase link timestamp_in m) s = (s', Ok u) ->
  purchase_fields <$> purchases (db s')
  = (purchase_fields <$> purchases (db s))
    ++ (csv_fields timestamp_in <$> purchases_df).
Proof.
  induction purchases_df as [|row rest IH]; intros s s' u H; simpl in H.
  - unfold ret in H. simplify_eq. by rewrite app_nil_r.
  - apply bind_ok in H as (s1 & a & H1 & H2).
    apply IH in H2. rewrite H2.
    apply replay_purchase_ok in H1 as (t & Ht & Hd & _).
    rewrite Hd. simpl. rewrite fmap_app, <- app_assoc. simpl.
    unfold csv_fields at 2. rewrite Ht. done.
Qed.

Lemma load_purchases_seeded link timestamp_in purchases_df s s' u :
  purchases (db s) = [] ->
  load_purchases link timestamp_in purchases_df s = (s', Ok u) ->
  purchase_fields <$> purchases (db s')
  = csv_fields timestamp_in <$> purchases_df.
Proof.
  intros Hempty. unfold load_purchases. intros H.
  apply bind_ok in H as (s1 & rows1 & H1 & H).
  apply execute_inv in H1 as (_ & _ & [[_ Hi]|(_ & _ & ?)]); [|done].
  unfold select_product_name_id in Hi. simplify_eq.
  apply bind_ok in H as (s2 & u2 & H2 & H).
  apply print_inv in H2 as (_ & Hd2 & _).
  apply bind_ok in H as (s3 & n & H3 & H).
  apply execute_inv in H3 as (_ & _ & [[_ Hi]|(_ & _ & ?)]); [|done].
  unfold count_purchases in Hi. simplify_eq.
  assert (Hs3 : purchases (db s3) = []) by congruence.
  rewrite bool_decide_eq_true_2 in H
    by (replace (db s2) with (db s3) by congruence; by rewrite Hs3).
  apply bind_ok in H as (s4 & u4 & H4 & H).
  apply print_inv in H4 as (_ & Hd4 & _).
  apply bind_ok in H as (s5 & u5 & H5 & H).
  apply print_inv in H as (_ & Hd6 & _).
  apply replay_all_ok in H5.
  rewrite Hd6, H5, Hd4, Hs3. done.
Qed.

Lemma load_data_products_present link timestamp_in products_df purchases_df
      s s' r :
  products (db s) <> [] ->
  load_data link timestamp_in products_df purchases_df s = (s', r) ->
  products_untouched (db s) (db s').
Proof.
  intros Hne. unfold load_data.
  intros [(e & H1 & _)|(s1 & u1 & H1 & H2)]%bind_inv.
  - apply load_products_present in H1; [|done]. by rewrite H1.
  - apply load_products_present in H1; [|done]. rewrite <- H1.
    by eapply load_purchases_products.
Qed.

Lemma load_data_purchases_present link timestamp_in products_df purchases_df
      s s' r :
  purchases (db s) <> [] ->
  load_data link timestamp_in products_df purchases_df s = (s', r) ->
  ledger_untouched (db s) (db s').
Proof.
  intros Hne. unfold load_data.
  intros [(e & H1 & _)|(s1 & u1 & H1 & H2)]%bind_inv.
  - by eapply load_products_ledger.
  - apply load_products_ledger in H1.
    apply load_purchases_present in H2.
    + by rewrite H2.
    + destruct H1 as [-> _]. done.
Qed.

(** ** C5 *)

(** C5. With products present [initialize_database] leaves the
    products and their sequence as they were; with purchases present it
    leaves the purchases, the line items and the purchase sequence as
    they were; the two checks do not depend on each other.  On a store
    that has both, the database after the call is the database before
    it: no insert was sent.  On a store with products and no purchase,
    a run that returns has left the products alone and written one
    purchase row per record of the history, in order. *)
Theorem bootstrap_idempotent link timestamp_in products_df purchases_df s :
  let out := initialize_database link timestamp_in products_df purchases_df s in
  (products (db s) <> [] ->
     products (db out.1) = products (db s)
     /\ products_product_id_seq (db out.1) = products_product_id_seq (db s))
  /\ (purchases (db s) <> [] ->
     purchases (db out.1) = purchases (db s)
     /\ purchase_items (db out.1) = purchase_items (db s)
     /\ purchases_purchase_id_seq (db out.1) = purchases_purchase_id_seq (db s))
  /\ (products (db s) <> [] -> purchases (db s) <> [] -> db out.1 = db s)
  /\ (products (db s) <> [] -> purchases (db s) = [] -> out.2 = Ok tt ->
     products (db out.1) = products (db s)
     /\ purchase_fields <$> purchases (db out.1)
        = csv_fields timestamp_in <$> purchases_df).
Proof.
  intros out.
  destruct (initialize_database link timestamp_in products_df purchases_df s)
    as [s' r] eqn:Hrun.
  subst out. simpl.
  apply initialize_database_inv in Hrun
    as [[Hd [e ->]]|(s1 & s2 & r2 & Hd1 & Hw & Hd2 & Hr)].
  { rewrite Hd. repeat split; done. }
  rewrite Hd2, <- Hd1.
  assert (Hprod : products (db s1) <> [] -> products_untouched (db s1) (db s2)).
  { intros Hne. revert Hw.
    apply (with_begin_from products_untouched products_untouched_restore).
    intros sa ra. by apply load_data_products_present. }
  assert (Hledger : purchases (db s1) <> [] -> ledger_untouched (db s1) (db s2)).
  { intros Hne. revert Hw.
    apply (with_begin_from ledger_untouched ledger_untouched_restore).
    intros sa ra. by apply load_data_purchases_present. }
  split; [exact Hprod|]. split; [exact Hledger|]. split.
  - intros H1 H2. apply untouched_eq; auto.
  - intros H1 H2 ->. split; [by apply Hprod|].
    destruct Hr as [->|(u & -> & _)].
    + apply with_begin_ok in Hw as (sa & Hbody & ->).
      unfold load_data in Hbody.
      apply bind_ok in Hbody as (sb & ub & Hb1 & Hb2).
      apply load_products_present in Hb1; [|done].
      eapply load_purchases_seeded; [|exact Hb2]. by rewrite Hb1.
    + apply with_begin_ok in Hw as (sa & Hbody & ->).
      unfold load_data in Hbody.
      apply bind_ok in Hbody as (sb & ub & Hb1 & Hb2).
      apply load_products_present in Hb1; [|done].
      eapply load_purchases_seeded; [|exact Hb2]. by rewrite Hb1.
Qed.

(** A small store and its sources. *)
Definition catalogue : database :=
  {| products := [Product 1 "Milk" 350; Product 2 "Bread" 500];
     purchases := []; purchase_items := [];
     products_product_id_seq := 2; purchases_purchase_id_seq := 0 |}.

Definition catalogue_map : gmap string Z :=
  name_to_id_map_of [("Milk", 1); ("Bread", 2)]%string.

Definition epoch (text : string) : option Z := Some 0.

Definition history : list purchase_row :=
  [PurchaseRow "SMKT001" "2024-01-05 10:00:00" "carol" "Milk, Ghee ,Bread";
   PurchaseRow "SMKT002" "2024-01-06 11:30:00" "dave" "Bread"]%string.

Definition price_list : list product_row :=
  [ProductRow "Milk" 350; ProductRow "Bread" 500]%string.

Definition seeded : database :=
  {| products := [Product 1 "Milk" 350; Product 2 "Bread" 500];
     purchases := [Purchase 1 "SMKT001" 0 "carol"; Purchase 2 "SMKT002" 0 "dave"];
     purchase_items := [PurchaseItem 1 1; PurchaseItem 1 2; PurchaseItem 2 2];
     products_product_id_seq := 2; purchases_purchase_id_seq := 2 |}.

Lemma bootstrap_idempotent_witness :
  db (initialize_database link_up epoch price_list history
        {| db := seeded; clock := 0; stdout := [] |}).1 = seeded
  /\ (let out := initialize_database link_up epoch price_list history
                   {| db := catalogue; clock := 0; stdout := [] |} in
      products (db out.1) = products catalogue
      /\ purchase_fields <$> purchases (db out.1)
         = [("SMKT001", Some 0, "carol"); ("SMKT002", Some 0, "dave")]%string).
Proof.
  split.
  - apply (proj1 (proj2 (proj2
      (bootstrap_idempotent link_up epoch price_list history
         {| db := seeded; clock := 0; stdout := [] |})))); discriminate.
  - apply (proj2 (proj2 (proj2
      (bootstrap_idempotent link_up epoch price_list history
         {| db := catalogue; clock := 0; stdout := [] |})))).
    + discriminate.
    + reflexivity.
    + vm_compute. reflexivity.
Defined.

(** ** C10 *)

(** C10. The products and the history are loaded in one transaction:
    when [initialize_database] raises, whatever the statement that
    failed (an insert of the replay among them), the rows of all three
    relations are those of before the call, the products inserted
    earlier in the run included. *)
Theorem failed_bootstrap_rolls_back
    link timestamp_in products_df purchases_df s e :
  (initialize_database link timestamp_in products_df purchases_df s).2
    = Raise e ->
  let out := initialize_database link timestamp_in products_df purchases_df s in
  products (db out.1) = products (db s)
  /\ purchases (db out.1) = purchases (db s)
  /\ purchase_items (db out.1) = purchase_items (db s).
Proof.
  intros Hraise out. subst out.
  destruct (initialize_database link timestamp_in products_df purchases_df s)
    as [s' r] eqn:Hrun.
  simpl in *. subst r.
  apply initialize_database_inv in Hrun
    as [[Hd _]|(s1 & s2 & r2 & Hd1 & Hw & Hd2 & Hr)].
  { by rewrite Hd. }
  destruct Hr as [->|(u & _ & ?)]; [|done].
  apply with_begin_raise in Hw. unfold rows in Hw.
  rewrite Hd2, <- Hd1. by simplify_eq.
Qed.

Definition bad_history : list purchase_row :=
  [PurchaseRow "SMKT001" "2024-01-05 10:00:00" "carol" "Milk, Ghee ,Bread";
   PurchaseRow "SMKT002" "2024-01-06 11:30:00" "dave" "Bread, Bread"]%string.

Definition blank : database :=
  {| products := []; purchases := []; purchase_items := [];
     products_product_id_seq := 0; purchases_purchase_id_seq := 0 |}.

Lemma failed_bootstrap_rolls_back_witness :
  let start := {| db := blank; clock := 0; stdout := [] |} in
  (exists s1, load_products link_up price_list start = (s1, Ok tt)
              /\ products (db s1) = products catalogue)
  /\ (let out := initialize_database link_up epoch price_list bad_history
                   start in
      out.2 = Raise UniqueViolation
      /\ products (db out.1) = []
      /\ purchases (db out.1) = []
      /\ purchase_items (db out.1) = []).
Proof.
  split.
  - eexists. split; vm_compute; reflexivity.
  - split; [vm_compute; reflexivity|].
    apply (failed_bootstrap_rolls_back link_up epoch price_list bad_history
             {| db := blank; clock := 0; stdout := [] |} UniqueViolation).
    vm_compute. reflexivity.
Defined.

(** ** C7 *)

(** C7. In the replay of a record with nothing else wrong (a healthy
    link, fields that fit their columns, a free next purchase id, and
    resolvable names that are distinct products), a name that is not in
    the name-to-id mapping only costs its own line item: the replay
    returns, the purchase row of the record is inserted, so is one line
    item for every name that resolves, and one warning is printed for
    every name that does not.  In any state, listing such names changes
    neither the database nor the result of the loop over the names. *)
Theorem unknown_names_skipped link timestamp_in
    (m : gmap string Z) row s t :
  (forall n, link n = true) ->
  fits_varchar255 (csv_supermarket_id row) = true ->
  fits_varchar255 (csv_user_id row) = true ->
  timestamp_in (csv_timestamp row) = Some t ->
  purchases_purchase_id_seq (db s) + 1 ∉ (purchase_id <$> purchases (db s)) ->
  references_ok (db s) ->
  NoDup (omap (known_product m) (product_names row)) ->
  (forall i, i ∈ omap (known_product m) (product_names row) ->
             i ∈ (product_id <$> products (db s))) ->
  let names := product_names row in
  let pid := purchases_purchase_id_seq (db s) + 1 in
  let out := replay_purchase link timestamp_in m row s in
  out.2 = Ok tt
  /\ purchases (db out.1)
     = purchases (db s)
       ++ [Purchase pid (csv_supermarket_id row) t (csv_user_id row)]
  /\ purchase_items (db out.1)
     = purchase_items (db s)
       ++ (PurchaseItem pid <$> omap (known_product m) names)
  /\ stdout out.1
     = stdout s ++ (Warning <$> filter (fun n => known_product m n = None) names)
  /\ (forall n, m !! n = None -> known_product m n = None)
  /\ (forall link' pid' s0,
        let listed := insert_line_items link' m pid' names s0 in
        let resolvable :=
          insert_line_items link' m pid'
            (filter (fun n => is_Some (known_product m n)) names) s0 in
        db listed.1 = db resolvable.1 /\ listed.2 = resolvable.2).
Proof.
  intros Hlink Hsid Huid Ht Hfree Href Hnd Hprod names pid out.
  destruct (replay_purchase_passes link timestamp_in m row s t)
    as [s' Hrun]; try done.
  fold out in Hrun.
  destruct (replay_purchase_ok _ _ _ _ _ _ _ Hrun) as (t' & Ht' & Hd & Ho).
  rewrite Hrun. simpl. rewrite Hd, Ho. simpl.
  assert (t' = t) as -> by congruence.
  repeat split; try done.
  - intros n Hn. unfold known_product. by rewrite Hn.
  - destruct (insert_line_items link' m pid' names s0) as [a ra] eqn:Ha.
    destruct (insert_line_items link' m pid'
                (filter (fun n => is_Some (known_product m n)) names) s0)
      as [b rb] eqn:Hb.
    destruct (line_items_as_items _ _ _ _ s0 s0 _ _ eq_refl eq_refl Ha)
      as (ta & Hta & Hda & _).
    destruct (line_items_as_items _ _ _ _ s0 s0 _ _ eq_refl eq_refl Hb)
      as (tb & Htb & Hdb & _).
    rewrite omap_filter_known in Htb. simpl. congruence.
  - destruct (insert_line_items link' m pid' names s0) as [a ra] eqn:Ha.
    destruct (insert_line_items link' m pid'
                (filter (fun n => is_Some (known_product m n)) names) s0)
      as [b rb] eqn:Hb.
    destruct (line_items_as_items _ _ _ _ s0 s0 _ _ eq_refl eq_refl Ha)
      as (ta & Hta & _).
    destruct (line_items_as_items _ _ _ _ s0 s0 _ _ eq_refl eq_refl Hb)
      as (tb & Htb & _).
    rewrite omap_filter_known in Htb. simpl. congruence.
Qed.

Lemma unknown_names_skipped_witness :
  let out := replay_purchase link_up epoch catalogue_map
               (PurchaseRow "SMKT001" "2024-01-05 10:00:00" "carol"
                            "Milk, Ghee ,Bread")
               {| db := catalogue; clock := 0; stdout := [] |} in
  out.2 = Ok tt
  /\ purchases (db out.1) = [Purchase 1 "SMKT001" 0 "carol"]
  /\ purchase_items (db out.1) = [PurchaseItem 1 1; PurchaseItem 1 2]
  /\ stdout out.1 = [Warning "Ghee"].
Proof.
  pose proof (unknown_names_skipped link_up epoch catalogue_map
    (PurchaseRow "SMKT001" "2024-01-05 10:00:00" "carol" "Milk, Ghee ,Bread")
    {| db := catalogue; clock := 0; stdout := [] |} 0) as H.
  destruct H as (H1 & H2 & H3 & H4 & _).
  - reflexivity.
  - reflexivity.
  - reflexivity.
  - reflexivity.
  - apply not_elem_of_nil.
  - intros i Hi. by apply elem_of_nil in Hi.
  - apply (bool_decide_eq_true_1 (NoDup [1; 2])). reflexivity.
  - intros i Hi. vm_compute in Hi. exact Hi.
  - split; [exact H1|]. split; [exact H2|]. split; [exact H3|exact H4].
Defined.

End DbInitFacts.

(* ===================================================================== *)
(** * Properties of the dashboard *)
(* ===================================================================== *)

Module DashboardFacts.
Import Dashboard.

Lemma ordered_desc_strong rows :
  ordered_desc rows -> StronglySorted by_sales_desc rows.
Proof.
  apply Sorted_StronglySorted.
  intros a b c Hab Hbc. unfold by_sales_desc in *. lia.
Qed.

(** Nothing is dropped while fewer than three entries were collected. *)
Lemma top_loop_short third acc rows :
  (length acc + length rows <= 3)%nat ->
  top_loop third acc rows = acc ++ (entry_of <$> rows).
Proof.
  revert acc. induction rows as [|p rows IH]; intros acc Hlen; simpl.
  - by rewrite app_nil_r.
  - simpl in Hlen.
    assert (Hlt : (length acc <? 3)%nat = true) by (apply Nat.ltb_lt; lia).
    rewrite Hlt. simpl. rewrite IH.
    + by rewrite <- app_assoc.
    + rewrite length_app. simpl. lia.
Qed.

(** Below the cut everything is smaller, so the filter keeps nothing. *)
Lemma filter_below third p rows :
  StronglySorted by_sales_desc (p :: rows) ->
  p.2 < third ->
  filter (fun q : row => third <= q.2) (p :: rows) = [].
Proof.
  intros Hs Hp. apply StronglySorted_inv in Hs as [_ Hall].
  rewrite filter_cons_False by lia.
  induction Hall as [|q rows Hq _ IH]; [done|].
  unfold by_sales_desc in Hq.
  rewrite filter_cons_False by lia. exact IH.
Qed.

(** The loop on descending rows whose first [3 - length acc] counts
    reach the cut: it keeps exactly the rows that reach the cut. *)
Lemma top_loop_filter third rows : forall acc,
  StronglySorted by_sales_desc rows ->
  Forall (fun q : row => third <= q.2) (take (3 - length acc) rows) ->
  top_loop third acc rows
  = acc ++ (entry_of <$> filter (fun q : row => third <= q.2) rows).
Proof.
  induction rows as [|p rows IH]; intros acc Hs Hfirst; simpl.
  - by rewrite app_nil_r.
  - destruct (Nat.ltb_spec (length acc) 3) as [Hlt|Hge]; simpl.
    + assert (Hp : third <= p.2).
      { destruct (3 - length acc)%nat as [|k] eqn:Hk; [lia|].
        simpl in Hfirst. by apply Forall_cons in Hfirst as [? _]. }
      rewrite filter_cons_True by done.
      rewrite IH.
      * rewrite fmap_cons. by rewrite <- app_assoc.
      * by apply StronglySorted_inv in Hs as [? _].
      * rewrite length_app. simpl.
        destruct (3 - length acc)%nat as [|k] eqn:Hk; [lia|].
        simpl in Hfirst. apply Forall_cons in Hfirst as [_ Hrest].
        replace (3 - (length acc + 1))%nat with k by lia. exact Hrest.
    + destruct (Z.leb_spec third p.2) as [Hp|Hp].
      * rewrite filter_cons_True by done.
        rewrite IH.
        -- rewrite fmap_cons. by rewrite <- app_assoc.
        -- by apply StronglySorted_inv in Hs as [? _].
        -- rewrite length_app. simpl.
           replace (3 - (length acc + 1))%nat with 0%nat by lia.
           rewrite take_0. constructor.
      * rewrite (filter_below third p rows Hs Hp). simpl.
        by rewrite app_nil_r.
Qed.

(** In a descending list, earlier rows have counts at least as large. *)
Lemma desc_lookup rows : forall (i j : nat) (a b : row),
  StronglySorted by_sales_desc rows ->
  rows !! i = Some a -> rows !! j = Some b -> (i <= j)%nat -> b.2 <= a.2.
Proof.
  induction rows as [|p rows IH]; intros i j a b Hs Hi Hj Hij; [done|].
  apply StronglySorted_inv in Hs as [Hs Hall].
  destruct i as [|i], j as [|j]; simpl in *; simplify_eq.
  - lia.
  - rewrite Forall_forall in Hall.
    apply (Hall b). by eapply list_elem_of_lookup_2.
  - lia.
  - eapply (IH i j); eauto. lia.
Qed.

Lemma desc_take3 rows (third : row) :
  StronglySorted by_sales_desc rows ->
  rows !! 2%nat = Some third ->
  Forall (fun q : row => third.2 <= q.2) (take 3 rows).
Proof.
  intros Hs H3. apply Forall_lookup_2. intros i q Hq.
  apply lookup_take_Some in Hq as [Hq Hi].
  eapply (desc_lookup rows i 2); eauto. lia.
Qed.

Lemma top_products_eq rows :
  ordered_desc rows ->
  top_products rows = entry_of <$> tie_inclusive_top3 rows.
Proof.
  intros Hs%ordered_desc_strong.
  unfold top_products, tie_inclusive_top3, third_place_sales_count.
  destruct rows as [|p rows]; [done|].
  destruct ((p :: rows) !! 2%nat) as [third|] eqn:H3.
  - assert (Hlen : (3 <= length (p :: rows))%nat).
    { apply lookup_lt_Some in H3. lia. }
    apply Nat.leb_le in Hlen. rewrite Hlen.
    rewrite top_loop_filter; [done| done |].
    by apply desc_take3.
  - apply lookup_ge_None in H3.
    destruct (Nat.leb_spec 3 (length (p :: rows))) as [?|Hlt]; [lia|].
    rewrite top_loop_short; [done|]. simpl in *. lia.
Qed.

Lemma entries_desc_fmap rows :
  ordered_desc rows -> entries_desc (entry_of <$> rows).
Proof.
  induction 1 as [|p rows Hs IH Hhd]; [constructor|].
  rewrite fmap_cons. constructor; [exact IH|].
  destruct Hhd; constructor. done.
Qed.

Lemma ordered_desc_filter (P : row -> Prop) `{!forall x, Decision (P x)} rows :
  ordered_desc rows -> ordered_desc (filter P rows).
Proof.
  intros Hs%ordered_desc_strong. apply StronglySorted_Sorted.
  induction Hs as [|p rows Hs IH Hall]; [constructor|].
  destruct (decide (P p)).
  - rewrite filter_cons_True by done. constructor; [exact IH|].
    rewrite Forall_forall in Hall. apply Forall_forall.
    intros q [_ Hq]%list_elem_of_filter. by apply Hall.
  - by rewrite filter_cons_False.
Qed.

Lemma tie_inclusive_top3_length rows :
  ordered_desc rows ->
  (Nat.min 3 (length rows) <= length (tie_inclusive_top3 rows))%nat.
Proof.
  intros Hs%ordered_desc_strong. unfold tie_inclusive_top3.
  destruct (rows !! 2%nat) as [third|] eqn:H3; [|lia].
  pose proof (desc_take3 rows third Hs H3) as Hall.
  rewrite <- (take_drop 3 rows) at 2. rewrite filter_app, length_app.
  assert (Hf : filter (fun p : row => third.2 <= p.2) (take 3 rows) = take 3 rows).
  { clear -Hall. induction Hall as [|q l Hq _ IH]; [done|].
    rewrite filter_cons_True by done. by rewrite IH. }
  rewrite Hf, length_take. lia.
Qed.

(** ** C1 *)

(** C1. On the rows of the sales query (descending in the sales count)
    [top_products] is the tie-inclusive top three: with a third row of
    count S it is exactly the rows with count >= S, in rank order, so at
    least three of them; with fewer than three rows it is all of them,
    and with none it is empty.  For A:5 B:4 C:4 D:2 it is A, B, C and
    for A:5 B:4 C:3 D:3 it is all four. *)
Theorem top_products_tie_rule (all_products : list row)
    (Hordered : ordered_desc all_products) :
  top_products all_products
    = entry_of <$>
        match all_products !! 2%nat with
        | Some third => filter (fun p => third.2 <= p.2) all_products
        | None => all_products
        end
  /\ entries_desc (top_products all_products)
  /\ (Nat.min 3 (length all_products) <= length (top_products all_products))%nat
  /\ top_products [] = []
  /\ top_products [("A", 5); ("B", 4); ("C", 4); ("D", 2)]
     = [Entry "A" 5; Entry "B" 4; Entry "C" 4]
  /\ top_products [("A", 5); ("B", 4); ("C", 3); ("D", 3)]
     = [Entry "A" 5; Entry "B" 4; Entry "C" 3; Entry "D" 3].
Proof.
  pose proof (top_products_eq all_products Hordered) as Heq.
  split; [exact Heq|]. split; [|split; [|by repeat split]].
  - rewrite Heq. apply entries_desc_fmap. unfold tie_inclusive_top3.
    destruct (all_products !! 2%nat); [|done].
    by apply ordered_desc_filter.
  - rewrite Heq, length_fmap. by apply tie_inclusive_top3_length.
Qed.

Lemma top_products_tie_rule_witness :
  ordered_desc [("Milk", 7); ("Bread", 4); ("Eggs", 4); ("Salt", 4); ("Tea", 1)]
  /\ top_products [("Milk", 7); ("Bread", 4); ("Eggs", 4); ("Salt", 4); ("Tea", 1)]
     = [Entry "Milk" 7; Entry "Bread" 4; Entry "Eggs" 4; Entry "Salt" 4].
Proof.
  assert (Hs : ordered_desc
            [("Milk", 7); ("Bread", 4); ("Eggs", 4); ("Salt", 4); ("Tea", 1)]).
  { repeat constructor; unfold by_sales_desc; simpl; lia. }
  split; [exact Hs|].
  exact (proj1 (top_products_tie_rule _ Hs)).
Defined.

End DashboardFacts.


(* ===================================================================== *)
(** * Properties of the queries of the dashboard *)
(* ===================================================================== *)

Module StatsFacts.
Import Store StoreFacts Dashboard DashboardFacts Stats.

(** The number of rows of a column that hold a key. *)
Definition occurrences (k : string) (keys : list string) : Z :=
  Z.of_nat (length (filter (fun x => x = k) keys)).

(** The purchases of a customer, and the line items of a product. *)
Definition purchases_of (u : string) (d : database) : Z :=
  Z.of_nat (length (filter (fun p => user_id p = u) (purchases d))).

Definition sales_of (p : product) (d : database) : Z :=
  Z.of_nat (length (filter (fun i => item_product_id i = product_id p)
                           (purchase_items d))).

Lemma occurrences_elem k keys : 1 <= occurrences k keys <-> k ∈ keys.
Proof.
  unfold occurrences. induction keys as [|x keys IH].
  - simpl. split; [lia|]. by intros ?%elem_of_nil.
  - destruct (decide (x = k)) as [->|Hne].
    + rewrite filter_cons_True by done. simpl. split; [by left|lia].
    + rewrite filter_cons_False by done. rewrite IH. split.
      * by right.
      * intros [?|?]%elem_of_cons; [congruence|done].
Qed.

Lemma occurrences_fmap {A} (f : A -> string) k (l : list A) :
  occurrences k (f <$> l) = Z.of_nat (length (filter (fun x => f x = k) l)).
Proof.
  unfold occurrences. f_equal. induction l as [|x l IH]; [done|].
  rewrite fmap_cons. destruct (decide (f x = k)) as [Hk|Hk].
  - rewrite !filter_cons_True by done. simpl. by rewrite IH.
  - rewrite !filter_cons_False by done. exact IH.
Qed.

Lemma occurrences_app k l1 l2 :
  occurrences k (l1 ++ l2) = occurrences k l1 + occurrences k l2.
Proof. unfold occurrences. rewrite filter_app, length_app. lia. Qed.

(** One row per distinct key, with the number of its occurrences. *)
Lemma group_count_spec keys k n :
  (k, n) ∈ group_count keys <-> k ∈ keys /\ n = occurrences k keys.
Proof.
  unfold group_count. rewrite list_elem_of_fmap. split.
  - intros (k' & Heq & Hin). simplify_eq.
    split; [by apply elem_of_remove_dups|reflexivity].
  - intros [Hin ->]. exists k. split; [done|].
    by apply elem_of_remove_dups.
Qed.

Lemma group_count_keys keys : (group_count keys).*1 = remove_dups keys.
Proof.
  unfold group_count. rewrite <- list_fmap_compose.
  induction (remove_dups keys) as [|x l IH]; [done|].
  rewrite fmap_cons. simpl. by rewrite IH.
Qed.

#[local] Instance by_sales_desc_total : Total by_sales_desc.
Proof. intros a b. unfold by_sales_desc. lia. Qed.

Lemma order_by_count_desc_perm rows : order_by_count_desc rows ≡ₚ rows.
Proof. apply merge_sort_Permutation. Qed.

Lemma order_by_count_desc_ordered rows :
  ordered_desc (order_by_count_desc rows).
Proof. apply (Sorted_merge_sort by_sales_desc). Qed.

(** ** The loyal shoppers *)

Definition loyal_rows (d : database) : list (string * Z) :=
  order_by_count_desc
    (filter (fun r => 3 <= r.2) (group_count (user_id <$> purchases d))).

Lemma loyal_rows_member (d : database) u n :
  (u, n) ∈ loyal_rows d <-> n = purchases_of u d /\ 3 <= n.
Proof.
  unfold loyal_rows. rewrite order_by_count_desc_perm.
  rewrite list_elem_of_filter, group_count_spec. simpl.
  unfold purchases_of. rewrite <- (occurrences_fmap user_id).
  split; [by intros (? & _ & ?)|].
  intros [-> Hn]. repeat split; try done.
  apply occurrences_elem. lia.
Qed.

(** The loyal shoppers are exactly the customers with three purchases or
    more, each once, with the number of their purchases, in descending
    order of it; the query changes nothing. *)
Theorem loyal_shoppers_exact (d : database) :
  exists rows,
    loyal_shoppers_query d = (d, Ok rows)
    /\ (forall u n, (u, n) ∈ rows <-> n = purchases_of u d /\ 3 <= n)
    /\ ordered_desc rows
    /\ NoDup rows.*1.
Proof.
  exists (loyal_rows d). split; [reflexivity|]. split; [|split].
  - apply loyal_rows_member.
  - apply order_by_count_desc_ordered.
  - unfold loyal_rows. rewrite order_by_count_desc_perm.
    eapply sublist_NoDup; [apply NoDup_remove_dups|].
    rewrite <- group_count_keys. apply fmap_sublist, sublist_filter.
Qed.

(** ** The sales of the products *)

(** The names the join yields for one line item: the name of the product
    the item refers to, when the names of the products are distinct. *)
Lemma joined_name_count (ps : list product) (i : purchase_item) (p : product) :
  NoDup (product_name <$> ps) ->
  p ∈ ps ->
  occurrences (product_name p)
    (q ← ps; if decide (item_product_id i = product_id q)
             then [product_name q] else [])
  = if decide (item_product_id i = product_id p) then 1 else 0.
Proof.
  induction ps as [|q ps IH]; intros Hnd Hin; [by apply elem_of_nil in Hin|].
  rewrite fmap_cons in Hnd. apply NoDup_cons in Hnd as [Hq Hnd].
  rewrite bind_cons, occurrences_app.
  assert (Hnone : forall r : product,
            product_name r ∉ (product_name <$> ps) ->
            occurrences (product_name r)
              (q0 ← ps; if decide (item_product_id i = product_id q0)
                        then [product_name q0] else []) = 0).
  { intros r Hr.
    destruct (Z.le_gt_cases 1 (occurrences (product_name r)
                (q0 ← ps; if decide (item_product_id i = product_id q0)
                          then [product_name q0] else []))) as [Hpos|Hz].
    - apply occurrences_elem in Hpos.
      apply list_elem_of_bind in Hpos as (q0 & Hq0 & Hin0).
      destruct (decide (item_product_id i = product_id q0)); [|by apply elem_of_nil in Hq0].
      apply list_elem_of_singleton in Hq0. exfalso. apply Hr. rewrite Hq0.
      by apply list_elem_of_fmap_2.
    - unfold occurrences in *. lia. }
  apply elem_of_cons in Hin as [->|Hin].
  - rewrite (Hnone q Hq).
    destruct (decide (item_product_id i = product_id q)); [|done].
    unfold occurrences. by rewrite filter_cons_True.
  - rewrite (IH Hnd Hin).
    assert (Hne : product_name q <> product_name p).
    { intros Heq. apply Hq. rewrite Heq. by apply list_elem_of_fmap_2. }
    destruct (decide (item_product_id i = product_id q)); [|done].
    unfold occurrences at 1. by rewrite filter_cons_False.
Qed.

Lemma sold_names_count (d : database) (p : product) :
  NoDup (product_name <$> products d) ->
  p ∈ products d ->
  occurrences (product_name p) (sold_names d) = sales_of p d.
Proof.
  intros Hnd Hin. unfold sold_names, sales_of.
  induction (purchase_items d) as [|i items IH]; [done|].
  rewrite bind_cons, occurrences_app, IH, (joined_name_count _ _ _ Hnd Hin).
  destruct (decide (item_product_id i = product_id p)).
  - rewrite filter_cons_True by done. simpl length. lia.
  - rewrite filter_cons_False by done. lia.
Qed.

Lemma sold_names_products (d : database) name :
  name ∈ sold_names d -> exists q, q ∈ products d /\ name = product_name q.
Proof.
  unfold sold_names.
  intros (i & (q & Hq & Hin)%list_elem_of_bind & _)%list_elem_of_bind.
  destruct (decide (item_product_id i = product_id q)); [|by apply elem_of_nil in Hq].
  apply list_elem_of_singleton in Hq. eauto.
Qed.

(** With distinct product names, the sales query lists a product exactly
    when a line item refers to it, once, with the number of these line
    items as its count; every row is a product, and the rows are in
    descending order of the count. *)
Theorem top_products_query_counts (d : database) (p : product) :
  NoDup (product_name <$> products d) ->
  p ∈ products d ->
  exists rows,
    top_products_query d = (d, Ok rows)
    /\ ordered_desc rows
    /\ NoDup rows.*1
    /\ (forall n, (product_name p, n) ∈ rows <-> n = sales_of p d /\ 1 <= n)
    /\ (forall name n, (name, n) ∈ rows ->
          exists q, q ∈ products d /\ name = product_name q).
Proof.
  intros Hnd Hin. eexists. split; [reflexivity|].
  split; [apply order_by_count_desc_ordered|]. split; [|split].
  - rewrite order_by_count_desc_perm, group_count_keys.
    apply NoDup_remove_dups.
  - intros n. rewrite order_by_count_desc_perm, group_count_spec.
    rewrite (sold_names_count d p Hnd Hin). split.
    + intros [Hs ->]. split; [done|].
      rewrite <- (sold_names_count d p Hnd Hin). by apply occurrences_elem.
    + intros [-> Hn]. split; [|done].
      apply occurrences_elem. by rewrite (sold_names_count d p Hnd Hin).
  - intros name n. rewrite order_by_count_desc_perm, group_count_spec.
    intros [Hs _]. by apply sold_names_products.
Qed.

Definition pantry : database :=
  {| products := [Product 1 "Milk" 350; Product 2 "Bread" 500;
                  Product 3 "Eggs" 120];
     purchases := [Purchase 1 "SMKT001" 10 "ann"; Purchase 2 "SMKT001" 20 "bo";
                   Purchase 3 "SMKT002" 30 "ann"; Purchase 4 "SMKT003" 40 "ann"];
     purchase_items := [PurchaseItem 1 1; PurchaseItem 1 2; PurchaseItem 2 2;
                        PurchaseItem 3 2];
     products_product_id_seq := 3;
     purchases_purchase_id_seq := 4 |}.

Lemma top_products_query_counts_witness :
  exists rows,
    top_products_query pantry = (pantry, Ok rows)
    /\ (("Bread", 3) ∈ rows) /\ (forall n, ("Eggs", n) ∉ rows).
Proof.
  destruct (top_products_query_counts pantry (Product 2 "Bread" 500))
    as (rows & Hq & _ & _ & Hbread & _).
  { apply (bool_decide_eq_true_1 (NoDup ["Milk"; "Bread"; "Eggs"]%string)).
    reflexivity. }
  { by right; left. }
  destruct (top_products_query_counts pantry (Product 3 "Eggs" 120))
    as (rows' & Hq' & _ & _ & Heggs & _).
  { apply (bool_decide_eq_true_1 (NoDup ["Milk"; "Bread"; "Eggs"]%string)).
    reflexivity. }
  { by right; right; left. }
  exists rows. split; [exact Hq|]. split.
  - apply Hbread. vm_compute. split; [reflexivity|discriminate].
  - intros n Hn. assert (rows' = rows) as -> by congruence.
    apply Heggs in Hn as [-> Hn]. vm_compute in Hn. by apply Hn.
Defined.

(** ** The ranking on rows in any order *)

Lemma top_loop_prefix third rows : forall acc,
  exists k,
    top_loop third acc rows = acc ++ (entry_of <$> take k rows)
    /\ (Nat.min (3 - length acc) (length rows) <= k <= length rows)%nat.
Proof.
  induction rows as [|p rows IH]; intros acc; simpl.
  - exists 0%nat. rewrite app_nil_r. split; [done|lia].
  - destruct ((length acc <? 3)%nat || (third <=? p.2)) eqn:Hgo.
    + destruct (IH (acc ++ [entry_of p])) as (k & Hk & Hlen).
      exists (S k). rewrite Hk, <- app_assoc. split; [done|].
      rewrite length_app in Hlen. simpl in Hlen. lia.
    + exists 0%nat. rewrite app_nil_r. split; [done|].
      apply orb_false_iff in Hgo as [Hlt%Nat.ltb_ge _]. lia.
Qed.

(** Whatever the order of the rows, [top_products] returns a prefix of
    them: it never reorders or skips a row, it only stops, and not
    before the third row. *)
Theorem top_products_prefix (all_products : list row) :
  top_products all_products
  = entry_of <$> take (length (top_products all_products)) all_products
  /\ (Nat.min 3 (length all_products) <= length (top_products all_products)
      <= length all_products)%nat.
Proof.
  unfold top_products. destruct all_products as [|p rows]; [by split|].
  destruct (top_loop_prefix (third_place_sales_count (p :: rows)) (p :: rows) [])
    as (k & Hk & Hlen).
  simpl app in Hk. simpl length in Hlen.
  assert (Hl : length (top_loop (third_place_sales_count (p :: rows)) []
                                (p :: rows)) = k).
  { rewrite Hk, length_fmap, length_take. simpl length. lia. }
  rewrite Hl. split; [exact Hk|]. simpl length. lia.
Qed.

(** ** [get_stats] *)

(** The rows the ranking keeps on descending rows, whatever the order
    of rows with equal counts: those with fewer than three rows above
    them. *)
Lemma tie_inclusive_top3_member (rows : list row) (r : row) :
  ordered_desc rows ->
  r ∈ tie_inclusive_top3 rows
  <-> r ∈ rows /\ (length (filter (fun q : row => (r.2 < q.2)%Z) rows) < 3)%nat.
Proof.
  intros Hs%ordered_desc_strong. unfold tie_inclusive_top3.
  destruct (rows !! 2%nat) as [third|] eqn:H3.
  - destruct rows as [|a [|b [|c rest]]]; simplify_eq/=.
    apply StronglySorted_inv in Hs as [Hs Ha].
    apply StronglySorted_inv in Hs as [Hs Hb].
    apply StronglySorted_inv in Hs as [_ Hc].
    apply Forall_cons in Ha as [Hab Ha]. apply Forall_cons in Ha as [Hac _].
    apply Forall_cons in Hb as [Hbc _].
    unfold by_sales_desc in *.
    rewrite (list_elem_of_filter (fun p : row => third.2 <= p.2)). split.
    + intros [Hr Hin]. split; [done|].
      change (a :: b :: third :: rest) with ([a; b] ++ third :: rest).
      rewrite filter_app, length_app.
      rewrite (filter_none (fun q : row => r.2 < q.2) (third :: rest)).
      * pose proof (length_filter (fun q : row => r.2 < q.2) [a; b]) as Hle.
        simpl in *. lia.
      * intros q [->|Hq]%elem_of_cons; [lia|].
        rewrite Forall_forall in Hc. specialize (Hc q Hq). lia.
    + intros [Hin Hlen]. split; [|done].
      destruct (Z.le_gt_cases third.2 r.2) as [|Hlt]; [done|]. exfalso.
      rewrite !filter_cons_True in Hlen by lia. simpl in Hlen. lia.
  - apply lookup_ge_None in H3. split; [|by intros [? _]].
    intros Hin. split; [done|].
    pose proof (length_filter (fun q : row => r.2 < q.2) rows). lia.
Qed.

Lemma shoppers_desc_fmap rows :
  ordered_desc rows ->
  Sorted (fun a b => purchase_count b <= purchase_count a) (shopper_of <$> rows).
Proof.
  induction 1 as [|p rows Hs IH Hhd]; [constructor|].
  rewrite fmap_cons. constructor; [exact IH|].
  destruct Hhd; constructor. done.
Qed.

(** [get_stats] only reads: the database and the output are as they
    were.  When its three queries reach the server it returns the three
    aggregates: the number of distinct customers; the customers with
    three purchases or more, with their counts, in descending order of
    the count; and, in descending order of the count, the products of
    the sales query that fewer than three products outsell.  The order
    of rows with equal counts is not said.  Otherwise it raises and
    returns no partial result. *)
Theorem get_stats_reads link s :
  let out := get_stats link s in
  let sold := group_count (sold_names (db s)) in
  db out.1 = db s
  /\ stdout out.1 = stdout s
  /\ (if link (clock s) && link (S (clock s)) && link (S (S (clock s)))
      then exists st,
             out.2 = Ok st
             /\ unique_shoppers st
                = Z.of_nat (length (remove_dups (user_id <$> purchases (db s))))
             /\ (forall u n, Shopper u n ∈ loyal_shoppers st
                             <-> n = purchases_of u (db s) /\ 3 <= n)
             /\ Sorted (fun a b => purchase_count b <= purchase_count a)
                       (loyal_shoppers st)
             /\ (forall name n,
                   Entry name n ∈ stats_top_products st
                   <-> (name, n) ∈ sold
                       /\ (length (filter (fun q : row => (n < q.2)%Z) sold) < 3)%nat)
             /\ entries_desc (stats_top_products st)
      else out.2 = Raise OperationalError).
Proof.
  unfold get_stats, bind, execute, ret. simpl.
  destruct (link (clock s)); simpl; [|done].
  destruct (link (S (clock s))); simpl; [|done].
  destruct (link (S (S (clock s)))); simpl; [|done].
  split; [done|]. split; [done|].
  eexists. split; [reflexivity|]. simpl.
  pose proof (order_by_count_desc_ordered (group_count (sold_names (db s))))
    as Hsorted.
  split; [done|]. split; [|split; [|split]].
  - intros u n. rewrite <- (loyal_rows_member (db s) u n). unfold loyal_rows.
    rewrite list_elem_of_fmap. split.
    + intros ([u' n'] & Heq & Hin). unfold shopper_of in Heq. by simplify_eq/=.
    + intros Hin. by exists (u, n).
  - apply shoppers_desc_fmap, order_by_count_desc_ordered.
  - intros name n. rewrite (top_products_eq _ Hsorted).
    rewrite list_elem_of_fmap.
    assert (Hiff : (name, n) ∈ tie_inclusive_top3
                     (order_by_count_desc (group_count (sold_names (db s))))
                   <-> (name, n) ∈ group_count (sold_names (db s))
                       /\ (length (filter (fun q : row => (n < q.2)%Z)
                                     (group_count (sold_names (db s)))) < 3)%nat).
    { rewrite (tie_inclusive_top3_member _ (name, n) Hsorted). simpl.
      by rewrite !order_by_count_desc_perm. }
    rewrite <- Hiff. split.
    + intros ([name' n'] & Heq & Hin). unfold entry_of in Heq.
      by simplify_eq/=.
    + intros Hin. by exists (name, n).
  - rewrite (top_products_eq _ Hsorted). apply entries_desc_fmap.
    unfold tie_inclusive_top3.
    destruct (order_by_count_desc (group_count (sold_names (db s))) !! 2%nat);
      [|done].
    by apply ordered_desc_filter.
Qed.

(** On a store without purchases the aggregates are 0, no loyal shopper
    and no best seller. *)
Theorem get_stats_empty link s :
  (forall n, link n = true) ->
  references_ok (db s) ->
  purchases (db s) = [] ->
  (get_stats link s).2
  = Ok {| unique_shoppers := 0; loyal_shoppers := [];
          stats_top_products := [] |}.
Proof.
  intros Hlink Href Hempty.
  assert (Hitems : purchase_items (db s) = []).
  { destruct (purchase_items (db s)) as [|i items] eqn:Hi; [done|].
    specialize (Href i). rewrite Hi, Hempty in Href.
    exfalso. eapply elem_of_nil, Href. by left. }
  unfold get_stats, bind, execute, ret. simpl. rewrite !Hlink. simpl.
  unfold sold_names. rewrite Hempty, Hitems. reflexivity.
Qed.

Lemma get_stats_empty_witness :
  (get_stats link_up
     {| db := {| products := [Product 1 "Milk" 350]; purchases := [];
                 purchase_items := []; products_product_id_seq := 1;
                 purchases_purchase_id_seq := 0 |};
        clock := 0; stdout := [] |}).2
  = Ok {| unique_shoppers := 0; loyal_shoppers := [];
          stats_top_products := [] |}.
Proof.
  apply get_stats_empty.
  - reflexivity.
  - intros i Hi. by apply elem_of_nil in Hi.
  - reflexivity.
Defined.

(** ** The aggregates after a recorded purchase *)

Lemma remove_dups_snoc_length (l : list string) (x : string) :
  length (remove_dups (l ++ [x]))
  = if decide (x ∈ l) then length (remove_dups l)
    else S (length (remove_dups l)).
Proof.
  destruct (decide (x ∈ l)) as [Hx|Hx].
  - apply Permutation_length, NoDup_Permutation; try apply NoDup_remove_dups.
    intros y. rewrite !elem_of_remove_dups, elem_of_app, list_elem_of_singleton.
    split; [|by left]. intros [?|Heq]; [done|by subst].
  - change (S (length (remove_dups l))) with (length (x :: remove_dups l)).
    apply Permutation_length, NoDup_Permutation.
    + apply NoDup_remove_dups.
    + apply NoDup_cons. split; [|apply NoDup_remove_dups].
      by rewrite elem_of_remove_dups.
    + intros y.
      rewrite elem_of_cons, !elem_of_remove_dups, elem_of_app,
        list_elem_of_singleton.
      tauto.
Qed.

(** After a ledger write that succeeds for a customer, that customer has
    one purchase more and every other customer as many as before; the
    count of unique shoppers grows by one exactly when the customer had
    no purchase; and the customer is among the loyal shoppers exactly
    when there were already two purchases of theirs, with the new count. *)
Theorem recorded_purchase_aggregates
    link uuid4 now sid uid new items s s1 pid :
  CashRegister.record_purchase link sid now
    (CashRegister.customer_id uuid4 uid new) items s = (s1, Ok pid) ->
  link (clock s1) = true ->
  let cid := CashRegister.customer_id uuid4 uid new in
  let after := db (CashRegister.submit_purchase link uuid4 now sid uid new
                     items s).1 in
  (forall u, purchases_of u after
             = purchases_of u (db s) + (if decide (u = cid) then 1 else 0))
  /\ (forall n, unique_shoppers_query (db s) = (db s, Ok n) ->
      unique_shoppers_query after
      = (after,
         Ok (n + (if decide (cid ∈ (user_id <$> purchases (db s)))
                  then 0 else 1))))
  /\ (forall rows, loyal_shoppers_query after = (after, Ok rows) ->
      forall n, (cid, n) ∈ rows
                <-> n = purchases_of cid (db s) + 1
                    /\ 2 <= purchases_of cid (db s)).
Proof.
  intros Hbody Hcommit cid after.
  destruct (CashRegisterFacts.submit_purchase_recorded
              _ _ _ _ _ _ _ _ _ _ Hbody) as (_ & Hres).
  rewrite Hcommit in Hres. destruct Hres as [Hdb _].
  apply CashRegisterFacts.record_purchase_ok in Hbody as (_ & _ & Hd & _).
  assert (Hp : purchases after = purchases (db s) ++ [Purchase pid sid now cid]).
  { unfold after. rewrite Hdb, Hd. done. }
  assert (Hcount : forall u, purchases_of u after
            = purchases_of u (db s) + (if decide (u = cid) then 1 else 0)).
  { intros u. unfold purchases_of. rewrite Hp, filter_app, length_app.
    destruct (decide (u = cid)) as [->|Hne].
    - rewrite (filter_cons_True _ _ []) by done. simpl length. lia.
    - rewrite (filter_cons_False _ _ []) by (simpl; congruence).
      simpl length. lia. }
  split; [exact Hcount|]. split.
  - intros n Hn. unfold unique_shoppers_query in *. simplify_eq.
    do 2 f_equal. rewrite Hp, fmap_app. simpl.
    rewrite remove_dups_snoc_length.
    destruct (decide (cid ∈ user_id <$> purchases (db s))); lia.
  - intros rows Hq n.
    assert (rows = loyal_rows after) as ->.
    { unfold loyal_shoppers_query in Hq. by simplify_eq. }
    rewrite loyal_rows_member, Hcount. rewrite decide_True by done. split.
    + intros [-> ?]. split; [done|lia].
    + intros [-> ?]. split; [done|lia].
Qed.

Lemma recorded_purchase_aggregates_witness :
  let s := {| db := pantry; clock := 0; stdout := [] |} in
  let after := db (CashRegister.submit_purchase link_up "uuid" 50 "SMKT001"
                     "ann" false [3] s).1 in
  purchases_of "ann" after = 4
  /\ purchases_of "bo" after = 1
  /\ unique_shoppers_query after = (after, Ok 2)
  /\ (forall rows, loyal_shoppers_query after = (after, Ok rows) ->
      ("ann", 4) ∈ rows).
Proof.
  intros s after.
  assert (Hbody : exists s1,
            CashRegister.record_purchase link_up "SMKT001" 50
              (CashRegister.customer_id "uuid" "ann" false) [3] s
            = (s1, Ok 5)).
  { eexists. vm_compute. reflexivity. }
  destruct Hbody as [s1 Hbody].
  destruct (recorded_purchase_aggregates link_up "uuid" 50 "SMKT001" "ann"
              false [3] s s1 5 Hbody eq_refl) as (Hcount & Hdistinct & Hloyal).
  split; [exact (Hcount "ann"%string)|].
  split; [exact (Hcount "bo"%string)|].
  split; [exact (Hdistinct 2 eq_refl)|].
  intros rows Hq. apply (Hloyal rows Hq). split; [reflexivity|].
  vm_compute. discriminate.
Defined.

End StatsFacts.


(* ===================================================================== *)
(** * What every operation keeps *)
(* ===================================================================== *)

Module Invariants.
Import Store StoreFacts.

(** ** Any frame of the three inserts is a frame of the services *)

Section Services.
Variable R : database -> database -> Prop.
Hypothesis R_refl : forall d, R d d.
Hypothesis R_trans : forall a b c, R a b -> R b c -> R a c.
Hypothesis R_restore : forall snapshot d,
  R snapshot d -> R snapshot (restore snapshot d).
Hypothesis R_insert_product : forall name price,
  stmt_keeps R (insert_product name price).
Hypothesis R_insert_purchase : forall sid ts uid,
  stmt_keeps R (insert_purchase sid ts uid).
Hypothesis R_insert_purchase_item : forall pid prod,
  stmt_keeps R (insert_purchase_item pid prod).

Ltac frame := DbInitFacts.frame R_refl R_trans.

Lemma record_purchase_keeps link sid now cid items :
  keeps R (CashRegister.record_purchase link sid now cid items).
Proof.
  unfold CashRegister.record_purchase, CashRegister.insert_items.
  frame; [apply R_insert_purchase | apply R_insert_purchase_item].
Qed.

Lemma submit_purchase_keeps link uuid4 now sid uid new items :
  keeps R (CashRegister.submit_purchase link uuid4 now sid uid new items).
Proof.
  intros s s' r. unfold CashRegister.submit_purchase.
  destruct (CashRegister.record_purchase link sid now
              (CashRegister.customer_id uuid4 uid new) items s)
    as [s1 [pid|e]] eqn:Hbody;
    apply record_purchase_keeps in Hbody.
  - unfold bind, commit, execute, select_products_ordered, ret. simpl.
    destruct (link (clock s1)); simpl.
    + destruct (link (S (clock s1))); intros H; by simplify_eq.
    + intros H. simplify_eq. simpl. by apply R_restore.
  - unfold bind, print, rollback, execute_in_closed_transaction, ret. simpl.
    destruct (link (clock s1)); simpl;
      intros H; simplify_eq; simpl; by apply R_restore.
Qed.

Lemma insert_rows_keeps products_df :
  stmt_keeps R (DbInit.insert_rows products_df).
Proof.
  induction products_df as [|p rest IH]; intros d; simpl; [apply R_refl|].
  pose proof (R_insert_product (DbInit.csv_product_name p)
                               (DbInit.csv_unit_price p) d) as H1.
  destruct (insert_product (DbInit.csv_product_name p)
                           (DbInit.csv_unit_price p) d)
    as [d1 [pid|e]]; simpl in *; [|done].
  eapply R_trans; [exact H1 | apply IH].
Qed.

Lemma to_sql_keeps products_df : stmt_keeps R (DbInit.to_sql products_df).
Proof.
  intros d. unfold DbInit.to_sql.
  pose proof (insert_rows_keeps products_df d) as H1.
  destruct (DbInit.insert_rows products_df d) as [d1 [u|e]]; simpl in *;
    [done|].
  by apply R_restore.
Qed.

Lemma replay_purchase_keeps link timestamp_in m row :
  keeps R (DbInit.replay_purchase link timestamp_in m row).
Proof.
  unfold DbInit.replay_purchase, DbInit.insert_line_items.
  frame; [apply R_insert_purchase|].
  case_match; frame. apply R_insert_purchase_item.
Qed.

Lemma load_data_keeps link timestamp_in products_df purchases_df :
  keeps R (DbInit.load_data link timestamp_in products_df purchases_df).
Proof.
  unfold DbInit.load_data, DbInit.load_products, DbInit.load_purchases.
  frame.
  - intros d. apply R_refl.
  - case_bool_decide; frame. apply to_sql_keeps.
  - intros d. apply R_refl.
  - intros d. apply R_refl.
  - case_bool_decide; frame. apply replay_purchase_keeps.
Qed.

Lemma initialize_database_keeps link timestamp_in products_df purchases_df :
  keeps R (DbInit.initialize_database link timestamp_in products_df
                                      purchases_df).
Proof.
  unfold DbInit.initialize_database, DbInit.create_tables.
  frame; try (intros d; apply R_refl).
  apply keeps_with_begin; [done|]. apply load_data_keeps.
Qed.

End Services.

(** ** The constraints of the schema *)

(** The keys of [init.py]: the primary keys and the unique name of the
    products, and the two foreign keys of the line items. *)
Definition consistent (d : database) : Prop :=
  NoDup (product_id <$> products d)
  /\ NoDup (product_name <$> products d)
  /\ NoDup (purchase_id <$> purchases d)
  /\ NoDup (purchase_items d)
  /\ (forall i, i ∈ purchase_items d ->
        item_purchase_id i ∈ (purchase_id <$> purchases d)
        /\ item_product_id i ∈ (product_id <$> products d)).

(** No row has an id the sequence of its table has yet to draw. *)
Definition sequences_ahead (d : database) : Prop :=
  (forall p, p ∈ products d -> product_id p <= products_product_id_seq d)
  /\ (forall p, p ∈ purchases d -> purchase_id p <= purchases_purchase_id_seq d).

(** From one state of the database to a later one: the sequences do not
    go back, and the constraints and the lead of the sequences stay. *)
Definition evolves (d d' : database) : Prop :=
  products_product_id_seq d <= products_product_id_seq d'
  /\ purchases_purchase_id_seq d <= purchases_purchase_id_seq d'
  /\ (consistent d -> consistent d')
  /\ (sequences_ahead d -> sequences_ahead d').

Lemma evolves_refl d : evolves d d.
Proof. unfold evolves. split; [lia|]. split; [lia|]. split; auto. Qed.

Lemma evolves_trans a b c : evolves a b -> evolves b c -> evolves a c.
Proof.
  unfold evolves. intros (? & ? & ? & ?) (? & ? & ? & ?).
  split; [lia|]. split; [lia|]. split; auto.
Qed.

Lemma evolves_restore snapshot d :
  evolves snapshot d -> evolves snapshot (restore snapshot d).
Proof.
  unfold evolves. intros (Hp & Hu & _ & _). simpl.
  split; [done|]. split; [done|]. split.
  - intros Hc. exact Hc.
  - intros [Ha Hb].
    split; intros p Hin; simpl in *;
      [specialize (Ha p Hin) | specialize (Hb p Hin)]; lia.
Qed.

Lemma NoDup_snoc_fmap {A B} (f : A -> B) (l : list A) (x : A) :
  NoDup (f <$> l) -> f x ∉ (f <$> l) -> NoDup (f <$> l ++ [x]).
Proof.
  intros Hnd Hx. rewrite fmap_app. apply NoDup_app. split; [done|]. split.
  - intros y Hy Hin. apply list_elem_of_singleton in Hin. by subst.
  - apply NoDup_singleton.
Qed.

Lemma insert_product_evolves name price :
  stmt_keeps evolves (insert_product name price).
Proof.
  intros d. unfold insert_product, stmt_keeps.
  assert (Hseq : evolves d (set_products_seq (products_product_id_seq d + 1) d)).
  { unfold evolves. simpl. split; [lia|]. split; [lia|]. split.
    - intros Hc. exact Hc.
    - intros [Ha Hb].
      split; intros p Hin; simpl in *;
        [specialize (Ha p Hin) | specialize (Hb p Hin)]; lia. }
  repeat (case_match; simpl; try exact Hseq; try apply evolves_refl).
  repeat match goal with
  | Hd : bool_decide _ = false |- _ => apply bool_decide_eq_false in Hd
  end.
  unfold evolves. simpl. split; [lia|]. split; [lia|]. split.
  - intros (K1 & K2 & K3 & K4 & K5). unfold consistent. simpl.
    split; [by apply NoDup_snoc_fmap|]. split; [by apply NoDup_snoc_fmap|].
    split; [done|]. split; [done|].
    intros i Hi. destruct (K5 i Hi) as [Ka Kb]. split; [done|].
    rewrite fmap_app. apply elem_of_app. by left.
  - intros [Ha Hb]. split; simpl; [|done].
    intros p [Hin|Hin%list_elem_of_singleton]%elem_of_app.
    + specialize (Ha p Hin). lia.
    + subst p. simpl. lia.
Qed.

Lemma insert_purchase_evolves sid ts uid :
  stmt_keeps evolves (insert_purchase sid ts uid).
Proof.
  intros d. unfold insert_purchase, stmt_keeps.
  assert (Hseq : evolves d (set_purchases_seq (purchases_purchase_id_seq d + 1) d)).
  { unfold evolves. simpl. split; [lia|]. split; [lia|]. split.
    - intros Hc. exact Hc.
    - intros [Ha Hb].
      split; intros p Hin; simpl in *;
        [specialize (Ha p Hin) | specialize (Hb p Hin)]; lia. }
  repeat (case_match; simpl; try exact Hseq; try apply evolves_refl).
  repeat match goal with
  | Hd : bool_decide _ = false |- _ => apply bool_decide_eq_false in Hd
  end.
  unfold evolves. simpl. split; [lia|]. split; [lia|]. split.
  - intros (K1 & K2 & K3 & K4 & K5). unfold consistent. simpl.
    split; [done|]. split; [done|]. split; [by apply NoDup_snoc_fmap|].
    split; [done|].
    intros i Hi. destruct (K5 i Hi) as [Ka Kb]. split; [|done].
    rewrite fmap_app. apply elem_of_app. by left.
  - intros [Ha Hb]. split; simpl; [done|].
    intros p [Hin|Hin%list_elem_of_singleton]%elem_of_app.
    + specialize (Hb p Hin). lia.
    + subst p. simpl. lia.
Qed.

Lemma insert_purchase_item_evolves pid prod :
  stmt_keeps evolves (insert_purchase_item pid prod).
Proof.
  intros d. unfold stmt_keeps.
  destruct (insert_purchase_item pid prod d) as [d' [u|e]] eqn:Hrun; simpl.
  - apply insert_purchase_item_ok in Hrun as (Hnew & Hpid & Hprod & ->).
    unfold evolves. simpl. split; [lia|]. split; [lia|]. split; [|done].
    intros (K1 & K2 & K3 & K4 & K5). unfold consistent. simpl.
    split; [done|]. split; [done|]. split; [done|]. split.
    + apply NoDup_app. split; [done|]. split; [|apply NoDup_singleton].
      intros y Hy Hin. apply list_elem_of_singleton in Hin. by subst.
    + intros i [Hin|Hin%list_elem_of_singleton]%elem_of_app;
        [by apply K5 | by subst].
  - apply insert_purchase_item_raise in Hrun as ->. apply evolves_refl.
Qed.

(** ** The services keep the constraints *)

(** Whatever the submission and whatever happens to the link,
    [submit_purchase] ends with the keys of the schema intact when they
    were, with no row ahead of its sequence, and with sequences that did
    not go back. *)
Theorem submit_purchase_consistent link uuid4 now sid uid new items s :
  consistent (db s) ->
  sequences_ahead (db s) ->
  let out := CashRegister.submit_purchase link uuid4 now sid uid new items s in
  consistent (db out.1)
  /\ sequences_ahead (db out.1)
  /\ purchases_purchase_id_seq (db s) <= purchases_purchase_id_seq (db out.1)
  /\ products_product_id_seq (db out.1) = products_product_id_seq (db s).
Proof.
  intros Hc Ha out.
  destruct (CashRegister.submit_purchase link uuid4 now sid uid new items s)
    as [s' r] eqn:Hrun.
  pose proof Hrun as Hprod.
  apply (submit_purchase_keeps evolves evolves_refl evolves_trans
           evolves_restore insert_purchase_evolves
           insert_purchase_item_evolves) in Hrun as (_ & Hu & Hcons & Hahead).
  apply (submit_purchase_keeps products_untouched products_untouched_refl
           products_untouched_trans products_untouched_restore
           insert_purchase_products insert_purchase_item_products)
    in Hprod as [_ Hseq].
  subst out. simpl. auto.
Qed.

(** [initialize_database] too, whatever its sources hold and whatever
    happens to the link. *)
Theorem initialize_database_consistent
    link timestamp_in products_df purchases_df s :
  consistent (db s) ->
  sequences_ahead (db s) ->
  let out := DbInit.initialize_database link timestamp_in products_df
               purchases_df s in
  consistent (db out.1)
  /\ sequences_ahead (db out.1)
  /\ products_product_id_seq (db s) <= products_product_id_seq (db out.1)
  /\ purchases_purchase_id_seq (db s) <= purchases_purchase_id_seq (db out.1).
Proof.
  intros Hc Ha out.
  destruct (DbInit.initialize_database link timestamp_in products_df
              purchases_df s) as [s' r] eqn:Hrun.
  apply (initialize_database_keeps evolves evolves_refl evolves_trans
           evolves_restore insert_product_evolves insert_purchase_evolves
           insert_purchase_item_evolves) in Hrun as (Hp & Hu & Hcons & Hahead).
  subst out. simpl. auto.
Qed.

(** A concrete store satisfies the constraints: by evaluation. *)
Ltac by_evaluation :=
  match goal with
  | |- ?P => apply (bool_decide_eq_true_1 P); vm_compute; reflexivity
  end.

Lemma consistent_forall (d : database) :
  NoDup (product_id <$> products d) ->
  NoDup (product_name <$> products d) ->
  NoDup (purchase_id <$> purchases d) ->
  NoDup (purchase_items d) ->
  Forall (fun i => item_purchase_id i ∈ (purchase_id <$> purchases d)
                   /\ item_product_id i ∈ (product_id <$> products d))
         (purchase_items d) ->
  consistent d.
Proof.
  intros H1 H2 H3 H4 H5. repeat split; try done.
  - by apply (proj1 (Forall_forall _ _) H5 i).
  - by apply (proj1 (Forall_forall _ _) H5 i).
Qed.

Lemma sequences_ahead_forall (d : database) :
  Forall (fun p => product_id p <= products_product_id_seq d) (products d) ->
  Forall (fun p => purchase_id p <= purchases_purchase_id_seq d) (purchases d) ->
  sequences_ahead d.
Proof.
  intros H1 H2. split; intros p Hp.
  - by apply (proj1 (Forall_forall _ _) H1 p).
  - by apply (proj1 (Forall_forall _ _) H2 p).
Qed.

Lemma shop_consistent : consistent CashRegisterFacts.shop.
Proof. apply consistent_forall; by_evaluation. Qed.

Lemma shop_sequences_ahead : sequences_ahead CashRegisterFacts.shop.
Proof. apply sequences_ahead_forall; by_evaluation. Qed.

Lemma submit_purchase_consistent_witness :
  let out := CashRegister.submit_purchase (fun n => negb (n =? 2)%nat)
               "uuid" 2000 "SMKT002" "bob" true [1; 2; 2]
               CashRegisterFacts.at_shop in
  consistent (db out.1)
  /\ sequences_ahead (db out.1)
  /\ purchases_purchase_id_seq (db out.1) = 2.
Proof.
  destruct (submit_purchase_consistent (fun n => negb (n =? 2)%nat)
              "uuid" 2000 "SMKT002" "bob" true [1; 2; 2]
              CashRegisterFacts.at_shop shop_consistent shop_sequences_ahead)
    as (Hc & Ha & _ & _).
  split; [exact Hc|]. split; [exact Ha|]. reflexivity.
Defined.

Lemma initialize_database_consistent_witness :
  let out := DbInit.initialize_database link_up DbInitFacts.epoch
               DbInitFacts.price_list DbInitFacts.bad_history
               {| db := DbInitFacts.blank; clock := 0; stdout := [] |} in
  consistent (db out.1)
  /\ sequences_ahead (db out.1)
  /\ products_product_id_seq (db out.1) = 2.
Proof.
  destruct (initialize_database_consistent link_up DbInitFacts.epoch
              DbInitFacts.price_list DbInitFacts.bad_history
              {| db := DbInitFacts.blank; clock := 0; stdout := [] |})
    as (Hc & Ha & _ & _).
  - apply consistent_forall; by_evaluation.
  - apply sequences_ahead_forall; by_evaluation.
  - split; [exact Hc|]. split; [exact Ha|]. reflexivity.
Defined.

End Invariants.


(* ===================================================================== *)
(** * More on the cash register: which submissions are recorded *)
(* ===================================================================== *)

Module LedgerFacts.
Import Store StoreFacts CashRegister CashRegisterFacts Invariants.

(** A loop over the items that returns went through every check: the
    items are distinct, they are products, and none was on the purchase. *)
Lemma insert_items_ok_inv link pid items : forall s s' u,
  insert_items link pid items s = (s', Ok u) ->
  NoDup items
  /\ (forall i, i ∈ items ->
        i ∈ (product_id <$> products (db s))
        /\ PurchaseItem pid i ∉ purchase_items (db s)).
Proof.
  unfold insert_items.
  induction items as [|i items IH]; intros s s' u H; simpl in H.
  - split; [constructor|]. intros i Hi. by apply elem_of_nil in Hi.
  - apply bind_ok in H as (s1 & a & H1 & H2).
    apply execute_inv in H1 as (_ & _ & [[_ Hi]|(_ & _ & ?)]); [|done].
    apply insert_purchase_item_ok in Hi as (Hnew & _ & Hprod & Hd).
    apply IH in H2 as [Hnd Hrest]. rewrite Hd in Hrest. simpl in Hrest.
    split.
    + apply NoDup_cons. split; [|done].
      intros Hin. destruct (Hrest i Hin) as [_ Hno].
      apply Hno, elem_of_app. right. by left.
    + intros j [->|Hj]%elem_of_cons; [done|].
      destruct (Hrest j Hj) as [Hp Hno]. split; [done|].
      intros Hin. apply Hno, elem_of_app. by left.
Qed.

(** A [try] block that returns has run the loop over the items to its
    end, on the products of before. *)
Lemma record_purchase_ok_items link sid now cid items s s1 pid :
  record_purchase link sid now cid items s = (s1, Ok pid) ->
  NoDup items /\ (forall i, i ∈ items -> i ∈ (product_id <$> products (db s))).
Proof.
  rewrite record_purchase_eq. intros H.
  apply bind_ok in H as (s2 & pid' & H1 & H).
  apply bind_ok in H as (s3 & u & H2 & _).
  apply (keeps_execute products_untouched products_untouched_refl) in H1;
    [|apply insert_purchase_products].
  destruct H1 as [Hp _].
  apply insert_items_ok_inv in H2 as [Hnd Hall]. split; [done|].
  intros i Hi. rewrite <- Hp. by apply Hall.
Qed.

(** ** All or nothing *)

(** Whatever the submission and whatever happens to the link, after
    [submit_purchase] the rows are either those of before, and then no
    success page is returned, or those of before with the one purchase
    row and all the line items of the submission, and then no failure
    page is returned.  The products are never written. *)
Theorem submission_all_or_nothing link uuid4 now sid uid new items s :
  let out := submit_purchase link uuid4 now sid uid new items s in
  let cid := customer_id uuid4 uid new in
  let pid := purchases_purchase_id_seq (db s) + 1 in
  let listing := merge_sort by_product_id (products (db s)) in
  (rows (db out.1) = rows (db s)
   /\ (forall page, out.2 = Ok page -> page = error_page listing))
  \/ (rows (db out.1)
      = (products (db s),
         purchases (db s) ++ [Purchase pid sid now cid],
         purchase_items (db s) ++ (PurchaseItem pid <$> items))
      /\ (forall page, out.2 = Ok page -> page = success_page listing cid)).
Proof.
  intros out cid pid listing.
  destruct (record_purchase link sid now cid items s) as [s1 [pid'|e]] eqn:Hbody.
  - destruct (submit_purchase_recorded _ _ _ _ _ _ _ _ _ _ Hbody) as (_ & Hres).
    fold out in Hres.
    apply record_purchase_ok in Hbody as (-> & _ & Hd & _).
    destruct (link (clock s1)).
    + right. destruct Hres as [Hdb Hres]. split.
      * rewrite Hdb, Hd. reflexivity.
      * intros page Hpage. rewrite Hres in Hpage.
        destruct (link (S (clock s1))); [|done].
        simplify_eq. rewrite Hd. reflexivity.
    + left. destruct Hres as [Hdb Hres]. split.
      * rewrite Hdb. reflexivity.
      * intros page Hpage. by rewrite Hres in Hpage.
  - left.
    destruct (submit_purchase_failed _ _ _ _ _ _ _ _ _ _ Hbody)
      as (Hrows & _ & _ & _ & Hres).
    fold out in Hrows, Hres. split; [exact Hrows|].
    intros page Hpage. by rewrite Hres in Hpage.
Qed.

(** ** The same product twice *)

(** A submission that lists a product twice is never recorded: the
    [try] block raises (at the latest the primary key of the line items
    refuses the second insert), the error is printed, the transaction
    is rolled back, and the call ends in an exception: no page is
    returned. *)
Theorem duplicate_items_rejected link uuid4 now sid uid new items s :
  ~ NoDup items ->
  let out := submit_purchase link uuid4 now sid uid new items s in
  rows (db out.1) = rows (db s)
  /\ (exists e, stdout out.1 = stdout s ++ [ErrorDuring e])
  /\ (exists e, out.2 = Raise e).
Proof.
  intros Hdup out.
  destruct (record_purchase link sid now (customer_id uuid4 uid new) items s)
    as [s1 [pid|e]] eqn:Hbody.
  { apply record_purchase_ok_items in Hbody as [Hnd _]. done. }
  destruct (submit_purchase_failed _ _ _ _ _ _ _ _ _ _ Hbody)
    as (Hrows & _ & _ & Hout & Hres).
  fold out in Hrows, Hout, Hres.
  split; [exact Hrows|]. split; [by exists e|]. eauto.
Qed.

Lemma duplicate_items_rejected_witness :
  let out := submit_purchase link_up "uuid" 2000 "SMKT002" "bob" false
                             [1; 2; 1] at_shop in
  rows (db out.1) = rows shop
  /\ stdout out.1 = [ErrorDuring UniqueViolation]
  /\ out.2 = Raise InvalidRequestError.
Proof.
  destruct (duplicate_items_rejected link_up "uuid" 2000 "SMKT002" "bob"
              false [1; 2; 1] at_shop) as (Hrows & _ & _).
  - apply (bool_decide_eq_false_1 (NoDup [1; 2; 1])). reflexivity.
  - split; [exact Hrows|]. split; reflexivity.
Defined.

(** ** Which submissions are recorded *)

Lemma ahead_fresh (d : database) :
  sequences_ahead d ->
  purchases_purchase_id_seq d + 1 ∉ (purchase_id <$> purchases d).
Proof.
  intros [_ Ha] (p & Hp & Hin)%list_elem_of_fmap.
  specialize (Ha p Hin). lia.
Qed.

Lemma consistent_references (d : database) : consistent d -> references_ok d.
Proof. intros (_ & _ & _ & _ & H) i Hi. by apply H. Qed.

(** On a healthy link and a store that satisfies its constraints, with a
    supermarket id and a customer id that fit their columns, a
    submission gets the success page exactly when its items are distinct
    ids of products; the empty list of items included. *)
Theorem submission_accepted_iff link uuid4 now sid uid new items s :
  (forall n, link n = true) ->
  fits_varchar255 sid = true ->
  fits_varchar255 (customer_id uuid4 uid new) = true ->
  consistent (db s) ->
  sequences_ahead (db s) ->
  let out := submit_purchase link uuid4 now sid uid new items s in
  (exists page, out.2 = Ok page /\ status_code page = 200)
  <-> NoDup items
      /\ (forall i, i ∈ items -> i ∈ (product_id <$> products (db s))).
Proof.
  intros Hlink Hsid Hcid Hcons Hahead out. split.
  - intros (page & Hpage & Hstatus).
    destruct (record_purchase link sid now (customer_id uuid4 uid new) items s)
      as [s1 [pid|e]] eqn:Hbody.
    + by apply record_purchase_ok_items in Hbody.
    + destruct (submit_purchase_failed _ _ _ _ _ _ _ _ _ _ Hbody)
        as (_ & _ & _ & _ & Hres).
      fold out in Hres. by rewrite Hres in Hpage.
  - intros [Hnd Hprod].
    destruct (record_purchase_passes link sid now (customer_id uuid4 uid new)
                items s) as [s1 Hbody]; try done.
    { by apply ahead_fresh. }
    { by apply consistent_references. }
    destruct (submit_purchase_recorded _ _ _ _ _ _ _ _ _ _ Hbody) as (_ & Hres).
    fold out in Hres. rewrite !Hlink in Hres. destruct Hres as [_ Hres].
    eexists. split; [exact Hres|done].
Qed.

Lemma submission_accepted_iff_witness :
  (exists page,
     (submit_purchase link_up "uuid" 2000 "SMKT002" "bob" false [2; 1]
                      at_shop).2 = Ok page /\ status_code page = 200)
  /\ ~ (exists page,
     (submit_purchase link_up "uuid" 2000 "SMKT002" "bob" false [2; 5]
                      at_shop).2 = Ok page /\ status_code page = 200).
Proof.
  split.
  - apply (submission_accepted_iff link_up "uuid" 2000 "SMKT002" "bob" false
             [2; 1] at_shop); try reflexivity.
    + apply shop_consistent.
    + apply shop_sequences_ahead.
    + split; [by_evaluation|].
      apply Forall_forall. by_evaluation.
  - intros Hok.
    apply (submission_accepted_iff link_up "uuid" 2000 "SMKT002" "bob" false
             [2; 5] at_shop) in Hok as [_ Hprod]; try reflexivity.
    + specialize (Hprod 5). revert Hprod.
      apply (bool_decide_eq_false_1
               (5 ∈ [2; 5] -> 5 ∈ product_id <$> products (db at_shop))).
      reflexivity.
    + apply shop_consistent.
    + apply shop_sequences_ahead.
Defined.

(** ** The same submission twice *)

(** [submit_purchase] is not idempotent: on a healthy link, the same
    valid submission sent twice in a row is recorded twice, as two
    purchases with the two next ids of the sequence, each with all its
    line items. *)
Theorem same_submission_twice link uuid4 uuid4' now now' sid uid new items s :
  (forall n, link n = true) ->
  fits_varchar255 sid = true ->
  fits_varchar255 (customer_id uuid4 uid new) = true ->
  fits_varchar255 (customer_id uuid4' uid new) = true ->
  consistent (db s) ->
  sequences_ahead (db s) ->
  NoDup items ->
  (forall i, i ∈ items -> i ∈ (product_id <$> products (db s))) ->
  let first := submit_purchase link uuid4 now sid uid new items s in
  let second := submit_purchase link uuid4' now' sid uid new items first.1 in
  let pid := purchases_purchase_id_seq (db s) + 1 in
  purchases (db second.1)
  = purchases (db s)
    ++ [Purchase pid sid now (customer_id uuid4 uid new);
        Purchase (pid + 1) sid now' (customer_id uuid4' uid new)]
  /\ purchase_items (db second.1)
     = purchase_items (db s) ++ (PurchaseItem pid <$> items)
                             ++ (PurchaseItem (pid + 1) <$> items)
  /\ (exists page, second.2 = Ok page /\ status_code page = 200).
Proof.
  intros Hlink Hsid Hcid Hcid' Hcons Hahead Hnd Hprod first second pid.
  destruct (record_purchase_passes link sid now (customer_id uuid4 uid new)
              items s) as [s1 Hbody]; try done.
  { by apply ahead_fresh. }
  { by apply consistent_references. }
  destruct (submit_purchase_recorded _ _ _ _ _ _ _ _ _ _ Hbody) as (_ & Hres).
  fold first in Hres. rewrite !Hlink in Hres. destruct Hres as [Hdb1 _].
  apply record_purchase_ok in Hbody as (_ & _ & Hd1 & _).
  fold pid in Hd1. rewrite Hd1 in Hdb1.
  destruct (submit_purchase link uuid4 now sid uid new items s)
    as [s' r'] eqn:Hfirst.
  pose proof Hfirst as Hev.
  apply (submit_purchase_keeps evolves evolves_refl evolves_trans
           evolves_restore insert_purchase_evolves
           insert_purchase_item_evolves) in Hev as (_ & _ & Hc' & Ha').
  subst first. simpl in *.
  destruct (record_purchase_passes link sid now' (customer_id uuid4' uid new)
              items s') as [s2 Hbody2]; try done.
  { apply ahead_fresh. auto. }
  { apply consistent_references. auto. }
  { by rewrite Hdb1. }
  destruct (submit_purchase_recorded _ _ _ _ _ _ _ _ _ _ Hbody2) as (_ & Hres2).
  fold second in Hres2. rewrite !Hlink in Hres2.
  destruct Hres2 as [Hdb2 Hres2].
  apply record_purchase_ok in Hbody2 as (_ & _ & Hd2 & _).
  rewrite Hdb2, Hd2, Hdb1. simpl.
  replace (purchases_purchase_id_seq (db s) + 1 + 1) with (pid + 1) by done.
  split; [by rewrite <- app_assoc|]. split; [by rewrite <- app_assoc|].
  eexists. split; [exact Hres2|done].
Qed.

Lemma same_submission_twice_witness :
  let first := submit_purchase link_up "uuid" 2000 "SMKT002" "bob" false
                               [2; 1] at_shop in
  let second := submit_purchase link_up "uuid" 2001 "SMKT002" "bob" false
                                [2; 1] first.1 in
  purchases (db second.1)
  = [Purchase 1 "SMKT001" 1000 "alice"; Purchase 2 "SMKT002" 2000 "bob";
     Purchase 3 "SMKT002" 2001 "bob"]
  /\ purchase_items (db second.1)
     = [PurchaseItem 1 2; PurchaseItem 2 2; PurchaseItem 2 1;
        PurchaseItem 3 2; PurchaseItem 3 1].
Proof.
  destruct (same_submission_twice link_up "uuid" "uuid" 2000 2001 "SMKT002"
              "bob" false [2; 1] at_shop) as (H1 & H2 & _); try reflexivity.
  - apply shop_consistent.
  - apply shop_sequences_ahead.
  - by_evaluation.
  - apply Forall_forall. by_evaluation.
  - split; [exact H1|exact H2].
Defined.

(** ** The page of the cash register *)

#[local] Instance by_product_id_total : Total by_product_id.
Proof. intros a b. unfold by_product_id. lia. Qed.

(** [get_cash_register_ui] only reads.  When its query reaches the
    server the page lists every product once, in ascending order of the
    id, with the three supermarkets and no message; otherwise it raises. *)
Theorem cash_register_page_lists_products link s :
  let out := get_cash_register_ui link s in
  db out.1 = db s
  /\ stdout out.1 = stdout s
  /\ (if link (clock s)
      then exists page,
             out.2 = Ok page
             /\ page_products page ≡ₚ products (db s)
             /\ Sorted by_product_id (page_products page)
             /\ supermarkets page = ["SMKT001"; "SMKT002"; "SMKT003"]%string
             /\ error page = None /\ success_message page = None
             /\ status_code page = 200
      else out.2 = Raise OperationalError).
Proof.
  unfold get_cash_register_ui, bind, execute, select_products_ordered, ret.
  simpl. destruct (link (clock s)); simpl; [|done].
  repeat split. eexists. split; [reflexivity|]. simpl.
  split; [apply merge_sort_Permutation|].
  split; [apply (Sorted_merge_sort by_product_id)|done].
Qed.

End LedgerFacts.


(* ===================================================================== *)
(** * More on the bootstrap: the sources and the start-up *)
(* ===================================================================== *)

Module BootstrapFacts.
Import Store StoreFacts DbInit DbInitFacts Invariants.

(** ** The name-to-id mapping *)

Lemma name_to_id_map_of_snoc rows (n : string) (i : Z) :
  name_to_id_map_of (rows ++ [(n, i)]) = <[n := i]> (name_to_id_map_of rows).
Proof. unfold name_to_id_map_of. by rewrite foldl_snoc. Qed.

Lemma name_to_id_map_of_lookup rows (n : string) (i : Z) :
  name_to_id_map_of rows !! n = Some i -> (n, i) ∈ rows.
Proof.
  induction rows as [|[n' i'] rows IH] using rev_ind; [done|].
  rewrite name_to_id_map_of_snoc, elem_of_app, list_elem_of_singleton.
  destruct (decide (n' = n)) as [->|Hne].
  - rewrite lookup_insert_eq. intros ?. simplify_eq. by right.
  - rewrite lookup_insert_ne by done. intros ?. left. by apply IH.
Qed.

Lemma name_to_id_map_of_member rows (n : string) (i : Z) :
  NoDup rows.*1 -> (n, i) ∈ rows -> name_to_id_map_of rows !! n = Some i.
Proof.
  induction rows as [|[n' i'] rows IH] using rev_ind; intros Hnd Hin.
  - by apply elem_of_nil in Hin.
  - rewrite fmap_app in Hnd. apply NoDup_app in Hnd as (Hnd & Hsep & _).
    rewrite name_to_id_map_of_snoc.
    apply elem_of_app in Hin as [Hin|Hin%list_elem_of_singleton].
    + rewrite lookup_insert_ne; [by apply IH|].
      intros ->. eapply (Hsep n).
      * by apply (list_elem_of_fmap_2 fst _ (n, i)).
      * by left.
    + simplify_eq. by rewrite lookup_insert_eq.
Qed.

(** With distinct product names, the mapping built from the products
    sends the name of every product to its id and no other name to
    anything; a name resolves for the replay exactly when it is the name
    of a product whose id is not 0. *)
Theorem product_map_round_trip (d : database) :
  NoDup (product_name <$> products d) ->
  let m := name_to_id_map_of
             ((fun p => (product_name p, product_id p)) <$> products d) in
  (forall p, p ∈ products d -> m !! product_name p = Some (product_id p))
  /\ (forall name, name ∉ (product_name <$> products d) -> m !! name = None)
  /\ (forall name id,
        known_product m name = Some id
        <-> id <> 0 /\ exists p, p ∈ products d
                                 /\ product_name p = name /\ product_id p = id).
Proof.
  intros Hnd m.
  assert (Hkeys : ((fun p => (product_name p, product_id p)) <$> products d).*1
                  = product_name <$> products d).
  { rewrite <- list_fmap_compose. done. }
  assert (Hto : forall p, p ∈ products d ->
                  m !! product_name p = Some (product_id p)).
  { intros p Hp. apply name_to_id_map_of_member; [by rewrite Hkeys|].
    by apply (list_elem_of_fmap_2 (fun p => (product_name p, product_id p))). }
  assert (Hfrom : forall name id, m !! name = Some id ->
                    exists p, p ∈ products d
                              /\ product_name p = name /\ product_id p = id).
  { intros name id Hm.
    apply name_to_id_map_of_lookup, list_elem_of_fmap in Hm as (p & Heq & Hp).
    simplify_eq. eauto. }
  split; [exact Hto|]. split.
  - intros name Hname. destruct (m !! name) as [id|] eqn:Hm; [|done].
    apply Hfrom in Hm as (p & Hp & <- & _).
    exfalso. apply Hname. by apply list_elem_of_fmap_2.
  - intros name id. unfold known_product. split.
    + destruct (m !! name) as [id'|] eqn:Hm; [|done].
      case_bool_decide; [done|]. intros ?. simplify_eq.
      split; [done|]. by apply Hfrom.
    + intros (Hid & p & Hp & <- & <-). rewrite (Hto p Hp).
      by rewrite bool_decide_eq_false_2.
Qed.

Lemma product_map_round_trip_witness :
  let m := name_to_id_map_of
             ((fun p => (product_name p, product_id p)) <$> products catalogue) in
  m !! "Bread"%string = Some 2
  /\ m !! "Ghee"%string = None
  /\ known_product m "Milk" = Some 1.
Proof.
  destruct (product_map_round_trip catalogue) as (Hto & Hnone & Hknown).
  - by_evaluation.
  - split; [|split].
    + apply (Hto (Product 2 "Bread" 500)). by right; left.
    + apply Hnone.
      apply (bool_decide_eq_false_1 ("Ghee"%string ∈ ["Milk"; "Bread"]%string)).
      reflexivity.
    + apply Hknown. split; [done|].
      exists (Product 1 "Milk" 350). split; [by left|done].
Defined.

(** ** Loading the catalogue *)

(** The rows of the source as products, numbered after [last]. *)
Fixpoint numbered (last : Z) (rows : list product_row) : list product :=
  match rows with
  | [] => []
  | r :: rest =>
      Product (last + 1) (csv_product_name r) (csv_unit_price r)
      :: numbered (last + 1) rest
  end.

Definition fits_products (r : product_row) : Prop :=
  fits_varchar255 (csv_product_name r) = true
  /\ fits_numeric_10_2 (csv_unit_price r) = true.

(** What an insert of the rows that returns went through and wrote. *)
Lemma insert_rows_ok products_df : forall d d' u,
  insert_rows products_df d = (d', Ok u) ->
  products d' = products d ++ numbered (products_product_id_seq d) products_df
  /\ NoDup (csv_product_name <$> products_df)
  /\ (forall r, r ∈ products_df ->
        csv_product_name r ∉ (product_name <$> products d)).
Proof.
  induction products_df as [|r rest IH]; intros d d' u H; simpl in H.
  - simplify_eq. rewrite app_nil_r. split; [done|]. split; [constructor|].
    intros r Hr. by apply elem_of_nil in Hr.
  - destruct (insert_product (csv_product_name r) (csv_unit_price r) d)
      as [d1 [pid|e]] eqn:H1; [|done].
    apply IH in H as (Hp & Hnd & Hnew).
    unfold insert_product in H1.
    repeat (case_match; simplify_eq).
    repeat match goal with
    | Hd : bool_decide _ = false |- _ => apply bool_decide_eq_false in Hd
    end.
    simpl in *. split; [by rewrite Hp, <- app_assoc|]. split.
    + apply NoDup_cons. split; [|done].
      intros (r' & Heq & Hr')%list_elem_of_fmap.
      apply (Hnew r' Hr'). rewrite fmap_app.
      apply elem_of_app. right. apply list_elem_of_singleton.
      symmetry. exact Heq.
    + intros r' [->|Hr']%elem_of_cons; [done|].
      intros Hin. apply (Hnew r' Hr'). rewrite fmap_app.
      apply elem_of_app. by left.
Qed.

(** Rows that fit their columns, with distinct names that are not taken,
    go in when no product is ahead of the sequence. *)
Lemma insert_rows_passes products_df : forall d,
  Forall fits_products products_df ->
  NoDup (csv_product_name <$> products_df) ->
  (forall r, r ∈ products_df ->
     csv_product_name r ∉ (product_name <$> products d)) ->
  (forall p, p ∈ products d -> product_id p <= products_product_id_seq d) ->
  exists d', insert_rows products_df d = (d', Ok tt).
Proof.
  induction products_df as [|r rest IH]; intros d Hfit Hnd Hnew Hahead; simpl.
  - by eexists.
  - apply Forall_cons in Hfit as [[Hname Hprice] Hfit].
    rewrite fmap_cons in Hnd. apply NoDup_cons in Hnd as [Hr Hnd].
    unfold insert_product. rewrite Hname, Hprice. simpl.
    rewrite bool_decide_eq_false_2.
    2:{ intros (p & Heq & Hp)%list_elem_of_fmap.
        specialize (Hahead p Hp). lia. }
    rewrite bool_decide_eq_false_2 by (apply Hnew; by left).
    apply IH; try done; simpl.
    + intros r' Hr' Hin. rewrite fmap_app in Hin.
      apply elem_of_app in Hin as [Hin|Hin%list_elem_of_singleton].
      * eapply Hnew; [by right | exact Hin].
      * apply Hr. simpl in Hin. rewrite <- Hin. by apply list_elem_of_fmap_2.
    + intros p [Hp|Hp%list_elem_of_singleton]%elem_of_app.
      * specialize (Hahead p Hp). lia.
      * subst p. simpl. lia.
Qed.

(** On an empty [products] table and a healthy link, a source whose rows
    fit their columns and have distinct names is loaded whole: the
    products are its rows, in order, numbered from the sequence on, and
    the ledger is not touched. *)
Theorem catalogue_loaded link products_df s :
  (forall n, link n = true) ->
  products (db s) = [] ->
  Forall fits_products products_df ->
  NoDup (csv_product_name <$> products_df) ->
  let out := load_products link products_df s in
  out.2 = Ok tt
  /\ products (db out.1)
     = numbered (products_product_id_seq (db s)) products_df
  /\ product_name <$> products (db out.1) = csv_product_name <$> products_df
  /\ purchases (db out.1) = purchases (db s)
  /\ purchase_items (db out.1) = purchase_items (db s).
Proof.
  intros Hlink Hempty Hfit Hnd out.
  destruct (insert_rows_passes products_df (db s)) as [d' Hrun]; try done.
  { intros r _. rewrite Hempty. apply not_elem_of_nil. }
  { intros p Hp. rewrite Hempty in Hp. by apply elem_of_nil in Hp. }
  pose proof (insert_rows_ledger products_df (db s)) as Hledger.
  rewrite Hrun in Hledger. destruct Hledger as (Hl1 & Hl2 & _).
  pose proof Hrun as Hok. apply insert_rows_ok in Hok as (Hp & _ & _).
  rewrite Hempty in Hp. simpl in Hp.
  subst out. unfold load_products, bind, execute, count_products, print.
  rewrite !Hlink. simpl. rewrite Hempty. simpl.
  rewrite !Hlink. simpl. unfold to_sql. rewrite Hrun. simpl.
  split; [done|]. split; [done|]. split; [|done].
  rewrite Hp. clear. generalize (products_product_id_seq (db s)).
  induction products_df as [|r rest IH]; intros z; [done|].
  simpl. by rewrite IH.
Qed.

Lemma catalogue_loaded_witness :
  let out := load_products link_up price_list
               {| db := blank; clock := 0; stdout := [] |} in
  out.2 = Ok tt
  /\ products (db out.1) = [Product 1 "Milk" 350; Product 2 "Bread" 500].
Proof.
  destruct (catalogue_loaded link_up price_list
              {| db := blank; clock := 0; stdout := [] |})
    as (Hok & Hp & _); try reflexivity.
  - repeat constructor.
  - by_evaluation.
  - split; [exact Hok|exact Hp].
Defined.

(** A process that loads into an empty [products] table a source that
    names a product twice raises. *)
Lemma load_products_raises link products_df s s' r :
  products (db s) = [] ->
  ~ NoDup (csv_product_name <$> products_df) ->
  load_products link products_df s = (s', r) ->
  exists e, r = Raise e.
Proof.
  intros Hempty Hdup. unfold load_products.
  intros [(e & _ & ->)|(s1 & n & H1 & H)]%bind_inv; [eauto|].
  apply execute_inv in H1 as (_ & _ & [[_ Hi]|(_ & _ & ?)]); [|done].
  unfold count_products in Hi. simplify_eq.
  rewrite Hempty in H. simpl in H.
  apply bind_inv in H as [(e & H2 & _)|(s2 & u2 & H2 & H)].
  { by apply print_inv in H2 as (? & _). }
  apply bind_inv in H as [(e & _ & ->)|(s3 & u3 & H3 & _)]; [eauto|].
  apply execute_inv in H3 as (_ & _ & [[_ Hi]|(_ & _ & ?)]); [|done].
  unfold to_sql in Hi.
  destruct (insert_rows products_df (db s2)) as [d1 [u|e]] eqn:Hrows; [|done].
  apply insert_rows_ok in Hrows as (_ & Hnd & _). done.
Qed.

(** A catalogue source that names a product twice aborts the bootstrap
    of an empty store: [initialize_database] raises and the three
    relations are as they were. *)
Theorem duplicate_names_abort link timestamp_in products_df purchases_df s :
  products (db s) = [] ->
  ~ NoDup (csv_product_name <$> products_df) ->
  let out := initialize_database link timestamp_in products_df purchases_df s in
  (exists e, out.2 = Raise e) /\ rows (db out.1) = rows (db s).
Proof.
  intros Hempty Hdup out.
  destruct (initialize_database link timestamp_in products_df purchases_df s)
    as [s' r] eqn:Hrun.
  subst out. simpl.
  apply initialize_database_inv in Hrun
    as [[Hd [e ->]]|(s1 & s2 & r2 & Hd1 & Hw & Hd2 & Hr)].
  { split; [eauto|by rewrite Hd]. }
  assert (Hraise : exists e, r2 = Raise e).
  { unfold with_begin in Hw.
    destruct (load_data link timestamp_in products_df purchases_df s1)
      as [sa [u|e]] eqn:Hbody.
    - unfold load_data in Hbody.
      apply bind_ok in Hbody as (sb & ub & Hb1 & _).
      apply load_products_raises in Hb1 as [e ?]; [done| |done].
      by rewrite Hd1.
    - simplify_eq. eauto. }
  destruct Hraise as [e ->].
  destruct Hr as [<-|(u & ? & _)]; [|done].
  split; [eauto|].
  apply with_begin_raise in Hw. rewrite Hd2, Hw, Hd1. done.
Qed.

Lemma duplicate_names_abort_witness :
  let out := initialize_database link_up epoch
               [ProductRow "Milk" 350; ProductRow "Bread" 500;
                ProductRow "Milk" 390]
               history {| db := blank; clock := 0; stdout := [] |} in
  out.2 = Raise UniqueViolation /\ rows (db out.1) = rows blank.
Proof.
  destruct (duplicate_names_abort link_up epoch
              [ProductRow "Milk" 350; ProductRow "Bread" 500;
               ProductRow "Milk" 390]
              history {| db := blank; clock := 0; stdout := [] |})
    as (_ & Hrows).
  - reflexivity.
  - apply (bool_decide_eq_false_1 (NoDup ["Milk"; "Bread"; "Milk"]%string)).
    reflexivity.
  - split; [reflexivity|exact Hrows].
Defined.

(** ** The bootstrap of an empty store *)

(** A record of the history with nothing wrong: its fields fit their
    columns, its timestamp is one, and no product is listed twice. *)
Definition good_record (timestamp_in : string -> option Z)
           (m : gmap string Z) (row : purchase_row) : Prop :=
  fits_varchar255 (csv_supermarket_id row) = true
  /\ fits_varchar255 (csv_user_id row) = true
  /\ is_Some (timestamp_in (csv_timestamp row))
  /\ NoDup (omap (known_product m) (product_names row)).

Lemma replay_all_passes link timestamp_in (m : gmap string Z) purchases_df :
  forall s,
  (forall n, link n = true) ->
  Forall (good_record timestamp_in m) purchases_df ->
  consistent (db s) ->
  sequences_ahead (db s) ->
  (forall name id, known_product m name = Some id ->
                   id ∈ (product_id <$> products (db s))) ->
  exists s', for_each purchases_df (replay_purchase link timestamp_in m) s
             = (s', Ok tt).
Proof.
  induction purchases_df as [|row rest IH];
    intros s Hlink Hgood Hcons Hahead Hids; simpl.
  - by eexists.
  - apply Forall_cons in Hgood as [(Hsid & Huid & [t Ht] & Hnd) Hgood].
    destruct (replay_purchase_passes link timestamp_in m row s t)
      as [s1 Hrun]; try done.
    { by apply LedgerFacts.ahead_fresh. }
    { by apply LedgerFacts.consistent_references. }
    { intros i (name & _ & Hname)%list_elem_of_omap. by eapply Hids. }
    unfold bind. rewrite Hrun.
    pose proof Hrun as Hev.
    apply (replay_purchase_keeps evolves evolves_refl evolves_trans
             insert_purchase_evolves insert_purchase_item_evolves)
      in Hev as (_ & _ & Hc & Ha).
    apply replay_purchase_products in Hrun as [Hp _].
    apply IH; auto. by rewrite Hp.
Qed.

Lemma bind_run {A B} (m : M A) (k : A -> M B) s s1 a :
  m s = (s1, Ok a) -> bind m k s = k a s1.
Proof. unfold bind. by intros ->. Qed.

Lemma create_tables_passes link s :
  (forall n, link n = true) ->
  exists s1, create_tables link s = (s1, Ok tt) /\ db s1 = db s.
Proof.
  intros Hlink.
  unfold create_tables, bind, execute, create_table_if_not_exists, print,
    commit.
  repeat (rewrite Hlink; simpl). by eexists.
Qed.

Lemma load_products_passes link products_df s :
  (forall n, link n = true) ->
  products (db s) = [] ->
  Forall fits_products products_df ->
  NoDup (csv_product_name <$> products_df) ->
  exists s1,
    load_products link products_df s = (s1, Ok tt)
    /\ products (db s1) = numbered (products_product_id_seq (db s)) products_df.
Proof.
  intros Hlink Hempty Hfit Hnd.
  destruct (insert_rows_passes products_df (db s)) as [d' Hrun]; try done.
  { intros r _. rewrite Hempty. apply not_elem_of_nil. }
  { intros p Hp. rewrite Hempty in Hp. by apply elem_of_nil in Hp. }
  pose proof Hrun as Hok. apply insert_rows_ok in Hok as (Hp & _ & _).
  rewrite Hempty in Hp. simpl in Hp.
  unfold load_products, bind, execute, count_products, print.
  rewrite !Hlink. simpl. rewrite Hempty. simpl.
  rewrite !Hlink. simpl. unfold to_sql. rewrite Hrun. simpl.
  by eexists.
Qed.

Lemma load_purchases_passes link timestamp_in purchases_df s :
  (forall n, link n = true) ->
  purchases (db s) = [] ->
  consistent (db s) ->
  sequences_ahead (db s) ->
  Forall (good_record timestamp_in
            (name_to_id_map_of
               ((fun p => (product_name p, product_id p)) <$> products (db s))))
         purchases_df ->
  exists s1, load_purchases link timestamp_in purchases_df s = (s1, Ok tt).
Proof.
  intros Hlink Hempty Hcons Hahead Hgood.
  unfold load_purchases, bind at 1, execute at 1, select_product_name_id.
  rewrite Hlink.
  unfold bind at 1, print at 1. unfold bind at 1, execute at 1, count_purchases.
  simpl. rewrite Hlink, Hempty. simpl.
  unfold bind at 1, print at 1. simpl. unfold bind at 1.
  match goal with
  | |- context [for_each purchases_df ?f ?st] =>
      destruct (replay_all_passes link timestamp_in
                  (name_to_id_map_of
                     ((fun p => (product_name p, product_id p))
                        <$> products (db s))) purchases_df st)
        as [s1 Hrun]; try done
  end.
  - intros name id Hk. unfold known_product in Hk.
    destruct (name_to_id_map_of _ !! name) as [id'|] eqn:Hm; [|done].
    case_bool_decide; [done|]. simplify_eq.
    apply name_to_id_map_of_lookup, list_elem_of_fmap in Hm as (p & Heq & Hp).
    simplify_eq. simpl. by apply list_elem_of_fmap_2.
  - rewrite Hrun. unfold print. by eexists.
Qed.

Lemma load_products_evolves link products_df :
  keeps evolves (load_products link products_df).
Proof.
  unfold load_products. DbInitFacts.frame evolves_refl evolves_trans.
  - intros d. apply evolves_refl.
  - case_bool_decide; DbInitFacts.frame evolves_refl evolves_trans.
    apply (to_sql_keeps evolves evolves_refl evolves_trans evolves_restore
             insert_product_evolves).
Qed.

(** On a healthy link, a store with no product and no purchase is
    bootstrapped whole from sources with nothing wrong: a catalogue whose
    rows fit their columns and have distinct names, and a history whose
    records are good for the mapping of that catalogue.
    [initialize_database] returns, the products are the rows of the
    catalogue numbered from the sequence on, and the purchases are the
    records of the history, in order. *)
Theorem empty_store_bootstrapped
    link timestamp_in products_df purchases_df s :
  (forall n, link n = true) ->
  products (db s) = [] ->
  purchases (db s) = [] ->
  purchase_items (db s) = [] ->
  sequences_ahead (db s) ->
  Forall fits_products products_df ->
  NoDup (csv_product_name <$> products_df) ->
  Forall (good_record timestamp_in
            (name_to_id_map_of
               ((fun p => (product_name p, product_id p))
                  <$> numbered (products_product_id_seq (db s)) products_df)))
         purchases_df ->
  let out := initialize_database link timestamp_in products_df purchases_df s in
  out.2 = Ok tt
  /\ products (db out.1)
     = numbered (products_product_id_seq (db s)) products_df
  /\ purchase_fields <$> purchases (db out.1)
     = csv_fields timestamp_in <$> purchases_df.
Proof.
  intros Hlink Hp Hu Hi Hahead Hfit Hnd Hgood out.
  assert (Hcons : consistent (db s)).
  { unfold consistent. rewrite Hp, Hu, Hi. simpl.
    repeat split; try constructor.
    all: by apply elem_of_nil in H. }
  destruct (create_tables_passes link
              {| db := db s; clock := clock s;
                 stdout := stdout s
                   ++ [Info "Starting database initialization..."] |} Hlink)
    as (s1 & Hcreate & Hd1).
  simpl in Hd1.
  destruct (load_products_passes link products_df s1)
    as (s2 & Hload & Hp2); try done.
  { by rewrite Hd1. }
  rewrite Hd1 in Hp2.
  pose proof (load_products_evolves _ _ _ _ _ Hload) as Hevolves.
  destruct Hevolves as (_ & _ & Hc2 & Ha2).
  pose proof (load_products_ledger _ _ _ _ _ Hload) as (Hu2 & _).
  destruct (load_purchases_passes link timestamp_in purchases_df s2)
    as (s3 & Hreplay); try done.
  { by rewrite Hu2, Hd1. }
  { apply Hc2. by rewrite Hd1. }
  { apply Ha2. by rewrite Hd1. }
  { by rewrite Hp2. }
  pose proof (load_purchases_products _ _ _ _ _ _ Hreplay) as [Hp3 _].
  pose proof Hreplay as Hseed.
  apply load_purchases_seeded in Hseed; [|by rewrite Hu2, Hd1].
  assert (Hwb : with_begin link
                  (load_data link timestamp_in products_df purchases_df) s1
                = (tick (db s3) s3, Ok tt)).
  { unfold with_begin, load_data.
    rewrite (bind_run _ _ _ _ _ Hload), Hreplay.
    unfold commit. by rewrite Hlink. }
  assert (Hrun : exists s',
            initialize_database link timestamp_in products_df purchases_df s
            = (s', Ok tt) /\ db s' = db s3).
  { unfold initialize_database.
    rewrite (bind_run (print _) _ s _ tt eq_refl).
    rewrite (bind_run _ _ _ _ _ Hcreate).
    rewrite (bind_run _ _ _ _ _ Hwb).
    unfold print. eexists. split; reflexivity. }
  destruct Hrun as (s' & Hrun & Hd'). subst out. rewrite Hrun. simpl.
  rewrite Hd'.
  split; [done|]. split; [by rewrite Hp3, Hp2|exact Hseed].
Qed.

Lemma empty_store_bootstrapped_witness :
  let out := initialize_database link_up epoch price_list history
               {| db := blank; clock := 0; stdout := [] |} in
  out.2 = Ok tt
  /\ products (db out.1) = [Product 1 "Milk" 350; Product 2 "Bread" 500]
  /\ purchase_fields <$> purchases (db out.1)
     = [("SMKT001", Some 0, "carol"); ("SMKT002", Some 0, "dave")]%string.
Proof.
  apply (empty_store_bootstrapped link_up epoch price_list history
           {| db := blank; clock := 0; stdout := [] |}); try reflexivity.
  - apply sequences_ahead_forall; by_evaluation.
  - repeat constructor.
  - by_evaluation.
  - repeat constructor; try (eexists; reflexivity); by_evaluation.
Defined.

(** ** Running the bootstrap again *)

(** Nothing is left to load from these sources. *)
Definition settled (products_df : list product_row)
           (purchases_df : list purchase_row) (d : database) : Prop :=
  (products d <> [] \/ products_df = [])
  /\ (purchases d <> [] \/ purchases_df = []).

Lemma load_products_nothing link products_df s s' r :
  products (db s) <> [] \/ products_df = [] ->
  load_products link products_df s = (s', r) -> db s' = db s.
Proof.
  intros [Hne| ->]; [by apply load_products_present|].
  unfold load_products.
  intros [(e & H1 & _)|(s1 & n & H1 & H)]%bind_inv.
  - apply execute_inv in H1 as (_ & _ & [[_ Hi]|(_ & ? & _)]); [|done].
    unfold count_products in Hi. by simplify_eq.
  - apply execute_inv in H1 as (_ & _ & [[_ Hi]|(_ & _ & ?)]); [|done].
    unfold count_products in Hi. simplify_eq.
    case_bool_decide.
    + apply bind_inv in H as [(e & H2 & _)|(s2 & u2 & H2 & H)].
      { by apply print_inv in H2 as (? & _). }
      apply print_inv in H2 as (_ & Hd2 & _).
      apply bind_inv in H as [(e & H3 & _)|(s3 & u3 & H3 & H)].
      * apply execute_inv in H3 as (_ & _ & [[_ Hi]|(_ & ? & _)]);
          [|congruence].
        unfold to_sql in Hi. simpl in Hi. simplify_eq.
      * apply execute_inv in H3 as (_ & _ & [[_ Hi]|(_ & _ & ?)]); [|done].
        unfold to_sql in Hi. simpl in Hi. simplify_eq.
        apply print_inv in H as (_ & ? & _). congruence.
    + apply print_inv in H as (_ & ? & _). congruence.
Qed.

Lemma load_purchases_nothing link timestamp_in purchases_df s s' r :
  purchases (db s) <> [] \/ purchases_df = [] ->
  load_purchases link timestamp_in purchases_df s = (s', r) -> db s' = db s.
Proof.
  intros [Hne| ->]; [by apply load_purchases_present|].
  unfold load_purchases.
  intros [(e & H1 & _)|(s1 & rows1 & H1 & H)]%bind_inv.
  - apply execute_inv in H1 as (_ & _ & [[_ Hi]|(_ & ? & _)]); [|done].
    unfold select_product_name_id in Hi. by simplify_eq.
  - apply execute_inv in H1 as (_ & _ & [[_ Hi]|(_ & _ & ?)]); [|done].
    unfold select_product_name_id in Hi. simplify_eq.
    apply bind_inv in H as [(e & H2 & _)|(s2 & u2 & H2 & H)].
    { by apply print_inv in H2 as (? & _). }
    apply print_inv in H2 as (_ & Hd2 & _).
    apply bind_inv in H as [(e & H3 & _)|(s3 & n & H3 & H)].
    + apply execute_inv in H3 as (_ & _ & [[_ Hi]|(_ & ? & _)]); [|congruence].
      unfold count_purchases in Hi. simplify_eq; congruence.
    + apply execute_inv in H3 as (_ & _ & [[_ Hi]|(_ & _ & ?)]); [|done].
      unfold count_purchases in Hi. simplify_eq.
      case_bool_decide.
      * simpl in H.
        apply bind_inv in H as [(e & H4 & _)|(s4 & u4 & H4 & H)].
        { by apply print_inv in H4 as (? & _). }
        apply print_inv in H4 as (_ & Hd4 & _).
        apply bind_inv in H as [(e & H5 & _)|(s5 & u5 & H5 & H)].
        { unfold ret in H5. simplify_eq. }
        unfold ret in H5. simplify_eq.
        apply print_inv in H as (_ & ? & _). congruence.
      * apply print_inv in H as (_ & ? & _). congruence.
Qed.

Lemma settled_run link timestamp_in products_df purchases_df s s' r :
  settled products_df purchases_df (db s) ->
  initialize_database link timestamp_in products_df purchases_df s = (s', r) ->
  db s' = db s.
Proof.
  intros [Hp Hu] Hrun.
  apply initialize_database_inv in Hrun
    as [[Hd _]|(s1 & s2 & r2 & Hd1 & Hw & Hd2 & _)]; [done|].
  rewrite Hd2, <- Hd1. symmetry. revert Hw.
  apply (with_begin_from eq); [by intros ? ? -> ; rewrite restore_same|].
  intros sa ra. unfold load_data.
  intros [(e & H1 & _)|(sb & ub & H1 & H2)]%bind_inv.
  - apply load_products_nothing in H1; [done|by rewrite Hd1].
  - apply load_products_nothing in H1; [|by rewrite Hd1].
    apply load_purchases_nothing in H2; [congruence|].
    by rewrite H1, Hd1.
Qed.

Lemma numbered_nil last products_df :
  numbered last products_df = [] -> products_df = [].
Proof. by destruct products_df. Qed.

Lemma first_run_settles link timestamp_in products_df purchases_df s s' :
  initialize_database link timestamp_in products_df purchases_df s
    = (s', Ok tt) ->
  settled products_df purchases_df (db s').
Proof.
  intros Hrun.
  apply initialize_database_inv in Hrun
    as [[_ [e ?]]|(s1 & s2 & r2 & Hd1 & Hw & Hd2 & Hr)]; [done|].
  assert (exists u, r2 = Ok u) as [u ->].
  { destruct Hr as [->|(u & -> & _)]; eauto. }
  apply with_begin_ok in Hw as (sa & Hbody & Hda).
  unfold load_data in Hbody.
  apply bind_ok in Hbody as (sb & ub & Hb1 & Hb2).
  rewrite Hd2, Hda.
  pose proof (load_purchases_products _ _ _ _ _ _ Hb2) as [Hpa _].
  pose proof (load_products_ledger _ _ _ _ _ Hb1) as (Hub & _).
  split.
  - rewrite Hpa.
    destruct (products (db s1)) as [|p ps] eqn:Hs1.
    + unfold load_products in Hb1.
      apply bind_ok in Hb1 as (sc & n & Hc1 & Hc).
      apply execute_inv in Hc1 as (_ & _ & [[_ Hi]|(_ & _ & ?)]); [|done].
      unfold count_products in Hi. simplify_eq.
      rewrite Hs1 in Hc. simpl in Hc.
      apply bind_ok in Hc as (sd & ud & Hc2 & Hc).
      apply print_inv in Hc2 as (_ & Hdd & _).
      apply bind_ok in Hc as (se & ue & Hc3 & Hc).
      apply print_inv in Hc as (_ & Hdb & _).
      apply execute_inv in Hc3 as (_ & _ & [[_ Hi]|(_ & _ & ?)]); [|done].
      unfold to_sql in Hi.
      destruct (insert_rows products_df (db sd)) as [d1 [u1|e1]] eqn:Hrows;
        [|done].
      simplify_eq. apply insert_rows_ok in Hrows as (Hp & _ & _).
      rewrite Hdb, Hp.
      destruct products_df as [|r rest]; [by right|]. left.
      simpl. by destruct (products (db sd)).
    + left. apply load_products_present in Hb1; [|by rewrite Hs1].
      by rewrite Hb1, Hs1.
  - destruct (purchases (db sb)) as [|q qs] eqn:Hsb.
    + apply load_purchases_seeded in Hb2; [|done].
      destruct purchases_df as [|row rest]; [by right|]. left.
      intros Hnil. rewrite Hnil in Hb2. done.
    + left. apply load_purchases_present in Hb2; [|by rewrite Hsb].
      by rewrite Hb2, Hsb.
Qed.

(** After a bootstrap that returned, a second bootstrap from the same
    sources changes nothing in the database, sequences included,
    whatever happens to its link. *)
Theorem second_run_changes_nothing
    link link' timestamp_in products_df purchases_df s :
  (initialize_database link timestamp_in products_df purchases_df s).2
    = Ok tt ->
  let first := initialize_database link timestamp_in products_df purchases_df s in
  let second := initialize_database link' timestamp_in products_df purchases_df
                  first.1 in
  db second.1 = db first.1.
Proof.
  intros Hok first second. subst first second.
  destruct (initialize_database link timestamp_in products_df purchases_df s)
    as [s1 r1] eqn:Hfirst.
  simpl in *. subst r1.
  destruct (initialize_database link' timestamp_in products_df purchases_df s1)
    as [s2 r2] eqn:Hsecond.
  simpl. eapply settled_run; [|exact Hsecond].
  by eapply first_run_settles.
Qed.

Lemma second_run_changes_nothing_witness :
  let first := initialize_database link_up epoch price_list history
                 {| db := blank; clock := 0; stdout := [] |} in
  let second := initialize_database link_up epoch price_list history first.1 in
  db second.1 = db first.1 /\ length (purchases (db second.1)) = 2%nat.
Proof.
  split; [|reflexivity].
  apply (second_run_changes_nothing link_up link_up epoch price_list history
           {| db := blank; clock := 0; stdout := [] |}).
  vm_compute. reflexivity.
Defined.

(** ** The names of a record *)

Fixpoint count_commas (s : string) : nat :=
  match s with
  | EmptyString => 0
  | String a rest =>
      if Ascii.eqb a ","%char then S (count_commas rest) else count_commas rest
  end.

Lemma split_comma_cons s : exists first others, split_comma s = first :: others.
Proof.
  destruct s as [|a rest]; simpl; [eauto|].
  destruct (Ascii.eqb a ","); [eauto|].
  destruct (split_comma rest); eauto.
Qed.

Lemma split_comma_pieces (s : string) :
  String.concat "," (split_comma s) = s
  /\ length (split_comma s) = S (count_commas s)
  /\ Forall (fun piece => count_commas piece = 0%nat) (split_comma s).
Proof.
  induction s as [|a rest (IH1 & IH2 & IH3)]; simpl.
  - repeat split. by repeat constructor.
  - destruct (Ascii.eqb_spec a ","%char) as [->|Hne].
    + destruct (split_comma_cons rest) as (first & others & Hsplit).
      rewrite Hsplit in *. simpl in IH2. split; [|split].
      * change (String.concat "," (""%string :: first :: others))
          with (String "," (String.concat "," (first :: others))).
        by rewrite IH1.
      * simpl. lia.
      * constructor; [done|exact IH3].
    + destruct (split_comma_cons rest) as (first & others & Hsplit).
      rewrite Hsplit in *. split; [|split].
      * rewrite <- IH1. by destruct others.
      * done.
      * apply Forall_cons in IH3 as [Hfirst Hothers].
        constructor; [|done]. simpl.
        destruct (Ascii.eqb_spec a ","%char); [done|exact Hfirst].
Qed.

(** Splitting at the commas loses nothing: joining the pieces with
    commas gives the text back, there is one piece more than there are
    commas, so at least one, and no piece holds a comma. *)
Theorem split_comma_round_trip (s : string) :
  String.concat "," (split_comma s) = s
  /\ length (split_comma s) = S (count_commas s)
  /\ (forall piece, piece ∈ split_comma s -> count_commas piece = 0%nat).
Proof.
  destruct (split_comma_pieces s) as (Hjoin & Hlen & Hall).
  split; [exact Hjoin|]. split; [exact Hlen|].
  intros piece Hin. by apply (proj1 (Forall_forall _ _) Hall piece).
Qed.

(** ** White space at the ends *)

(** A text that starts with a white space character. *)
Definition starts_with_space (s : string) : bool :=
  match s with
  | EmptyString => false
  | String a rest =>
      is_space a
      || match rest with
         | EmptyString => false
         | String b rest2 =>
             is_space2 a b
             || match rest2 with
                | EmptyString => false
                | String c _ => is_space3 a b c
                end
         end
  end.

(** A text that is one white space character. *)
Definition one_space (s : string) : bool :=
  match s with
  | String a EmptyString => is_space a
  | String a (String b EmptyString) => is_space2 a b
  | String a (String b (String c EmptyString)) => is_space3 a b c
  | _ => false
  end.

(** A text that ends with a white space character. *)
Fixpoint ends_with_space (s : string) : bool :=
  match s with
  | EmptyString => false
  | String a rest => one_space s || ends_with_space rest
  end.

Lemma string_size_ind (P : string -> Prop) :
  (forall s, (forall t, (String.length t < String.length s)%nat -> P t) -> P s) ->
  forall s, P s.
Proof.
  intros Hstep s. remember (String.length s) as n eqn:Hn.
  revert s Hn. induction n as [n IH] using lt_wf_ind.
  intros s ->. apply Hstep. intros t Ht. by apply (IH (String.length t)).
Qed.

(** The lead bytes of the white space characters of one, two and three
    bytes differ. *)
Lemma is_space2_lead a b : is_space2 a b = true -> is_space a = false.
Proof.
  unfold is_space2, is_space.
  generalize (nat_of_ascii a) (nat_of_ascii b). intros m n.
  destruct (Nat.eqb_spec m 194) as [->|]; [done|].
  by rewrite andb_false_l.
Qed.

Lemma is_space3_lead a b c :
  is_space3 a b c = true -> is_space a = false /\ is_space2 a b = false.
Proof.
  unfold is_space3, is_space2, is_space.
  generalize (nat_of_ascii a) (nat_of_ascii b) (nat_of_ascii c). intros l m n.
  destruct (Nat.eqb_spec l 225) as [->|]; [done|].
  destruct (Nat.eqb_spec l 226) as [->|]; [done|].
  destruct (Nat.eqb_spec l 227) as [->|]; [done|].
  simpl. done.
Qed.

Lemma lstrip_unfold a rest :
  lstrip (String a rest)
  = if is_space a then lstrip rest
    else match rest with
         | String b rest2 =>
             if is_space2 a b then lstrip rest2
             else match rest2 with
                  | String c rest3 =>
                      if is_space3 a b c then lstrip rest3
                      else String a rest
                  | EmptyString => String a rest
                  end
         | EmptyString => String a rest
         end.
Proof. reflexivity. Qed.

Lemma rstrip_unfold a rest :
  rstrip (String a rest)
  = if all_space (String a rest) then EmptyString else String a (rstrip rest).
Proof. reflexivity. Qed.

Lemma lstrip_starts s : starts_with_space (lstrip s) = false.
Proof.
  induction s as [s IH] using string_size_ind.
  destruct s as [|a rest]; [done|]. rewrite lstrip_unfold.
  destruct (is_space a) eqn:Ha; [apply IH; simpl; lia|].
  destruct rest as [|b rest2]; [by simpl; rewrite Ha|].
  destruct (is_space2 a b) eqn:Hab; [apply IH; simpl; lia|].
  destruct rest2 as [|c rest3]; [by simpl; rewrite Ha, Hab|].
  destruct (is_space3 a b c) eqn:Habc; [apply IH; simpl; lia|].
  by simpl; rewrite Ha, Hab, Habc.
Qed.

Lemma lstrip_id s : starts_with_space s = false -> lstrip s = s.
Proof.
  destruct s as [|a rest]; [done|]. rewrite lstrip_unfold. simpl.
  intros [Ha Hrest]%orb_false_iff. rewrite Ha.
  destruct rest as [|b rest2]; [done|].
  apply orb_false_iff in Hrest as [Hab Hrest]. rewrite Hab.
  destruct rest2 as [|c rest3]; [done|]. by rewrite Hrest.
Qed.

Lemma lstrip_commas s : (count_commas (lstrip s) <= count_commas s)%nat.
Proof.
  induction s as [s IH] using string_size_ind.
  destruct s as [|a rest]; [done|]. rewrite lstrip_unfold.
  assert (Hdrop : forall x t, (count_commas t <= count_commas (String x t))%nat).
  { intros x t. simpl. destruct (Ascii.eqb x ","); lia. }
  destruct (is_space a).
  { etrans; [apply IH; simpl; lia|]. apply Hdrop. }
  destruct rest as [|b rest2]; [done|].
  destruct (is_space2 a b).
  { etrans; [apply IH; simpl; lia|]. etrans; apply Hdrop. }
  destruct rest2 as [|c rest3]; [done|].
  destruct (is_space3 a b c); [|done].
  etrans; [apply IH; simpl; lia|]. etrans; [|apply Hdrop].
  etrans; apply Hdrop.
Qed.

(** A text of white space only, when not empty, ends with a white space
    character. *)
Lemma blank_ends s :
  s <> EmptyString -> all_space s = true -> ends_with_space s = true.
Proof.
  unfold all_space. induction s as [s IH] using string_size_ind.
  destruct s as [|a rest]; [done|]. intros _. rewrite lstrip_unfold.
  assert (Hrec : forall t, (String.length t < String.length (String a rest))%nat ->
            match lstrip t with EmptyString => true | String _ _ => false end
            = true ->
            t = EmptyString \/ ends_with_space t = true).
  { intros t Ht Hb. destruct t as [|x t']; [by left|].
    right. by apply IH. }
  destruct (is_space a) eqn:Ha.
  { intros Hb. destruct (Hrec rest) as [->|He]; [simpl; lia|done| |].
    - simpl. by rewrite Ha.
    - simpl ends_with_space. rewrite orb_true_iff. right.
      exact He. }
  destruct rest as [|b rest2]; [done|].
  destruct (is_space2 a b) eqn:Hab.
  { intros Hb. destruct (Hrec rest2) as [->|He]; [simpl; lia|done| |].
    - simpl. by rewrite Hab.
    - change (ends_with_space (String a (String b rest2)))
        with (one_space (String a (String b rest2))
              || (one_space (String b rest2) || ends_with_space rest2)).
      rewrite He. by rewrite !orb_true_r. }
  destruct rest2 as [|c rest3]; [done|].
  destruct (is_space3 a b c) eqn:Habc; [|done].
  intros Hb. destruct (Hrec rest3) as [->|He]; [simpl; lia|done| |].
  - simpl. by rewrite Habc.
  - change (ends_with_space (String a (String b (String c rest3))))
      with (one_space (String a (String b (String c rest3)))
            || (one_space (String b (String c rest3))
                || (one_space (String c rest3) || ends_with_space rest3))).
    rewrite He. by rewrite !orb_true_r.
Qed.

Lemma rstrip_blank s : rstrip s = EmptyString -> all_space s = true.
Proof.
  destruct s as [|a rest]; [done|]. rewrite rstrip_unfold.
  by destruct (all_space (String a rest)).
Qed.

(** What [rstrip] keeps is the start of the text. *)
Lemma rstrip_cons_inv s b kept :
  rstrip s = String b kept ->
  exists rest, s = String b rest /\ kept = rstrip rest
               /\ all_space s = false.
Proof.
  destruct s as [|a rest]; [done|]. rewrite rstrip_unfold.
  destruct (all_space (String a rest)); [done|].
  intros H. simplify_eq. eauto.
Qed.

Lemma rstrip_ends s : ends_with_space (rstrip s) = false.
Proof.
  induction s as [|a rest IH]; [done|]. rewrite rstrip_unfold.
  destruct (all_space (String a rest)) eqn:Hb; [done|].
  simpl ends_with_space. rewrite IH, orb_false_r.
  destruct (one_space (String a (rstrip rest))) eqn:Hone; [|done].
  exfalso. revert Hb. unfold all_space. rewrite lstrip_unfold.
  destruct (rstrip rest) as [|b [|c [|x kept]]] eqn:Hk; simpl in Hone.
  - apply rstrip_blank in Hk. unfold all_space in Hk. rewrite Hone.
    by destruct (lstrip rest).
  - apply rstrip_cons_inv in Hk as (rest2 & -> & Hk & _).
    symmetry in Hk. apply rstrip_blank in Hk. unfold all_space in Hk.
    rewrite (is_space2_lead _ _ Hone), Hone. by destruct (lstrip rest2).
  - apply rstrip_cons_inv in Hk as (rest2 & -> & Hk & _).
    symmetry in Hk.
    apply rstrip_cons_inv in Hk as (rest3 & -> & Hk & _).
    symmetry in Hk. apply rstrip_blank in Hk. unfold all_space in Hk.
    destruct (is_space3_lead _ _ _ Hone) as [-> ->]. rewrite Hone.
    by destruct (lstrip rest3).
  - done.
Qed.

Lemma rstrip_ends_id s : ends_with_space s = false -> rstrip s = s.
Proof.
  induction s as [|a rest IH]; [done|]. intros He. rewrite rstrip_unfold.
  destruct (all_space (String a rest)) eqn:Hb.
  - apply blank_ends in Hb; [congruence|done].
  - simpl in He. apply orb_false_iff in He as [_ He]. by rewrite IH.
Qed.

Lemma rstrip_rstrip s : rstrip (rstrip s) = rstrip s.
Proof. apply rstrip_ends_id, rstrip_ends. Qed.

Lemma rstrip_starts s :
  starts_with_space s = false -> starts_with_space (rstrip s) = false.
Proof.
  destruct s as [|a rest]; [done|]. rewrite rstrip_unfold.
  destruct (all_space (String a rest)); [done|]. simpl.
  intros [Ha Hrest]%orb_false_iff. rewrite Ha. simpl.
  destruct (rstrip rest) as [|b kept] eqn:Hk; [done|].
  apply rstrip_cons_inv in Hk as (rest2 & -> & -> & _).
  apply orb_false_iff in Hrest as [Hab Hrest]. rewrite Hab. simpl.
  destruct (rstrip rest2) as [|c kept] eqn:Hk; [done|].
  apply rstrip_cons_inv in Hk as (rest3 & -> & _ & _). exact Hrest.
Qed.

Lemma rstrip_commas s : (count_commas (rstrip s) <= count_commas s)%nat.
Proof.
  induction s as [|a rest IH]; [done|]. rewrite rstrip_unfold.
  destruct (all_space (String a rest)); simpl; [lia|].
  destruct (Ascii.eqb a ","); lia.
Qed.




(** The names of a record are the pieces between the commas of the text
    of its items list, stripped: one more than there are commas, so
    never none, each without a comma and without a white space
    character at its ends. *)
Theorem product_names_clean (row : purchase_row) :
  length (product_names row) = S (count_commas (csv_items_list row))
  /\ Forall (fun name => count_commas name = 0%nat
                         /\ starts_with_space name = false
                         /\ ends_with_space name = false
                         /\ strip name = name)
            (product_names row).
Proof.
  unfold product_names.
  destruct (split_comma_pieces (csv_items_list row)) as (_ & Hlen & Hall).
  split; [by rewrite length_fmap|].
  apply Forall_fmap. eapply Forall_impl; [exact Hall|].
  intros piece Hpiece. simpl.
  split; [|split; [|split]].
  2:{ apply rstrip_starts, lstrip_starts. }
  2:{ apply rstrip_ends. }
  2:{ unfold strip.
      rewrite (lstrip_id (rstrip (lstrip piece)))
        by apply rstrip_starts, lstrip_starts.
      apply rstrip_rstrip. }
  unfold strip.
  pose proof (rstrip_commas (lstrip piece)).
  pose proof (lstrip_commas piece). simpl in Hpiece. lia.
Qed.

(** ** Waiting for the database *)

(** The lines and pauses of [n] failed attempts from attempt [i] on. *)
Definition retries (i n : nat) : list startup_event :=
  k ← seq i n; [NotReady (k + 1) max_retries retry_delay; Slept retry_delay].

Lemma wait_loop_spec ready todo : forall i,
  match wait_loop ready i todo with
  | (evs, Engine j) =>
      (i <= j < i + todo)%nat /\ ready j = true
      /\ (forall k, (i <= k < j)%nat -> ready k = false)
      /\ evs = retries i (j - i) ++ [Connected]
  | (evs, Exit code) =>
      code = 1
      /\ (forall k, (i <= k < i + todo)%nat -> ready k = false)
      /\ evs = retries i todo ++ [GaveUp]
  end.
Proof.
  induction todo as [|todo IH]; intros i; simpl.
  - split; [done|]. split; [lia|done].
  - destruct (ready i) eqn:Hi.
    + split; [lia|]. split; [done|]. split; [lia|].
      by rewrite Nat.sub_diag.
    + specialize (IH (S i)).
      destruct (wait_loop ready (S i) todo) as [evs [j|code]].
      * destruct IH as (Hj & Hr & Hbefore & ->).
        split; [lia|]. split; [done|]. split.
        -- intros k Hk. destruct (decide (k = i)) as [->|?]; [done|].
           apply Hbefore. lia.
        -- replace (j - i)%nat with (S (j - S i)) by lia. done.
      * destruct IH as (-> & Hnone & ->).
        split; [done|]. split; [|done].
        intros k Hk. destruct (decide (k = i)) as [->|?]; [done|].
        apply Hnone. lia.
Qed.

(** [wait_for_db] returns the engine of the first of its ten attempts
    that connects, after one "not ready" line and one pause of five
    seconds for each attempt before it; when none of the ten connects it
    prints ten such lines, gives up and exits with code 1.  [main]
    initializes the database exactly in the first case. *)
Theorem wait_for_db_first_ready ready :
  match wait_for_db ready with
  | (evs, Engine j) =>
      (j < 10)%nat /\ ready j = true
      /\ (forall k, (k < j)%nat -> ready k = false)
      /\ evs = retries 0 j ++ [Connected]
      /\ (forall link timestamp_in products_df purchases_df s,
            main ready link timestamp_in products_df purchases_df s
            = (evs, Some (initialize_database link timestamp_in products_df
                                              purchases_df s)))
  | (evs, Exit code) =>
      code = 1
      /\ (forall k, (k < 10)%nat -> ready k = false)
      /\ evs = retries 0 10 ++ [GaveUp]
      /\ (forall link timestamp_in products_df purchases_df s,
            main ready link timestamp_in products_df purchases_df s
            = (evs, None))
  end.
Proof.
  pose proof (wait_loop_spec ready max_retries 0) as H.
  unfold main, wait_for_db.
  destruct (wait_loop ready 0 max_retries) as [evs [j|code]].
  - destruct H as (Hj & Hr & Hbefore & Hevs).
    split; [unfold max_retries in Hj; lia|]. split; [done|]. split.
    + intros k Hk. apply Hbefore. lia.
    + split; [by rewrite Nat.sub_0_r in Hevs|done].
  - destruct H as (Hc & Hnone & Hevs).
    split; [done|]. split; [|done].
    intros k Hk. apply Hnone. unfold max_retries. lia.
Qed.

End BootstrapFacts.
